(** * Settings hot-reload and lifecycle of the slackmgr example hosts

    A shallow embedding of [flexible/main.go], the backend factory of the
    flexible example, [flexible/config/config.go] and the [exitMain] shared
    with the minimal example, together with the properties of the settings
    refresh loop, the startup sequence and the exit-code mapping. *)

From Stdlib Require Import List Strings.String Strings.Ascii Strings.Byte NArith ZArith Bool Lia.
Import ListNotations.

Local Open Scope string_scope.

(** ** Byte strings and the fingerprint ([hash] in the factory file) *)

Module Sha256.

Local Open Scope list_scope.
Local Open Scope N_scope.

(** 32-bit words are values of [N] reduced modulo [2^32]. *)
Definition mask32 : N := 0xFFFFFFFF.
Definition w32 (x : N) : N := N.land x mask32.
Definition add32 (x y : N) : N := w32 (x + y).
Definition rotr (n x : N) : N :=
  N.lor (N.shiftr x n) (w32 (N.shiftl x (32 - n))).
Definition not32 (x : N) : N := N.lxor x mask32.

Definition Ch (x y z : N) : N := N.lxor (N.land x y) (N.land (not32 x) z).
Definition Maj (x y z : N) : N :=
  N.lxor (N.lxor (N.land x y) (N.land x z)) (N.land y z).
Definition Sigma0 (x : N) : N := N.lxor (N.lxor (rotr 2 x) (rotr 13 x)) (rotr 22 x).
Definition Sigma1 (x : N) : N := N.lxor (N.lxor (rotr 6 x) (rotr 11 x)) (rotr 25 x).
Definition sigma0 (x : N) : N := N.lxor (N.lxor (rotr 7 x) (rotr 18 x)) (N.shiftr x 3).
Definition sigma1 (x : N) : N := N.lxor (N.lxor (rotr 17 x) (rotr 19 x)) (N.shiftr x 10).

(** The constants of the algorithm are fractional parts of roots of the
    first primes: the round constants are the first 32 bits of the
    fractional parts of the cube roots of the first 64 primes, the initial
    state those of the square roots of the first 8. *)
Definition is_prime (n : N) : bool :=
  (2 <=? n) && forallb (fun d => negb (n mod d =? 0)) (map N.of_nat (seq 2 (N.to_nat n - 2))).

Definition primes : list N :=
  Eval vm_compute in filter is_prime (map N.of_nat (seq 0 312)).

(** The integer cube root, one bit at a time from the top. *)
Fixpoint cbrt_bits (bit : nat) (x r : N) : N :=
  match bit with
  | O => r
  | S b =>
      let r' := N.lor r (N.shiftl 1 (N.of_nat b)) in
      if r' * r' * r' <=? x then cbrt_bits b x r' else cbrt_bits b x r
  end.

Definition frac_cbrt (p : N) : N := w32 (cbrt_bits 40 (N.shiftl p 96) 0).
Definition frac_sqrt (p : N) : N := w32 (N.sqrt (N.shiftl p 64)).

Definition K : list N := Eval vm_compute in map frac_cbrt primes.

Definition H0 : list N := Eval vm_compute in map frac_sqrt (firstn 8 primes).

(** Big-endian encoding of a number on [n] bytes. *)
Fixpoint be_bytes (n : nat) (x : N) : list N :=
  match n with
  | O => []
  | S n' => N.land (N.shiftr x (8 * N.of_nat n')) 0xFF :: be_bytes n' x
  end.

(** Padding: a [1] bit, zeros up to 56 modulo 64, then the bit length on 8 bytes. *)
Definition pad (msg : list N) : list N :=
  let len := N.of_nat (List.length msg) in
  let zeros := N.to_nat ((55 + 64 - len mod 64) mod 64) in
  msg ++ 0x80 :: repeat 0 zeros ++ be_bytes 8 (8 * len).

Fixpoint words_of_bytes (n : nat) (bs : list N) : list N :=
  match n, bs with
  | S n', a :: b :: c :: d :: rest =>
      (N.shiftl a 24 + N.shiftl b 16 + N.shiftl c 8 + d) :: words_of_bytes n' rest
  | _, _ => []
  end.

(** The message schedule, kept most recent word first. *)
Fixpoint extend (n : nat) (rev_w : list N) : list N :=
  match n with
  | O => rev_w
  | S n' =>
      let w := add32 (add32 (sigma1 (nth 1 rev_w 0)) (nth 6 rev_w 0))
                     (add32 (sigma0 (nth 14 rev_w 0)) (nth 15 rev_w 0)) in
      extend n' (w :: rev_w)
  end.

Definition schedule (block : list N) : list N :=
  rev (extend 48 (rev (words_of_bytes 16 block))).

Record regs := Regs { ra : N; rb : N; rc : N; rd : N; re : N; rf : N; rg : N; rh : N }.

Definition round (s : regs) (kw : N * N) : regs :=
  let t1 := add32 (add32 (add32 (rh s) (Sigma1 (re s))) (Ch (re s) (rf s) (rg s)))
                  (add32 (fst kw) (snd kw)) in
  let t2 := add32 (Sigma0 (ra s)) (Maj (ra s) (rb s) (rc s)) in
  Regs (add32 t1 t2) (ra s) (rb s) (rc s) (add32 (rd s) t1) (re s) (rf s) (rg s).

Definition regs_of (h : list N) : regs :=
  Regs (nth 0 h 0) (nth 1 h 0) (nth 2 h 0) (nth 3 h 0)
       (nth 4 h 0) (nth 5 h 0) (nth 6 h 0) (nth 7 h 0).

Definition compress (h : list N) (block : list N) : list N :=
  let s0 := regs_of h in
  let s := fold_left round (combine K (schedule block)) s0 in
  [ add32 (ra s0) (ra s); add32 (rb s0) (rb s); add32 (rc s0) (rc s); add32 (rd s0) (rd s);
    add32 (re s0) (re s); add32 (rf s0) (rf s); add32 (rg s0) (rg s); add32 (rh s0) (rh s) ].

Fixpoint blocks (n : nat) (h : list N) (bs : list N) : list N :=
  match n with
  | O => h
  | S n' =>
      match bs with
      | [] => h
      | _ => blocks n' (compress h (firstn 64 bs)) (skipn 64 bs)
      end
  end.

(** [sha256.New(); h.Write(input); h.Sum(nil)]: the 32-byte digest. *)
Definition sum256 (input : list byte) : list byte :=
  let msg := pad (map Byte.to_N input) in
  let h := blocks (List.length msg) H0 msg in
  map (fun n => match Byte.of_N n with Some b => b | None => x00 end)
      (flat_map (be_bytes 4) h).

End Sha256.

(** [hex.EncodeToString]: two lower-case hexadecimal digits per byte. *)
Definition hextable : string := "0123456789abcdef".

Definition hex_digit (n : N) : ascii :=
  match String.get (N.to_nat n) hextable with
  | Some c => c
  | None => "0"%char
  end.

Fixpoint EncodeToString (src : list byte) : string :=
  match src with
  | [] => EmptyString
  | b :: rest =>
      let v := Byte.to_N b in
      String (hex_digit (N.shiftr v 4))
             (String (hex_digit (N.land v 0x0f)) (EncodeToString rest))
  end.

(** [hash]: the hex-encoded SHA-256 digest of the raw bytes. *)
Definition hash (input : list byte) : string :=
  EncodeToString (Sha256.sum256 input).


(** ** Errors and formatted values

    Go's [error] is an interface; [nil] is [None] of [option error].  The
    package-level sentinel variables are compared by identity, so they get a
    type of their own.  The calls to [fmt.Errorf], [fmt.Sprintf] and to the
    loggers are kept as data, the format string with its arguments, and are
    not rendered: the format strings below are the source text of the Go
    literals, escapes included. *)

Inductive sentinel : Type :=
| Canceled           (* context.Canceled *)
| DeadlineExceeded   (* context.DeadlineExceeded *)
| ErrSyntax          (* strconv.ErrSyntax *)
| ErrRange.          (* strconv.ErrRange *)

#[warnings="-register-all"]
Inductive error : Type :=
| Sentinel (s : sentinel)
| errorString (s : string)                               (* errors.New(s) *)
| fmtError (format : string) (args : list value)         (* fmt.Errorf without %w *)
| wrapError (format : string) (args : list value) (err : error)
                                                         (* fmt.Errorf ending in %w, bound to err *)
| NumError (Func Num : string) (Err : error)             (* *strconv.NumError *)
| PathError (Op Path : string) (Err : error)             (* *fs.PathError *)
| Errno (code : Z)                                       (* syscall.Errno *)
with value : Type :=
| VString (s : string)
| VInt (n : Z)
| VBytes (b : list byte)
| VError (e : error)
| VSprintf (format : string) (args : list value).        (* the string fmt.Sprintf(format, args...) *)

Definition sentinel_eqb (a b : sentinel) : bool :=
  match a, b with
  | Canceled, Canceled => true
  | DeadlineExceeded, DeadlineExceeded => true
  | ErrSyntax, ErrSyntax => true
  | ErrRange, ErrRange => true
  | _, _ => false
  end.

(** The [Unwrap() error] method, for the types that have one. *)
Definition Unwrap (e : error) : option error :=
  match e with
  | wrapError _ _ err => Some err
  | NumError _ _ err => Some err
  | PathError _ _ err => Some err
  | _ => None
  end.

(** [errors.Is] against a sentinel: walk the [Unwrap] chain, comparing each
    link with the target.  None of the types above has an [Is] method that
    accepts a sentinel of the table ([Errno.Is] answers for the [os] errors
    only). *)
Fixpoint errors_Is_chain (err : error) (target : sentinel) : bool :=
  match err with
  | Sentinel s => sentinel_eqb s target
  | wrapError _ _ inner => errors_Is_chain inner target
  | NumError _ _ inner => errors_Is_chain inner target
  | PathError _ _ inner => errors_Is_chain inner target
  | errorString _ | fmtError _ _ | Errno _ => false
  end.

Definition errors_Is (err : option error) (target : sentinel) : bool :=
  match err with
  | None => false
  | Some e => errors_Is_chain e target
  end.

(** ** Logging: one entry per [Msgf] call of the global zerolog logger or per
    call of the [Logger] methods *)

Inductive log_level : Type := DebugLevel | InfoLevel | ErrorLevel.

Record log_entry : Type := Log { entry_level : log_level; entry_format : string; entry_args : list value }.

(** ** [exitMain] (the same function in both examples) *)

Record exit_status : Type := Exit { exit_log : list log_entry; returnCode : Z }.

Definition exitMain (err : option error) : exit_status :=
  match err with
  | None => Exit [] 0
  | Some e =>
      if errors_Is err Canceled
      then Exit [Log InfoLevel "Application canceled: %s" [VError e]] 0
      else Exit [Log ErrorLevel "Application failed: %s" [VError e]] 1
  end.

(** ** [strconv.Atoi] and [strconv.ParseBool] *)

Definition is_digit (c : ascii) : bool :=
  let n := N_of_ascii c in (48 <=? n)%N && (n <=? 57)%N.

Definition digit_value (c : ascii) : Z := Z.of_N (N_of_ascii c) - 48.

Definition maxUint64 : Z := 2 ^ 64 - 1.

Inductive scan : Type := ScanOk (n : Z) | ScanSyntax | ScanRange.

(** The digit loop of [ParseUint] in base 10 on 64 bits: a character that is
    not a digit is a syntax error, an overflow is a range error, whichever
    comes first from the left. *)
Fixpoint parse_digits (s : string) (n : Z) : scan :=
  match s with
  | EmptyString => ScanOk n
  | String c rest =>
      if negb (is_digit c) then ScanSyntax
      else if (maxUint64 / 10 + 1 <=? n)%Z then ScanRange
      else
        let n1 := (n * 10 + digit_value c)%Z in
        if (maxUint64 <? n1)%Z then ScanRange else parse_digits rest n1
  end.

Definition Atoi (s : string) : error + Z :=
  let neg := match s with String "-" _ => true | _ => false end in
  let body := match s with
              | String "+" rest => rest
              | String "-" rest => rest
              | _ => s
              end in
  match body with
  | EmptyString => inl (NumError "Atoi" s (Sentinel ErrSyntax))
  | _ =>
      match parse_digits body 0 with
      | ScanSyntax => inl (NumError "Atoi" s (Sentinel ErrSyntax))
      | ScanRange => inl (NumError "Atoi" s (Sentinel ErrRange))
      | ScanOk un =>
          if negb neg && (2 ^ 63 <=? un)%Z then inl (NumError "Atoi" s (Sentinel ErrRange))
          else if neg && (2 ^ 63 <? un)%Z then inl (NumError "Atoi" s (Sentinel ErrRange))
          else inr (if neg then (- un)%Z else un)
      end
  end.

Definition ParseBool (str : string) : error + bool :=
  if existsb (String.eqb str) ["1"; "t"; "T"; "TRUE"; "true"; "True"] then inr true
  else if existsb (String.eqb str) ["0"; "f"; "F"; "FALSE"; "false"; "False"] then inr false
  else inl (NumError "ParseBool" str (Sentinel ErrSyntax)).

(** Conversions between the integer types: [int] and [int64] are 64-bit,
    [int32(x)] keeps the low 32 bits, both in two's complement. *)
Definition wrap (bits : Z) (x : Z) : Z :=
  ((x + 2 ^ (bits - 1)) mod 2 ^ bits - 2 ^ (bits - 1))%Z.

Definition int32 (x : Z) : Z := wrap 32 x.
Definition int64 (x : Z) : Z := wrap 64 x.

(** [time.Duration] counts nanoseconds on an [int64]. *)
Definition Second : Z := 1000000000.

(** ** Outcomes of a call

    A call returns normally, returns early with an error, or panics with a
    value. *)

Inductive result (A : Type) : Type :=
| Ok (a : A)
| Fail (e : error)
| Panic (v : value).

Arguments Ok {A} a.
Arguments Fail {A} e.
Arguments Panic {A} v.

Definition result_bind {A B : Type} (r : result A) (k : A -> result B) : result B :=
  match r with
  | Ok a => k a
  | Fail e => Fail e
  | Panic v => Panic v
  end.

Declare Scope result_scope.
Delimit Scope result_scope with result.
Notation "x <- r ;; k" := (result_bind r (fun x => k))
  (at level 61, r at next level, right associativity) : result_scope.

(** ** The process environment and [config.New] *)

(** The environment block, one pair per variable; the first entry of a name
    is the one [os.LookupEnv] sees. *)
Definition Env : Type := list (string * string).

Fixpoint LookupEnv (env : Env) (key : string) : option string :=
  match env with
  | [] => None
  | (k, v) :: rest => if String.eqb k key then Some v else LookupEnv rest key
  end.

Definition Getenv (env : Env) (key : string) : string :=
  match LookupEnv env key with
  | Some v => v
  | None => ""
  end.

Record SqsQueueConfig : Type := {
  QueueName : string;
  VisibilityTimeoutSeconds : Z;
  MaxNumberOfMessages : Z;
  WaitTimeSeconds : Z
}.

Record DynamoDBConfig : Type := { TableName : string }.

Record AwsConfig : Type := {
  Region : string;
  Key : string;
  SecretKey : string;
  SessionToken : string;
  AssumeRole : string;
  MaxRetryAttempts : Z;
  MaxRetryBackoffDelay : Z;
  Concurrency : Z;
  SqsEndpoint : string;
  AlertQueue : SqsQueueConfig;
  CommandQueue : SqsQueueConfig;
  DynamoDB : DynamoDBConfig
}.

Record PostgresConfig : Type := {
  Host : string;
  Port : Z;
  User : string;
  Password : string;
  Database : string;
  SSLMode : string;
  IssuesTable : string;
  AlertsTable : string;
  MoveMappingsTable : string;
  ChannelProcessingStateTable : string
}.

Record SlackConfig : Type := { AppToken : string; BotToken : string }.

Record RedisConfig : Type := {
  Addr : string;
  Username : string;
  RedisPassword : string;
  DB : Z
}.

Record Config : Type := {
  LogJSON : bool;
  Verbose : bool;
  Location : string;
  RestPort : string;
  EncryptionKey : string;
  SkipDatabaseCache : bool;
  EnableMetrics : bool;
  MetricsPort : string;
  QueueMode : string;
  DatabaseMode : string;
  ManagerSettingsFilename : string;
  APISettingsFilename : string;
  Aws : AwsConfig;
  Postgres : PostgresConfig;
  Slack : SlackConfig;
  Redis : RedisConfig
}.

Definition GetEnvIfSet (env : Env) (envVar defaultValue : string) : string :=
  match LookupEnv env envVar with
  | Some val => val
  | None => defaultValue
  end.

Definition GetEnvIntIfSet (env : Env) (envVar : string) (defaultValue : Z) : result Z :=
  let str := Getenv env envVar in
  if negb (String.eqb str "") then
    match Atoi str with
    | inl err =>
        Panic (VSprintf "failed to parse environment variable %s as int: %v"
                        [VString envVar; VError err])
    | inr val => Ok val
    end
  else Ok defaultValue.

Definition GetEnvSecondsIfSet (env : Env) (envVar : string) (defaultValue : Z) : result Z :=
  (val <- GetEnvIntIfSet env envVar defaultValue ;;
   Ok (int64 (val * Second)))%result.

Definition GetEnvBoolIfSet (env : Env) (envVar : string) (defaultValue : bool) : result bool :=
  let str := Getenv env envVar in
  if negb (String.eqb str "") then
    match ParseBool str with
    | inl err =>
        Panic (VSprintf "failed to parse environment variable %s as bool: %v"
                        [VString envVar; VError err])
    | inr val => Ok val
    end
  else Ok defaultValue.

(** [config.New]: the initialisers run in the order of the composite literal,
    so the first malformed variable in that order is the one that panics. *)
Definition New (env : Env) : result Config :=
  (logJSON <- GetEnvBoolIfSet env "LOG_JSON" true ;;
   verbose <- GetEnvBoolIfSet env "VERBOSE" false ;;
   let location := GetEnvIfSet env "LOCATION" "Europe/Oslo" in
   let restPort := GetEnvIfSet env "REST_PORT" "8080" in
   let encryptionKey := GetEnvIfSet env "ENCRYPTION_KEY" "" in
   skipDatabaseCache <- GetEnvBoolIfSet env "SKIP_DATABASE_CACHE" false ;;
   enableMetrics <- GetEnvBoolIfSet env "ENABLE_METRICS" true ;;
   let metricsPort := GetEnvIfSet env "METRICS_PORT" "9090" in
   let queueMode := GetEnvIfSet env "QUEUE_MODE" "redis" in
   let databaseMode := GetEnvIfSet env "DATABASE_MODE" "postgres" in
   let managerSettingsFilename := GetEnvIfSet env "MANAGER_SETTINGS_FILENAME" "manager-settings.yaml" in
   let apiSettingsFilename := GetEnvIfSet env "API_SETTINGS_FILENAME" "api-settings.yaml" in
   let region := GetEnvIfSet env "AWS_REGION" "" in
   let key := GetEnvIfSet env "AWS_ACCESS_KEY_ID" "" in
   let secretKey := GetEnvIfSet env "AWS_SECRET_ACCESS_KEY" "" in
   let sessionToken := GetEnvIfSet env "AWS_SESSION_TOKEN" "" in
   let assumeRole := GetEnvIfSet env "AWS_ASSUME_ROLE" "" in
   maxRetryAttempts <- GetEnvIntIfSet env "AWS_MAX_RETRY_ATTEMPTS" 5 ;;
   maxRetryBackoffDelay <- GetEnvSecondsIfSet env "AWS_MAX_RETRY_BACKOFF_DELAY" 30 ;;
   concurrency <- GetEnvIntIfSet env "AWS_CONCURRENCY" 10 ;;
   let sqsEndpoint := GetEnvIfSet env "AWS_SQS_ENDPOINT" "" in
   let alertQueueName := GetEnvIfSet env "AWS_SQS_ALERT_QUEUE_NAME" "" in
   alertVisibility <- GetEnvIntIfSet env "AWS_SQS_ALERT_QUEUE_VISIBILITY_TIMEOUT_SECONDS" 30 ;;
   alertMaxMessages <- GetEnvIntIfSet env "AWS_SQS_ALERT_QUEUE_MAX_NUMBER_OF_MESSAGES" 10 ;;
   alertWait <- GetEnvIntIfSet env "AWS_SQS_ALERT_QUEUE_WAIT_TIME_SECONDS" 20 ;;
   let commandQueueName := GetEnvIfSet env "AWS_SQS_COMMAND_QUEUE_NAME" "" in
   commandVisibility <- GetEnvIntIfSet env "AWS_SQS_COMMAND_QUEUE_VISIBILITY_TIMEOUT_SECONDS" 30 ;;
   commandMaxMessages <- GetEnvIntIfSet env "AWS_SQS_COMMAND_QUEUE_MAX_NUMBER_OF_MESSAGES" 10 ;;
   commandWait <- GetEnvIntIfSet env "AWS_SQS_COMMAND_QUEUE_WAIT_TIME_SECONDS" 20 ;;
   let tableName := GetEnvIfSet env "AWS_DYNAMODB_TABLE_NAME" "" in
   let host := GetEnvIfSet env "POSTGRES_HOST" "" in
   port <- GetEnvIntIfSet env "POSTGRES_PORT" 0 ;;
   let user := GetEnvIfSet env "POSTGRES_USER" "" in
   let password := GetEnvIfSet env "POSTGRES_PASSWORD" "" in
   let database := GetEnvIfSet env "POSTGRES_DATABASE" "" in
   let sslMode := GetEnvIfSet env "POSTGRES_SSL_MODE" "disable" in
   let issuesTable := GetEnvIfSet env "POSTGRES_ISSUES_TABLE" "issues" in
   let alertsTable := GetEnvIfSet env "POSTGRES_ALERTS_TABLE" "alerts" in
   let moveMappingsTable := GetEnvIfSet env "POSTGRES_MOVE_MAPPINGS_TABLE" "move_mappings" in
   let channelProcessingStateTable :=
     GetEnvIfSet env "POSTGRES_CHANNEL_PROCESSING_STATE_TABLE" "channel_processing_state" in
   let appToken := GetEnvIfSet env "SLACK_APP_TOKEN" "" in
   let botToken := GetEnvIfSet env "SLACK_BOT_TOKEN" "" in
   let redisAddr := GetEnvIfSet env "REDIS_ADDR" "" in
   let redisPassword := GetEnvIfSet env "REDIS_PASSWORD" "" in
   let redisUsername := GetEnvIfSet env "REDIS_USERNAME" "" in
   redisDB <- GetEnvIntIfSet env "REDIS_DB" 0 ;;
   Ok {| LogJSON := logJSON;
         Verbose := verbose;
         Location := location;
         RestPort := restPort;
         EncryptionKey := encryptionKey;
         SkipDatabaseCache := skipDatabaseCache;
         EnableMetrics := enableMetrics;
         MetricsPort := metricsPort;
         QueueMode := queueMode;
         DatabaseMode := databaseMode;
         ManagerSettingsFilename := managerSettingsFilename;
         APISettingsFilename := apiSettingsFilename;
         Aws := {| Region := region;
                   Key := key;
                   SecretKey := secretKey;
                   SessionToken := sessionToken;
                   AssumeRole := assumeRole;
                   MaxRetryAttempts := maxRetryAttempts;
                   MaxRetryBackoffDelay := maxRetryBackoffDelay;
                   Concurrency := int64 concurrency;
                   SqsEndpoint := sqsEndpoint;
                   AlertQueue := {| QueueName := alertQueueName;
                                    VisibilityTimeoutSeconds := int32 alertVisibility;
                                    MaxNumberOfMessages := int32 alertMaxMessages;
                                    WaitTimeSeconds := int32 alertWait |};
                   CommandQueue := {| QueueName := commandQueueName;
                                      VisibilityTimeoutSeconds := int32 commandVisibility;
                                      MaxNumberOfMessages := int32 commandMaxMessages;
                                      WaitTimeSeconds := int32 commandWait |};
                   DynamoDB := {| TableName := tableName |} |};
         Postgres := {| Host := host;
                        Port := port;
                        User := user;
                        Password := password;
                        Database := database;
                        SSLMode := sslMode;
                        IssuesTable := issuesTable;
                        AlertsTable := alertsTable;
                        MoveMappingsTable := moveMappingsTable;
                        ChannelProcessingStateTable := channelProcessingStateTable |};
         Slack := {| AppToken := appToken; BotToken := botToken |};
         Redis := {| Addr := redisAddr;
                     RedisPassword := redisPassword;
                     Username := redisUsername;
                     DB := redisDB |} |})%result.

Local Open Scope list_scope.

(** ** Effects of the main goroutine

    The main flow emits events (goroutines it starts, log entries of the
    [Logger], the deferred [cancel]) and ends in a [result]. *)

Inductive task : Type :=
| HandleSignals                  (* go handleSignals(ctx, cancel) *)
| MetricsServer (port : string)  (* go func() { http.ListenAndServe(":"+port, nil) } *)
| APIServerRun                   (* errg.Go(apiServer.Run) *)
| ManagerRun                     (* errg.Go(manager.Run) *)
| RefreshSettings (managerSettingsHash apiSettingsHash : string).
                                 (* errg.Go(refreshSettings), with the baseline fingerprints *)

Inductive event : Type :=
| EvGo (t : task)
| EvLog (l : log_entry)
| EvCancel.

Definition M (A : Type) : Type := (list event * result A)%type.

Definition ret {A : Type} (a : A) : M A := ([], Ok a).
Definition fail {A : Type} (e : error) : M A := ([], Fail e).
Definition panic {A : Type} (v : value) : M A := ([], Panic v).
Definition emit (e : event) : M unit := ([e], Ok tt).
Definition lift {A : Type} (r : result A) : M A := ([], r).

Definition bind {A B : Type} (m : M A) (k : A -> M B) : M B :=
  match snd m with
  | Ok a => (fst m ++ fst (k a), snd (k a))
  | Fail e => (fst m, Fail e)
  | Panic v => (fst m, Panic v)
  end.

Declare Scope M_scope.
Delimit Scope M_scope with M.
Notation "x <- m ;; k" := (bind m (fun x => k))
  (at level 61, m at next level, right associativity) : M_scope.
Notation "m ;; k" := (bind m (fun _ => k))
  (at level 61, right associativity) : M_scope.

(** [if err != nil { return fmt.Errorf(format, err) }] around a call that
    returns [(value, error)]. *)
Definition or_return {A : Type} (format : string) (m : M A) : M A :=
  match snd m with
  | Fail err => (fst m, Fail (wrapError format [] err))
  | _ => m
  end.

(** ** The [Logger] of the flexible example *)

Record Logger : Type := { logger_level : log_level; logger_json : bool }.

Definition newLogger (cfg : Config) : Logger :=
  {| logger_level := if Verbose cfg then DebugLevel else InfoLevel;
     logger_json := LogJSON cfg |}.

Definition Logger_Info (l : Logger) (msg : string) : M unit :=
  emit (EvLog (Log InfoLevel msg [])).

Definition Logger_Infof (l : Logger) (format : string) (args : list value) : M unit :=
  emit (EvLog (Log InfoLevel format args)).

(** ** Clients built by the backend factory *)

Record RedisOptions : Type := {
  opt_Addr : string;
  opt_Username : string;
  opt_Password : string;
  opt_DB : Z
}.

Inductive credentials : Type :=
| DefaultCredentials
| StaticCredentials (key secret token : string)
| AssumeRoleCredentials (role : string) (base : credentials).

Record aws_Config : Type := { aws_Region : string; aws_Credentials : credentials }.

Inductive ChannelLocker : Type := RedisChannelLocker (client : RedisOptions).

Inductive FifoQueue : Type :=
| SQSClient (awsCfg : aws_Config) (queueCfg : SqsQueueConfig) (maxRetryAttempts maxRetryBackoffDelay : Z)
| RedisFifoQueue (client : RedisOptions) (locker : ChannelLocker) (name : string)
| InMemoryFifoQueue (name : string) (capacity timeout : Z).

Inductive types_DB : Type :=
| DynamoDBClient (awsCfg : aws_Config) (table : string)
| PostgresClient (cfg : PostgresConfig).

Inductive time_Location : Type := LocationOf (name : string).

(** The fields of the core library's configurations that [mainImpl] sets
    over the defaults. *)
Record ManagerConfig : Type := {
  mc_BotToken : string;
  mc_AppToken : string;
  mc_EncryptionKey : string;
  mc_Location : time_Location;
  mc_SkipDatabaseCache : bool
}.

Record APIConfig : Type := {
  ac_Verbose : bool;
  ac_LogJSON : bool;
  ac_RestPort : string;
  ac_BotToken : string;
  ac_AppToken : string;
  ac_EncryptionKey : string
}.

(** ** The file system and the YAML decoder *)

(** A file system answers a path with the bytes of the file, or with the
    operation and the errno of the failed system call: the errors of
    [os.ReadFile] are [*fs.PathError] values around a [syscall.Errno]. *)
Definition FS : Type := string -> (string * Z) + list byte.

Definition ReadFile (fs : FS) (name : string) : error + list byte :=
  match fs name with
  | inl (op, code) => inl (PathError op name (Errno code))
  | inr content => inr content
  end.

(** What [yaml.Unmarshal] reports: a syntax error carries a message, a
    [*yaml.TypeError] the list of its messages; neither wraps an error. *)
Inductive yaml_failure : Type :=
| YamlSyntax (msg : string)
| YamlType (errors : list string).

Definition yaml_error (f : yaml_failure) : error :=
  match f with
  | YamlSyntax msg => errorString msg
  | YamlType errors => fmtError "yaml: unmarshal errors:\n  %s" (map VString errors)
  end.

Section Host.

(** The settings documents of the core library, [ManagerSettings] and
    [APISettings] of its [config] package, are defined outside this
    repository. *)
Context {ManagerSettings APISettings : Type}.

(** The library functions the host calls on its data. *)
Record Lib : Type := {
  ToLower : string -> string;                     (* strings.ToLower *)
  Clean : string -> string;                       (* filepath.Clean *)
  UnmarshalManagerSettings : list byte -> yaml_failure + ManagerSettings;
  UnmarshalAPISettings : list byte -> yaml_failure + APISettings
}.

(** What the outside answers during one run of [mainImpl]. *)
Record World : Type := {
  environ : Env;
  files : FS;                                     (* the files at startup *)
  LoadLocation : string -> error + time_Location; (* time.LoadLocation *)
  Stack : list byte;                              (* debug.Stack() in the deferred function *)
  LoadDefaultConfig : string -> option error;     (* awscfg.LoadDefaultConfig for a region *)
  sqs_Init : string -> option error;              (* sqs.New(..., queueName, ...).Init(ctx) *)
  redis_Init : string -> option error;            (* NewRedisFifoQueue(..., name, ...).Init() *)
  postgres_Connect : option error;
  postgres_Init : option error;
  dynamodb_Connect : option error;
  dynamodb_Init : option error;
  ManagerConfig_Validate : ManagerConfig -> option error;
  APIConfig_Validate : APIConfig -> option error;
  task_returns : list (task * option error)       (* the tasks of the group, as they return *)
}.

Variable lib : Lib.

(** ** The settings readers *)

Definition readManagerSettings (fs : FS) (filename : string) : error + (ManagerSettings * string) :=
  match ReadFile fs (Clean lib filename) with
  | inl err =>
      inl (wrapError "failed to read manager settings file %s: %w" [VString filename] err)
  | inr settingsYaml =>
      match UnmarshalManagerSettings lib settingsYaml with
      | inl err =>
          inl (wrapError "failed to unmarshal manager settings from %s: %w"
                         [VString filename] (yaml_error err))
      | inr settings => inr (settings, hash settingsYaml)
      end
  end.

Definition readAPISettings (fs : FS) (filename : string) : error + (APISettings * string) :=
  match ReadFile fs (Clean lib filename) with
  | inl err =>
      inl (wrapError "failed to read API settings file %s: %w" [VString filename] err)
  | inr settingsYaml =>
      match UnmarshalAPISettings lib settingsYaml with
      | inl err =>
          inl (wrapError "failed to unmarshal API settings from %s: %w"
                         [VString filename] (yaml_error err))
      | inr settings => inr (settings, hash settingsYaml)
      end
  end.


(** ** The backend factory *)

Definition of_error (err : option error) : M unit :=
  match err with
  | Some e => fail e
  | None => ret tt
  end.

Definition of_sum {A : Type} (r : error + A) : M A :=
  match r with
  | inl e => fail e
  | inr a => ret a
  end.

Definition newRedisClient (cfg : RedisConfig) : M RedisOptions :=
  if String.eqb (Addr cfg) "" then fail (errorString "redis address is empty")
  else ret {| opt_Addr := Addr cfg;
              opt_Username := Username cfg;
              opt_Password := RedisPassword cfg;
              opt_DB := DB cfg |}.

Definition createAwsCfg (w : World) (c : AwsConfig) (logger : Logger) : M aws_Config :=
  if String.eqb (Region c) "" then fail (errorString "cannot create AWS config with empty region")
  else
    (of_error (LoadDefaultConfig w (Region c)) ;;
     let cfg := {| aws_Region := Region c; aws_Credentials := DefaultCredentials |} in
     if String.eqb (Key c) "" && String.eqb (AssumeRole c) "" then
       Logger_Info logger "Using default AWS credentials" ;;
       ret cfg
     else
       cfg1 <- (if negb (String.eqb (Key c) "") then
                  Logger_Infof logger "Using static AWS credentials with key %s" [VString (Key c)] ;;
                  ret {| aws_Region := aws_Region cfg;
                         aws_Credentials :=
                           StaticCredentials (Key c) (SecretKey c) (SessionToken c) |}
                else ret cfg) ;;
       cfg2 <- (if negb (String.eqb (AssumeRole c) "") then
                  Logger_Infof logger "Using assumed AWS credentials with role %s"
                               [VString (AssumeRole c)] ;;
                  ret {| aws_Region := aws_Region cfg1;
                         aws_Credentials :=
                           AssumeRoleCredentials (AssumeRole c) (aws_Credentials cfg1) |}
                else ret cfg1) ;;
       ret cfg2)%M.

Definition newSQSClient (w : World) (cfg : AwsConfig) (queueCfg : SqsQueueConfig)
    (logger : Logger) : M FifoQueue :=
  (awsCfg <- createAwsCfg w cfg logger ;;
   of_error (sqs_Init w (QueueName queueCfg)) ;;
   ret (SQSClient awsCfg queueCfg (MaxRetryAttempts cfg) (MaxRetryBackoffDelay cfg)))%M.

Definition newAlertQueue (w : World) (redisClient : RedisOptions) (channelLocker : ChannelLocker)
    (cfg : Config) (logger : Logger) : M FifoQueue :=
  let mode := ToLower lib (QueueMode cfg) in
  if String.eqb mode "sqs" then
    newSQSClient w (Aws cfg) (AlertQueue (Aws cfg)) logger
  else if String.eqb mode "redis" then
    (of_error (redis_Init w "alerts") ;;
     ret (RedisFifoQueue redisClient channelLocker "alerts"))%M
  else if String.eqb mode "in-memory" then
    ret (InMemoryFifoQueue "alerts" 1000 (5 * Second))
  else fail (fmtError "unknown queue mode: %s" [VString (QueueMode cfg)]).

Definition newCommandQueue (w : World) (redisClient : RedisOptions) (channelLocker : ChannelLocker)
    (cfg : Config) (logger : Logger) : M FifoQueue :=
  let mode := ToLower lib (QueueMode cfg) in
  if String.eqb mode "sqs" then
    newSQSClient w (Aws cfg) (CommandQueue (Aws cfg)) logger
  else if String.eqb mode "redis" then
    (of_error (redis_Init w "commands") ;;
     ret (RedisFifoQueue redisClient channelLocker "commands"))%M
  else if String.eqb mode "in-memory" then
    ret (InMemoryFifoQueue "commands" 1000 (5 * Second))
  else if String.eqb mode "" then
    fail (errorString "queue mode is not set (QUEUE_MODE=<mode>)")
  else fail (fmtError "unknown queue mode: %s" [VString (QueueMode cfg)]).

Definition newPostgresClient (w : World) (cfg : PostgresConfig) (logger : Logger) : M types_DB :=
  if String.eqb (Host cfg) "" then fail (errorString "postgres host is empty")
  else
    (of_error (postgres_Connect w) ;;
     Logger_Infof logger "Connected to Postgres on %s:%d" [VString (Host cfg); VInt (Port cfg)] ;;
     of_error (postgres_Init w) ;;
     Logger_Infof logger "Initialized Postgres database %s" [VString (Database cfg)] ;;
     ret (PostgresClient cfg))%M.

Definition newDynamoDBClient (w : World) (cfg : AwsConfig) (logger : Logger) : M types_DB :=
  (awsCfg <- createAwsCfg w cfg logger ;;
   or_return "failed to connect to DynamoDB: %w" (of_error (dynamodb_Connect w)) ;;
   Logger_Infof logger "Connected to DynamoDB table %s" [VString (TableName (DynamoDB cfg))] ;;
   or_return "failed to initialize DynamoDB client: %w" (of_error (dynamodb_Init w)) ;;
   Logger_Infof logger "Initialized DynamoDB client for table %s"
                [VString (TableName (DynamoDB cfg))] ;;
   ret (DynamoDBClient awsCfg (TableName (DynamoDB cfg))))%M.

Definition newDatabase (w : World) (cfg : Config) (logger : Logger) : M types_DB :=
  let mode := ToLower lib (DatabaseMode cfg) in
  if String.eqb mode "dynamodb" then newDynamoDBClient w (Aws cfg) logger
  else if String.eqb mode "postgres" then newPostgresClient w (Postgres cfg) logger
  else if String.eqb mode "" then
    fail (errorString "database mode is not set (DATABASE_MODE=<mode>)")
  else fail (fmtError "unknown database mode: %s" [VString (DatabaseMode cfg)]).

Definition getLocation (w : World) (cfg : Config) : M time_Location :=
  match LoadLocation w (Location cfg) with
  | inl err =>
      panic (VError (wrapError "failed to load location %s: %w" [VString (Location cfg)] err))
  | inr loc => ret loc
  end.

(** ** [mainImpl] of the flexible example *)

(** [errg.Wait()]: the first non-nil error a task of the group returned. *)
Fixpoint errg_Wait (returns : list (task * option error)) : option error :=
  match returns with
  | [] => None
  | (_, Some e) :: _ => Some e
  | (_, None) :: rest => errg_Wait rest
  end.

(** The body of [mainImpl], from [go handleSignals] to [errg.Wait()]. *)
Definition mainBody (w : World) : M (option error) :=
  (emit (EvGo HandleSignals) ;;
   cfg <- lift (New (environ w)) ;;
   let logger := newLogger cfg in
   (if EnableMetrics cfg then emit (EvGo (MetricsServer (MetricsPort cfg))) else ret tt) ;;
   redisClient <- or_return "failed to create redis client: %w" (newRedisClient (Redis cfg)) ;;
   let channelLocker := RedisChannelLocker redisClient in
   alertQueue <- or_return "failed to create alert queue: %w"
                   (newAlertQueue w redisClient channelLocker cfg logger) ;;
   commandQueue <- or_return "failed to create command queue: %w"
                     (newCommandQueue w redisClient channelLocker cfg logger) ;;
   db <- or_return "failed to create database client: %w" (newDatabase w cfg logger) ;;
   location <- getLocation w cfg ;;
   let managerCfg := {| mc_BotToken := BotToken (Slack cfg);
                        mc_AppToken := AppToken (Slack cfg);
                        mc_EncryptionKey := EncryptionKey cfg;
                        mc_Location := location;
                        mc_SkipDatabaseCache := SkipDatabaseCache cfg |} in
   or_return "invalid manager configuration: %w"
     (of_error (ManagerConfig_Validate w managerCfg)) ;;
   managerRead <- or_return "failed to read manager settings: %w"
                    (of_sum (readManagerSettings (files w) (ManagerSettingsFilename cfg))) ;;
   let apiCfg := {| ac_Verbose := Verbose cfg;
                    ac_LogJSON := LogJSON cfg;
                    ac_RestPort := RestPort cfg;
                    ac_BotToken := BotToken (Slack cfg);
                    ac_AppToken := AppToken (Slack cfg);
                    ac_EncryptionKey := EncryptionKey cfg |} in
   or_return "invalid API configuration: %w" (of_error (APIConfig_Validate w apiCfg)) ;;
   apiRead <- or_return "failed to read API settings: %w"
                (of_sum (readAPISettings (files w) (APISettingsFilename cfg))) ;;
   emit (EvGo APIServerRun) ;;
   emit (EvGo ManagerRun) ;;
   emit (EvGo (RefreshSettings (snd managerRead) (snd apiRead))) ;;
   ret (errg_Wait (task_returns w)))%M.

(** The deferred functions run last first: [recover] turns a panic into the
    returned error, then [cancel] runs. *)
Definition mainImpl (w : World) : list event * option error :=
  let retErr :=
    match snd (mainBody w) with
    | Ok err => err
    | Fail err => Some err
    | Panic r => Some (fmtError "panic: %v\n%s" [r; VBytes (Stack w)])
    end in
  (fst (mainBody w) ++ [EvCancel], retErr).

(** [main]: [exitMain(mainImpl())]. *)
Definition main (w : World) : exit_status := exitMain (snd (mainImpl w)).

Definition is_service (t : task) : bool :=
  match t with
  | APIServerRun | ManagerRun | RefreshSettings _ _ => true
  | HandleSignals | MetricsServer _ => false
  end.

Definition starts_service (e : event) : bool :=
  match e with
  | EvGo t => is_service t
  | _ => false
  end.

(** ** The settings refresh loop *)

(** What the loop does to the outside. *)
Inductive refresh_event : Type :=
| EvReadFile (path : string)                     (* os.ReadFile(path) *)
| EvUpdateManager (settings : ManagerSettings)   (* manager.UpdateSettings(settings) *)
| EvUpdateAPI (settings : APISettings)           (* apiServer.UpdateSettings(settings) *)
| EvError (l : log_entry).                       (* log.Error().Msgf(...) *)

Inductive select_case : Type :=
| CtxDone      (* case <-ctx.Done() *)
| TimeAfter.   (* case <-time.After(10 * time.Second) *)

(** What the outside answers during one turn of the loop.  [fired] is the
    case that becomes ready first while the select blocks; it is consulted
    only when the context is not done on entry, since the timer is created
    by the select itself and cannot have fired yet. *)
Record Tick : Type := {
  fired : select_case;
  manager_files : FS;                                   (* the files when the manager settings are read *)
  api_files : FS;                                       (* the files when the API settings are read *)
  manager_UpdateSettings : ManagerSettings -> option error;
  apiServer_UpdateSettings : APISettings -> option error;
  cancelled_in_cycle : bool                             (* the context is cancelled while the cycle runs *)
}.

(** The body of the [time.After] case, on the two local fingerprints. *)
Definition cycle (cfg : Config) (t : Tick) (managerSettingsHash apiSettingsHash : string)
  : list refresh_event * (string * string) :=
  let manager_part :=
    match readManagerSettings (manager_files t) (ManagerSettingsFilename cfg) with
    | inl err =>
        ([EvReadFile (Clean lib (ManagerSettingsFilename cfg));
          EvError (Log ErrorLevel "Failed to read manager settings: %s" [VError err])],
         managerSettingsHash)
    | inr (managerSettings, hash) =>
        if negb (String.eqb hash managerSettingsHash) then
          (EvReadFile (Clean lib (ManagerSettingsFilename cfg))
             :: EvUpdateManager managerSettings
             :: match manager_UpdateSettings t managerSettings with
                | Some err =>
                    [EvError (Log ErrorLevel "Failed to update manager settings: %s" [VError err])]
                | None => []
                end,
           hash)
        else ([EvReadFile (Clean lib (ManagerSettingsFilename cfg))], managerSettingsHash)
    end in
  let api_part :=
    match readAPISettings (api_files t) (APISettingsFilename cfg) with
    | inl err =>
        ([EvReadFile (Clean lib (APISettingsFilename cfg));
          EvError (Log ErrorLevel "Failed to read API settings: %s" [VError err])],
         apiSettingsHash)
    | inr (apiSettings, hash) =>
        if negb (String.eqb hash apiSettingsHash) then
          (EvReadFile (Clean lib (APISettingsFilename cfg))
             :: EvUpdateAPI apiSettings
             :: match apiServer_UpdateSettings t apiSettings with
                | Some err =>
                    [EvError (Log ErrorLevel "Failed to update API settings: %s" [VError err])]
                | None => []
                end,
           hash)
        else ([EvReadFile (Clean lib (APISettingsFilename cfg))], apiSettingsHash)
    end in
  (fst manager_part ++ fst api_part, (snd manager_part, snd api_part)).

(** Where the loop is when the schedule ends: it has returned, or it is
    blocked in its select with the fingerprints it holds. *)
Inductive loop_status : Type :=
| Returned (err : option error)
| Waiting (managerSettingsHash apiSettingsHash : string).

(** [refreshSettings]: [done] says whether the context is done on entry of
    the select; [ctx.Err()] of a cancelled context is [context.Canceled]. *)
Fixpoint refreshSettings (done : bool) (ticks : list Tick) (cfg : Config)
    (managerSettingsHash apiSettingsHash : string) : list refresh_event * loop_status :=
  if done then ([], Returned (Some (Sentinel Canceled)))
  else
    match ticks with
    | [] => ([], Waiting managerSettingsHash apiSettingsHash)
    | t :: rest =>
        match fired t with
        | CtxDone => ([], Returned (Some (Sentinel Canceled)))
        | TimeAfter =>
            let c := cycle cfg t managerSettingsHash apiSettingsHash in
            let r := refreshSettings (cancelled_in_cycle t) rest cfg (fst (snd c)) (snd (snd c)) in
            (fst c ++ fst r, snd r)
        end
    end.

(** The calls of the two update operations in a trace. *)
Definition manager_updates (tr : list refresh_event) : list ManagerSettings :=
  flat_map (fun e => match e with EvUpdateManager s => [s] | _ => [] end) tr.

Definition api_updates (tr : list refresh_event) : list APISettings :=
  flat_map (fun e => match e with EvUpdateAPI s => [s] | _ => [] end) tr.

Definition file_reads (tr : list refresh_event) : list string :=
  flat_map (fun e => match e with EvReadFile p => [p] | _ => [] end) tr.

End Host.

Arguments Lib : clear implicits.
Arguments World : clear implicits.
Arguments Tick : clear implicits.
Arguments refresh_event : clear implicits.

(** ** Sample instances

    A decoder that keeps the text of the document, a process environment, a
    file system and schedules of the refresh loop, on which the statements
    below are exercised. *)

Definition ascii_lower (c : ascii) : ascii :=
  let n := N_of_ascii c in
  if (65 <=? n)%N && (n <=? 90)%N then ascii_of_N (n + 32) else c.

Fixpoint string_map (f : ascii -> ascii) (s : string) : string :=
  match s with
  | EmptyString => EmptyString
  | String c rest => String (f c) (string_map f rest)
  end.

Definition sample_decode (content : list byte) : yaml_failure + string :=
  match content with
  | x09 :: _ => inl (YamlSyntax "yaml: found character that cannot start any token")
  | _ => inr (string_of_list_byte content)
  end.

Definition sample_lib : Lib string string :=
  {| ToLower := string_map ascii_lower;
     Clean := fun path => path;
     UnmarshalManagerSettings := sample_decode;
     UnmarshalAPISettings := sample_decode |}.

Definition sample_env : Env :=
  [ ("REDIS_ADDR", "localhost:6379");
    ("QUEUE_MODE", "in-memory");
    ("POSTGRES_HOST", "localhost") ].

Definition ENOENT : Z := 2.

(** A file system with the two settings files. *)
Definition two_files (manager api : list byte) : FS :=
  fun path =>
    if String.eqb path "manager-settings.yaml" then inr manager
    else if String.eqb path "api-settings.yaml" then inr api
    else inl ("open", ENOENT).

Definition admins_v1 : list byte := list_byte_of_string "globalAdmins: [U1]".
Definition admins_v2 : list byte := list_byte_of_string "globalAdmins: [U1, U2]".
Definition rules_v1 : list byte := list_byte_of_string "routingRules: [{matchAll: true, channel: CZZZZZZZZZZZ}]".
Definition rules_v2 : list byte :=
  list_byte_of_string
    "routingRules: [{hasPrefix: [a-], channel: CXXXXXXXXXXX}, {matchAll: true, channel: CZZZZZZZZZZZ}]".

Definition sample_world (env : Env) (fs : FS) (connect : option error) : World :=
  {| environ := env;
     files := fs;
     LoadLocation := fun name => inr (LocationOf name);
     Stack := list_byte_of_string "goroutine 1 [running]:";
     LoadDefaultConfig := fun _ => None;
     sqs_Init := fun _ => None;
     redis_Init := fun _ => None;
     postgres_Connect := connect;
     postgres_Init := None;
     dynamodb_Connect := None;
     dynamodb_Init := None;
     ManagerConfig_Validate := fun _ => None;
     APIConfig_Validate := fun _ => None;
     task_returns := [(RefreshSettings (hash admins_v1) (hash rules_v1), Some (Sentinel Canceled));
                      (APIServerRun, None);
                      (ManagerRun, None)] |}.

Definition sample_tick (fired : select_case) (fs : FS)
    (manager_result api_result : option error) (cancelled : bool) : Tick string string :=
  {| fired := fired;
     manager_files := fs;
     api_files := fs;
     manager_UpdateSettings := fun _ => manager_result;
     apiServer_UpdateSettings := fun _ => api_result;
     cancelled_in_cycle := cancelled |}.

(** The zero value of [Config]. *)
Definition zero_Config : Config :=
  {| LogJSON := false; Verbose := false; Location := ""; RestPort := "";
     EncryptionKey := ""; SkipDatabaseCache := false; EnableMetrics := false;
     MetricsPort := ""; QueueMode := ""; DatabaseMode := "";
     ManagerSettingsFilename := ""; APISettingsFilename := "";
     Aws := {| Region := ""; Key := ""; SecretKey := ""; SessionToken := "";
               AssumeRole := ""; MaxRetryAttempts := 0; MaxRetryBackoffDelay := 0;
               Concurrency := 0; SqsEndpoint := "";
               AlertQueue := {| QueueName := ""; VisibilityTimeoutSeconds := 0;
                                MaxNumberOfMessages := 0; WaitTimeSeconds := 0 |};
               CommandQueue := {| QueueName := ""; VisibilityTimeoutSeconds := 0;
                                  MaxNumberOfMessages := 0; WaitTimeSeconds := 0 |};
               DynamoDB := {| TableName := "" |} |};
     Postgres := {| Host := ""; Port := 0; User := ""; Password := ""; Database := "";
                    SSLMode := ""; IssuesTable := ""; AlertsTable := "";
                    MoveMappingsTable := ""; ChannelProcessingStateTable := "" |};
     Slack := {| AppToken := ""; BotToken := "" |};
     Redis := {| Addr := ""; Username := ""; RedisPassword := ""; DB := 0 |} |}.

(** The configuration [config.New] returns in an environment, when it does. *)
Definition config_of (env : Env) : Config :=
  match New env with
  | Ok cfg => cfg
  | _ => zero_Config
  end.

Definition sample_cfg : Config := config_of sample_env.

(** A file system in which the manager settings file is missing. *)
Definition only_api_file (api : list byte) : FS :=
  fun path =>
    if String.eqb path "api-settings.yaml" then inr api
    else inl ("open", ENOENT).

(** A file system in which the API settings file is missing. *)
Definition only_manager_file (manager : list byte) : FS :=
  fun path =>
    if String.eqb path "manager-settings.yaml" then inr manager
    else inl ("open", ENOENT).

(** An environment with a queue mode the factory does not know. *)
Definition kafka_env : Env := ("QUEUE_MODE", "kafka") :: sample_env.

(** An environment with a malformed integer. *)
Definition broken_env : Env := ("REDIS_DB", "abc") :: sample_env.

(** A run interrupted while the Postgres client connects: [Connect(ctx)]
    returns the cancellation of its context. *)
Definition interrupted_world : World :=
  sample_world sample_env (two_files admins_v1 rules_v1)
    (Some (wrapError "failed to connect to postgres: %w" [] (Sentinel Canceled))).

(** A cycle in which the manager settings changed and the manager refuses
    the new document. *)
Definition refused_tick : Tick string string :=
  sample_tick TimeAfter (two_files admins_v2 rules_v1)
    (Some (errorString "invalid manager settings")) None false.

(** A cycle in which both files changed and both updates are accepted. *)
Definition changed_tick : Tick string string :=
  sample_tick TimeAfter (two_files admins_v2 rules_v2) None None false.

(** A cycle in which no file changed. *)
Definition unchanged_tick : Tick string string :=
  sample_tick TimeAfter (two_files admins_v1 rules_v1) None None false.

(** A cycle during which the context is cancelled. *)
Definition last_tick : Tick string string :=
  sample_tick TimeAfter (two_files admins_v2 rules_v2) None None true.

(** ** Notions used in the statements *)

(** [wraps target e]: [target] is reached from [e] along its [Unwrap] chain. *)
Inductive wraps (target : sentinel) : error -> Prop :=
| wraps_here : wraps target (Sentinel target)
| wraps_inner (e inner : error) :
    Unwrap e = Some inner -> wraps target inner -> wraps target e.

(** The shutdowns that are not failures: no error, or a cancellation. *)
Definition clean_shutdown (err : option error) : Prop :=
  match err with
  | None => True
  | Some e => wraps Canceled e
  end.

(** The variables [config.New] parses as integers and as booleans. *)
Definition int_variables : list string :=
  [ "AWS_MAX_RETRY_ATTEMPTS"; "AWS_MAX_RETRY_BACKOFF_DELAY"; "AWS_CONCURRENCY";
    "AWS_SQS_ALERT_QUEUE_VISIBILITY_TIMEOUT_SECONDS";
    "AWS_SQS_ALERT_QUEUE_MAX_NUMBER_OF_MESSAGES";
    "AWS_SQS_ALERT_QUEUE_WAIT_TIME_SECONDS";
    "AWS_SQS_COMMAND_QUEUE_VISIBILITY_TIMEOUT_SECONDS";
    "AWS_SQS_COMMAND_QUEUE_MAX_NUMBER_OF_MESSAGES";
    "AWS_SQS_COMMAND_QUEUE_WAIT_TIME_SECONDS";
    "POSTGRES_PORT"; "REDIS_DB" ].

Definition bool_variables : list string :=
  [ "LOG_JSON"; "VERBOSE"; "SKIP_DATABASE_CACHE"; "ENABLE_METRICS" ].

(** A variable that is set, not empty, and does not parse. *)
Definition malformed_int (env : Env) (name : string) : Prop :=
  Getenv env name <> "" /\ exists err, Atoi (Getenv env name) = inl err.

Definition malformed_bool (env : Env) (name : string) : Prop :=
  Getenv env name <> "" /\ exists err, ParseBool (Getenv env name) = inl err.

(** A call that panics or returns a value satisfying [P], and never returns
    an error. *)
Definition returns_or_panics {A : Type} (P : A -> Prop) (r : result A) : Prop :=
  match r with
  | Ok a => P a
  | Fail _ => False
  | Panic _ => True
  end.

Definition malformed_environment (env : Env) : Prop :=
  (exists name, In name int_variables /\ malformed_int env name)
  \/ (exists name, In name bool_variables /\ malformed_bool env name).

(** The fingerprint a read returns, if it succeeds. *)
Definition fingerprint_of {A : Type} (r : error + (A * string)) : option string :=
  match r with
  | inl _ => None
  | inr (_, h) => Some h
  end.

(** No task of the group (API server, manager, settings refresher) is
    started in a trace. *)
Definition no_service_started (tr : list event) : Prop :=
  existsb starts_service tr = false.

(** A step of the startup either completes or leaves the services unstarted. *)
Definition completes_or_quiet {A : Type} (m : M A) : Prop :=
  (exists a, snd m = Ok a) \/ no_service_started (fst m).

Section HostSpecs.

Context {ManagerSettings APISettings : Type}.
Variable lib : Lib ManagerSettings APISettings.

(** The cycles of a schedule run one after the other, without the select. *)
Fixpoint run_cycles (cfg : Config) (ticks : list (Tick ManagerSettings APISettings))
    (managerSettingsHash apiSettingsHash : string)
  : list (refresh_event ManagerSettings APISettings) * (string * string) :=
  match ticks with
  | [] => ([], (managerSettingsHash, apiSettingsHash))
  | t :: rest =>
      let c := cycle lib cfg t managerSettingsHash apiSettingsHash in
      let r := run_cycles cfg rest (fst (snd c)) (snd (snd c)) in
      (fst c ++ fst r, snd r)
  end.

(** A turn of the loop during which nothing cancels the context. *)
Definition undisturbed (t : Tick ManagerSettings APISettings) : Prop :=
  fired t = TimeAfter /\ cancelled_in_cycle t = false.

(** The cycle of the turn in which the cancellation arrives, when the timer
    fired first. *)
Definition in_flight (t : Tick ManagerSettings APISettings)
  : list (Tick ManagerSettings APISettings) :=
  match fired t with
  | TimeAfter => [t]
  | CtxDone => []
  end.

(** The discriminators the factory does not know. *)
Definition unknown_queue_mode (cfg : Config) : Prop :=
  ToLower lib (QueueMode cfg) <> "sqs"
  /\ ToLower lib (QueueMode cfg) <> "redis"
  /\ ToLower lib (QueueMode cfg) <> "in-memory".

Definition unknown_database_mode (cfg : Config) : Prop :=
  ToLower lib (DatabaseMode cfg) <> "dynamodb"
  /\ ToLower lib (DatabaseMode cfg) <> "postgres"
  /\ ToLower lib (DatabaseMode cfg) <> "".

(** The first backend constructor of [mainImpl] that fails, with the format
    of the error [mainImpl] returns and the error of the constructor. *)
Inductive backend_failure (w : World) (cfg : Config) : string -> error -> Prop :=
| redis_client_fails (e : error) :
    snd (newRedisClient (Redis cfg)) = Fail e ->
    backend_failure w cfg "failed to create redis client: %w" e
| alert_queue_fails (rc : RedisOptions) (e : error) :
    snd (newRedisClient (Redis cfg)) = Ok rc ->
    snd (newAlertQueue lib w rc (RedisChannelLocker rc) cfg (newLogger cfg)) = Fail e ->
    backend_failure w cfg "failed to create alert queue: %w" e
| command_queue_fails (rc : RedisOptions) (aq : FifoQueue) (e : error) :
    snd (newRedisClient (Redis cfg)) = Ok rc ->
    snd (newAlertQueue lib w rc (RedisChannelLocker rc) cfg (newLogger cfg)) = Ok aq ->
    snd (newCommandQueue lib w rc (RedisChannelLocker rc) cfg (newLogger cfg)) = Fail e ->
    backend_failure w cfg "failed to create command queue: %w" e
| database_fails (rc : RedisOptions) (aq cq : FifoQueue) (e : error) :
    snd (newRedisClient (Redis cfg)) = Ok rc ->
    snd (newAlertQueue lib w rc (RedisChannelLocker rc) cfg (newLogger cfg)) = Ok aq ->
    snd (newCommandQueue lib w rc (RedisChannelLocker rc) cfg (newLogger cfg)) = Ok cq ->
    snd (newDatabase lib w cfg (newLogger cfg)) = Fail e ->
    backend_failure w cfg "failed to create database client: %w" e.

(** Every backend client is built. *)
Definition backends_built (w : World) (cfg : Config) : Prop :=
  exists (rc : RedisOptions) (aq cq : FifoQueue) (db : types_DB),
    snd (newRedisClient (Redis cfg)) = Ok rc
    /\ snd (newAlertQueue lib w rc (RedisChannelLocker rc) cfg (newLogger cfg)) = Ok aq
    /\ snd (newCommandQueue lib w rc (RedisChannelLocker rc) cfg (newLogger cfg)) = Ok cq
    /\ snd (newDatabase lib w cfg (newLogger cfg)) = Ok db.

Definition managerCfg_of (cfg : Config) (location : time_Location) : ManagerConfig :=
  {| mc_BotToken := BotToken (Slack cfg);
     mc_AppToken := AppToken (Slack cfg);
     mc_EncryptionKey := EncryptionKey cfg;
     mc_Location := location;
     mc_SkipDatabaseCache := SkipDatabaseCache cfg |}.

Definition apiCfg_of (cfg : Config) : APIConfig :=
  {| ac_Verbose := Verbose cfg;
     ac_LogJSON := LogJSON cfg;
     ac_RestPort := RestPort cfg;
     ac_BotToken := BotToken (Slack cfg);
     ac_AppToken := AppToken (Slack cfg);
     ac_EncryptionKey := EncryptionKey cfg |}.

(** The startup reaches the first read of the manager settings. *)
Definition reaches_manager_settings (w : World) (cfg : Config) : Prop :=
  New (environ w) = Ok cfg
  /\ backends_built w cfg
  /\ exists location,
       LoadLocation w (Location cfg) = inr location
       /\ ManagerConfig_Validate w (managerCfg_of cfg location) = None.

(** The startup reaches the first read of the API settings. *)
Definition reaches_api_settings (w : World) (cfg : Config) : Prop :=
  reaches_manager_settings w cfg
  /\ (exists read, readManagerSettings lib (files w) (ManagerSettingsFilename cfg) = inr read)
  /\ APIConfig_Validate w (apiCfg_of cfg) = None.

(** The first read of a settings file at startup fails. *)
Inductive startup_read_failure (w : World) (cfg : Config) : string -> error -> Prop :=
| manager_read_fails (e : error) :
    reaches_manager_settings w cfg ->
    readManagerSettings lib (files w) (ManagerSettingsFilename cfg) = inl e ->
    startup_read_failure w cfg "failed to read manager settings: %w" e
| api_read_fails (e : error) :
    reaches_api_settings w cfg ->
    readAPISettings lib (files w) (APISettingsFilename cfg) = inl e ->
    startup_read_failure w cfg "failed to read API settings: %w" e.

End HostSpecs.


(** ** Further notions used in the statements *)

(** The value of an integer or boolean variable of the environment: the
    default when the variable is unset or empty, the parsed value when it
    parses. *)
Definition parsed_int (env : Env) (name : string) (defaultValue : Z) : Z :=
  if String.eqb (Getenv env name) "" then defaultValue
  else match Atoi (Getenv env name) with
       | inr val => val
       | inl _ => defaultValue
       end.

Definition parsed_bool (env : Env) (name : string) (defaultValue : bool) : bool :=
  if String.eqb (Getenv env name) "" then defaultValue
  else match ParseBool (Getenv env name) with
       | inr val => val
       | inl _ => defaultValue
       end.

(** A call that returns a value satisfying [P] or panics with a value
    satisfying [Q], and never returns an error. *)
Definition returns_or_panics_with {A : Type} (P : A -> Prop) (Q : value -> Prop)
    (r : result A) : Prop :=
  match r with
  | Ok a => P a
  | Fail _ => False
  | Panic v => Q v
  end.

(** The panic of [config.New] on variable [name] of the environment. *)
Definition names_malformed_variable (env : Env) (v : value) : Prop :=
  (exists name err,
      In name int_variables /\ malformed_int env name
      /\ Atoi (Getenv env name) = inl err
      /\ v = VSprintf "failed to parse environment variable %s as int: %v"
               [VString name; VError err])
  \/ (exists name err,
      In name bool_variables /\ malformed_bool env name
      /\ ParseBool (Getenv env name) = inl err
      /\ v = VSprintf "failed to parse environment variable %s as bool: %v"
               [VString name; VError err]).

(** The hexadecimal digits of [hex.EncodeToString]. *)
Definition is_lower_hex (c : ascii) : bool :=
  let n := N_of_ascii c in
  ((48 <=? n)%N && (n <=? 57)%N) || ((97 <=? n)%N && (n <=? 102)%N).

Fixpoint string_forallb (f : ascii -> bool) (s : string) : bool :=
  match s with
  | EmptyString => true
  | String c rest => f c && string_forallb f rest
  end.

(** The kind of backend of a queue. *)
Inductive queue_kind : Type := KindSQS | KindRedis | KindInMemory.

Definition kind_of (q : FifoQueue) : queue_kind :=
  match q with
  | SQSClient _ _ _ _ => KindSQS
  | RedisFifoQueue _ _ _ => KindRedis
  | InMemoryFifoQueue _ _ _ => KindInMemory
  end.

Definition queue_name (q : FifoQueue) : string :=
  match q with
  | SQSClient _ queueCfg _ _ => QueueName queueCfg
  | RedisFifoQueue _ _ name => name
  | InMemoryFifoQueue name _ _ => name
  end.

(** The tasks of the group that a trace starts, in order. *)
Definition services_started (tr : list event) : list task :=
  flat_map (fun e => match e with
                     | EvGo t => if is_service t then [t] else []
                     | _ => []
                     end) tr.

Section RefreshSpecs.

Context {ManagerSettings APISettings : Type}.
Variable lib : Lib ManagerSettings APISettings.

(** The fingerprint of the last content of a kind that was read and decoded
    in a schedule, or the baseline when none was. *)
Fixpoint last_manager_fingerprint (cfg : Config)
    (ticks : list (Tick ManagerSettings APISettings)) (baseline : string) : string :=
  match ticks with
  | [] => baseline
  | t :: rest =>
      last_manager_fingerprint cfg rest
        match fingerprint_of
                (readManagerSettings lib (manager_files t) (ManagerSettingsFilename cfg)) with
        | Some h => h
        | None => baseline
        end
  end.

Fixpoint last_api_fingerprint (cfg : Config)
    (ticks : list (Tick ManagerSettings APISettings)) (baseline : string) : string :=
  match ticks with
  | [] => baseline
  | t :: rest =>
      last_api_fingerprint cfg rest
        match fingerprint_of (readAPISettings lib (api_files t) (APISettingsFilename cfg)) with
        | Some h => h
        | None => baseline
        end
  end.

(** Every turn of a schedule finds the same content, or the same failure,
    under the path of a settings file. *)
Definition manager_file_steady (cfg : Config) (r : error + list byte)
    (ticks : list (Tick ManagerSettings APISettings)) : Prop :=
  Forall (fun t => ReadFile (manager_files t) (Clean lib (ManagerSettingsFilename cfg)) = r) ticks.

Definition api_file_steady (cfg : Config) (r : error + list byte)
    (ticks : list (Tick ManagerSettings APISettings)) : Prop :=
  Forall (fun t => ReadFile (api_files t) (Clean lib (APISettingsFilename cfg)) = r) ticks.

End RefreshSpecs.

(** ** The Prometheus metrics of the flexible example *)

Module Metrics.

Section Metrics.

(** Sample values are [float64]; the host only hands them on.  [one] is the
    constant [1] of [Inc]. *)
Context {float64 : Type}.
Variable one : float64.














(** The methods of the [Metrics] interface, as a caller invokes them. *)
Inductive op : Type :=
| OpRegisterCounter (name help : string) (labels : list string)
| OpRegisterGauge (name help : string) (labels : list string)
| OpRegisterHistogram (name help : string) (buckets : list float64) (labels : list string)
| OpAdd (name : string) (value : float64) (labelValues : list string)
| OpInc (name : string) (labelValues : list string)
| OpSet (name : string) (value : float64) (labelValues : list string)
| OpObserve (name : string) (value : float64) (labelValues : list string).










End Metrics.

End Metrics.

(** ** The configuration as a table *)

(** The configuration of an environment, each field by its variable and its
    default: what [config.New] returns when it returns. *)
Definition config_table (env : Env) : Config :=
  {| LogJSON := parsed_bool env "LOG_JSON" true;
     Verbose := parsed_bool env "VERBOSE" false;
     Location := GetEnvIfSet env "LOCATION" "Europe/Oslo";
     RestPort := GetEnvIfSet env "REST_PORT" "8080";
     EncryptionKey := GetEnvIfSet env "ENCRYPTION_KEY" "";
     SkipDatabaseCache := parsed_bool env "SKIP_DATABASE_CACHE" false;
     EnableMetrics := parsed_bool env "ENABLE_METRICS" true;
     MetricsPort := GetEnvIfSet env "METRICS_PORT" "9090";
     QueueMode := GetEnvIfSet env "QUEUE_MODE" "redis";
     DatabaseMode := GetEnvIfSet env "DATABASE_MODE" "postgres";
     ManagerSettingsFilename := GetEnvIfSet env "MANAGER_SETTINGS_FILENAME" "manager-settings.yaml";
     APISettingsFilename := GetEnvIfSet env "API_SETTINGS_FILENAME" "api-settings.yaml";
     Aws :=
       {| Region := GetEnvIfSet env "AWS_REGION" "";
          Key := GetEnvIfSet env "AWS_ACCESS_KEY_ID" "";
          SecretKey := GetEnvIfSet env "AWS_SECRET_ACCESS_KEY" "";
          SessionToken := GetEnvIfSet env "AWS_SESSION_TOKEN" "";
          AssumeRole := GetEnvIfSet env "AWS_ASSUME_ROLE" "";
          MaxRetryAttempts := parsed_int env "AWS_MAX_RETRY_ATTEMPTS" 5;
          MaxRetryBackoffDelay := int64 (parsed_int env "AWS_MAX_RETRY_BACKOFF_DELAY" 30 * Second);
          Concurrency := int64 (parsed_int env "AWS_CONCURRENCY" 10);
          SqsEndpoint := GetEnvIfSet env "AWS_SQS_ENDPOINT" "";
          AlertQueue :=
            {| QueueName := GetEnvIfSet env "AWS_SQS_ALERT_QUEUE_NAME" "";
               VisibilityTimeoutSeconds :=
                 int32 (parsed_int env "AWS_SQS_ALERT_QUEUE_VISIBILITY_TIMEOUT_SECONDS" 30);
               MaxNumberOfMessages :=
                 int32 (parsed_int env "AWS_SQS_ALERT_QUEUE_MAX_NUMBER_OF_MESSAGES" 10);
               WaitTimeSeconds :=
                 int32 (parsed_int env "AWS_SQS_ALERT_QUEUE_WAIT_TIME_SECONDS" 20) |};
          CommandQueue :=
            {| QueueName := GetEnvIfSet env "AWS_SQS_COMMAND_QUEUE_NAME" "";
               VisibilityTimeoutSeconds :=
                 int32 (parsed_int env "AWS_SQS_COMMAND_QUEUE_VISIBILITY_TIMEOUT_SECONDS" 30);
               MaxNumberOfMessages :=
                 int32 (parsed_int env "AWS_SQS_COMMAND_QUEUE_MAX_NUMBER_OF_MESSAGES" 10);
               WaitTimeSeconds :=
                 int32 (parsed_int env "AWS_SQS_COMMAND_QUEUE_WAIT_TIME_SECONDS" 20) |};
          DynamoDB := {| TableName := GetEnvIfSet env "AWS_DYNAMODB_TABLE_NAME" "" |} |};
     Postgres :=
       {| Host := GetEnvIfSet env "POSTGRES_HOST" "";
          Port := parsed_int env "POSTGRES_PORT" 0;
          User := GetEnvIfSet env "POSTGRES_USER" "";
          Password := GetEnvIfSet env "POSTGRES_PASSWORD" "";
          Database := GetEnvIfSet env "POSTGRES_DATABASE" "";
          SSLMode := GetEnvIfSet env "POSTGRES_SSL_MODE" "disable";
          IssuesTable := GetEnvIfSet env "POSTGRES_ISSUES_TABLE" "issues";
          AlertsTable := GetEnvIfSet env "POSTGRES_ALERTS_TABLE" "alerts";
          MoveMappingsTable := GetEnvIfSet env "POSTGRES_MOVE_MAPPINGS_TABLE" "move_mappings";
          ChannelProcessingStateTable :=
            GetEnvIfSet env "POSTGRES_CHANNEL_PROCESSING_STATE_TABLE" "channel_processing_state" |};
     Slack := {| AppToken := GetEnvIfSet env "SLACK_APP_TOKEN" "";
                 BotToken := GetEnvIfSet env "SLACK_BOT_TOKEN" "" |};
     Redis := {| Addr := GetEnvIfSet env "REDIS_ADDR" "";
                 RedisPassword := GetEnvIfSet env "REDIS_PASSWORD" "";
                 Username := GetEnvIfSet env "REDIS_USERNAME" "";
                 DB := parsed_int env "REDIS_DB" 0 |} |}.

(** The variables [config.New] parses, in the order of its composite
    literal. *)
Definition parse_order : list string :=
  [ "LOG_JSON"; "VERBOSE"; "SKIP_DATABASE_CACHE"; "ENABLE_METRICS";
    "AWS_MAX_RETRY_ATTEMPTS"; "AWS_MAX_RETRY_BACKOFF_DELAY"; "AWS_CONCURRENCY";
    "AWS_SQS_ALERT_QUEUE_VISIBILITY_TIMEOUT_SECONDS";
    "AWS_SQS_ALERT_QUEUE_MAX_NUMBER_OF_MESSAGES";
    "AWS_SQS_ALERT_QUEUE_WAIT_TIME_SECONDS";
    "AWS_SQS_COMMAND_QUEUE_VISIBILITY_TIMEOUT_SECONDS";
    "AWS_SQS_COMMAND_QUEUE_MAX_NUMBER_OF_MESSAGES";
    "AWS_SQS_COMMAND_QUEUE_WAIT_TIME_SECONDS";
    "POSTGRES_PORT"; "REDIS_DB" ].

Definition is_bool_variable (name : string) : bool :=
  existsb (String.eqb name) bool_variables.

Definition malformed_variable (env : Env) (name : string) : Prop :=
  if is_bool_variable name then malformed_bool env name else malformed_int env name.

(** The parse error of a variable and the format of its panic. *)
Definition parse_error (env : Env) (name : string) : option error :=
  if is_bool_variable name then
    match ParseBool (Getenv env name) with
    | inl err => Some err
    | inr _ => None
    end
  else
    match Atoi (Getenv env name) with
    | inl err => Some err
    | inr _ => None
    end.

Definition panic_format (name : string) : string :=
  if is_bool_variable name
  then "failed to parse environment variable %s as bool: %v"
  else "failed to parse environment variable %s as int: %v".

(** The names of a list that come before [name]. *)
Fixpoint before (name : string) (l : list string) : list string :=
  match l with
  | [] => []
  | x :: rest => if String.eqb x name then [] else x :: before name rest
  end.

(** [v] is the panic of the first malformed variable of the environment. *)
Definition panic_of_first_malformed (env : Env) (v : value) : Prop :=
  exists name err,
    In name parse_order
    /\ malformed_variable env name
    /\ Forall (fun earlier => ~ malformed_variable env earlier) (before name parse_order)
    /\ parse_error env name = Some err
    /\ v = VSprintf (panic_format name) [VString name; VError err].

(** The settings that are stored on 32 bits: variable, default, field. *)
Definition int32_settings : list (string * Z * (Config -> Z)) :=
  [ ("AWS_SQS_ALERT_QUEUE_VISIBILITY_TIMEOUT_SECONDS", 30%Z,
     fun cfg => VisibilityTimeoutSeconds (AlertQueue (Aws cfg)));
    ("AWS_SQS_ALERT_QUEUE_MAX_NUMBER_OF_MESSAGES", 10%Z,
     fun cfg => MaxNumberOfMessages (AlertQueue (Aws cfg)));
    ("AWS_SQS_ALERT_QUEUE_WAIT_TIME_SECONDS", 20%Z,
     fun cfg => WaitTimeSeconds (AlertQueue (Aws cfg)));
    ("AWS_SQS_COMMAND_QUEUE_VISIBILITY_TIMEOUT_SECONDS", 30%Z,
     fun cfg => VisibilityTimeoutSeconds (CommandQueue (Aws cfg)));
    ("AWS_SQS_COMMAND_QUEUE_MAX_NUMBER_OF_MESSAGES", 10%Z,
     fun cfg => MaxNumberOfMessages (CommandQueue (Aws cfg)));
    ("AWS_SQS_COMMAND_QUEUE_WAIT_TIME_SECONDS", 20%Z,
     fun cfg => WaitTimeSeconds (CommandQueue (Aws cfg))) ].

(** An environment in which a wait time does not fit 32 bits, and one in
    which a delay does not fit a duration. *)
Definition wide_env : Env :=
  ("AWS_SQS_ALERT_QUEUE_WAIT_TIME_SECONDS", "4294967316") :: sample_env.

Definition long_delay_env : Env :=
  ("AWS_MAX_RETRY_BACKOFF_DELAY", "9223372037") :: sample_env.

(** An environment with two malformed variables. *)
Definition twice_broken_env : Env :=
  ("REDIS_DB", "abc") :: ("VERBOSE", "yes") :: sample_env.

(** An environment in which the queue mode is set to the empty string. *)
Definition empty_mode_env : Env := ("QUEUE_MODE", "") :: sample_env.

Section StartupSpecs.

Context {ManagerSettings APISettings : Type}.
Variable lib : Lib ManagerSettings APISettings.

(** The three tasks of the group are started, in order, on the settings
    read at startup, and the run ends as the group does. *)
Definition started_together (w : World) (tr : list event) (res : option error) : Prop :=
  exists cfg managerRead apiRead,
    New (environ w) = Ok cfg
    /\ readManagerSettings lib (files w) (ManagerSettingsFilename cfg) = inr managerRead
    /\ readAPISettings lib (files w) (APISettingsFilename cfg) = inr apiRead
    /\ services_started tr
       = [APIServerRun; ManagerRun; RefreshSettings (snd managerRead) (snd apiRead)]
    /\ res = errg_Wait (task_returns w).

(** The outcome of the startup: the three tasks together when the body of
    [mainImpl] returns from [errg.Wait()], none of them otherwise. *)
Definition startup_outcome (w : World) (tr : list event) (r : result (option error)) : Prop :=
  match r with
  | Ok res => started_together w tr res
  | _ => services_started tr = []
  end.

End StartupSpecs.

(** A run in which the time zone database does not know the location. *)
Definition lost_world : World :=
  {| environ := sample_env;
     files := two_files admins_v1 rules_v1;
     LoadLocation := fun name => inl (wrapError "unknown time zone %s: %w" [VString name]
                                        (Sentinel Canceled));
     Stack := list_byte_of_string "goroutine 1 [running]:";
     LoadDefaultConfig := fun _ => None;
     sqs_Init := fun _ => None;
     redis_Init := fun _ => None;
     postgres_Connect := None;
     postgres_Init := None;
     dynamodb_Connect := None;
     dynamodb_Init := None;
     ManagerConfig_Validate := fun _ => None;
     APIConfig_Validate := fun _ => None;
     task_returns := [] |}.

(** A run of the sample environment on the two sample files. *)
Definition started_world : World := sample_world sample_env (two_files admins_v1 rules_v1) None.


(** ** The digest on known inputs *)

Example hash_empty :
  hash [] = "e3b0c44298fc1c149afbf4c8996fb92427ae41e4649b934ca495991b7852b855".
Proof. vm_compute. reflexivity. Qed.

Example hash_abc :
  hash (list_byte_of_string "abc")
  = "ba7816bf8f01cfea414140de5dae2223b00361a396177a9cb410ff61f20015ad".
Proof. vm_compute. reflexivity. Qed.

(** A message of two blocks. *)
Example hash_two_blocks :
  hash (list_byte_of_string "abcdbcdecdefdefgefghfghighijhijkijkljklmklmnlmnomnopnopq")
  = "248d6a61d20638b8e5c026930c3e6039a33ce45964ff2167f6ecedd419db06c1".
Proof. vm_compute. reflexivity. Qed.

Lemma be_bytes_length (n : nat) (x : N) : List.length (Sha256.be_bytes n x) = n.
Proof. induction n as [| n IH]; simpl; [reflexivity | rewrite IH; reflexivity]. Qed.

Lemma compress_length (h block : list N) : List.length (Sha256.compress h block) = 8.
Proof. reflexivity. Qed.

Lemma blocks_length (n : nat) :
  forall h bs, List.length h = 8 -> List.length (Sha256.blocks n h bs) = 8.
Proof.
  induction n as [| n IH]; intros h bs Hh; simpl; [exact Hh |].
  destruct bs as [| b bs']; [exact Hh |].
  apply IH, compress_length.
Qed.

Lemma flat_map_length_const {A B : Type} (f : A -> list B) (k : nat) (l : list A) :
  (forall a, List.length (f a) = k) -> List.length (flat_map f l) = List.length l * k.
Proof.
  intro Hf. induction l as [| a l IH]; simpl; [reflexivity |].
  rewrite length_app, Hf, IH. reflexivity.
Qed.

(** The digest has 32 bytes, the fingerprint 64 hexadecimal digits. *)
Lemma sum256_length (input : list byte) : List.length (Sha256.sum256 input) = 32.
Proof.
  unfold Sha256.sum256. rewrite length_map.
  rewrite (flat_map_length_const _ 4) by (intro; apply be_bytes_length).
  rewrite blocks_length by reflexivity. reflexivity.
Qed.

Lemma EncodeToString_length (src : list byte) :
  String.length (EncodeToString src) = 2 * List.length src.
Proof.
  induction src as [| b rest IH]; [reflexivity |].
  cbn [EncodeToString String.length List.length]. rewrite IH. lia.
Qed.

Lemma hash_length (input : list byte) : String.length (hash input) = 64.
Proof. unfold hash. rewrite EncodeToString_length, sum256_length. reflexivity. Qed.

(** * Properties *)

(** ** The exit code *)

Lemma sentinel_eqb_eq (a b : sentinel) : sentinel_eqb a b = true <-> a = b.
Proof. destruct a, b; simpl; split; intro H; try reflexivity; discriminate H. Qed.

Lemma errors_Is_chain_wraps (target : sentinel) (e : error) :
  errors_Is_chain e target = true -> wraps target e.
Proof.
  induction e as [s | s | f a | f a inner IH | fn num inner IH | op path inner IH | code];
    simpl; intro H; try discriminate H.
  - apply sentinel_eqb_eq in H. subst s. constructor.
  - apply wraps_inner with inner; [reflexivity | auto].
  - apply wraps_inner with inner; [reflexivity | auto].
  - apply wraps_inner with inner; [reflexivity | auto].
Qed.

Lemma wraps_errors_Is_chain (target : sentinel) (e : error) :
  wraps target e -> errors_Is_chain e target = true.
Proof.
  induction 1 as [| e inner Hu _ IH].
  - simpl. apply sentinel_eqb_eq. reflexivity.
  - destruct e; simpl in Hu; try discriminate Hu; injection Hu as ->; exact IH.
Qed.

Lemma errors_Is_spec (target : sentinel) (e : error) :
  errors_Is (Some e) target = true <-> wraps target e.
Proof. split; [apply errors_Is_chain_wraps | apply wraps_errors_Is_chain]. Qed.

Lemma errors_Is_false (target : sentinel) (e : error) :
  errors_Is (Some e) target = false <-> ~ wraps target e.
Proof.
  rewrite <- errors_Is_spec. destruct (errors_Is (Some e) target); split; intro H.
  - discriminate H.
  - exfalso. apply H. reflexivity.
  - intro H'. discriminate H'.
  - reflexivity.
Qed.

Lemma exitMain_returnCode (err : option error) :
  returnCode (exitMain err)
  = match err with
    | None => 0%Z
    | Some _ => if errors_Is err Canceled then 0%Z else 1%Z
    end.
Proof.
  destruct err as [e |]; [| reflexivity].
  unfold exitMain. destruct (errors_Is (Some e) Canceled); reflexivity.
Qed.

(** C6.  For every error value [mainImpl] can return, [exitMain] exits with
    code 0 when the error is nil or wraps [context.Canceled], and with code
    1 for every other error. *)
Theorem exit_code_of_error (err : option error) :
  (clean_shutdown err /\ returnCode (exitMain err) = 0%Z)
  \/ (~ clean_shutdown err /\ returnCode (exitMain err) = 1%Z).
Proof.
  rewrite exitMain_returnCode. destruct err as [e |]; simpl clean_shutdown.
  - destruct (errors_Is (Some e) Canceled) eqn:His.
    + left. split; [apply errors_Is_spec; exact His | reflexivity].
    + right. split; [apply errors_Is_false; exact His | reflexivity].
  - left. split; [exact I | reflexivity].
Qed.

Example exit_code_cancelled :
  returnCode (exitMain (Some (wrapError "manager stopped: %w" [] (Sentinel Canceled)))) = 0%Z.
Proof. reflexivity. Qed.

Example exit_code_deadline :
  returnCode (exitMain (Some (wrapError "manager stopped: %w" [] (Sentinel DeadlineExceeded)))) = 1%Z.
Proof. reflexivity. Qed.

Example exit_code_clean : returnCode (exitMain None) = 0%Z.
Proof. reflexivity. Qed.

(** ** The settings readers and the refresh cycle *)

Section RefreshProperties.

Context {ManagerSettings APISettings : Type}.
Variable lib : Lib ManagerSettings APISettings.

(** A successful read returns the digest of the bytes it read. *)
Lemma readManagerSettings_hash (fs : FS) (filename : string) (s : ManagerSettings) (h : string) :
  readManagerSettings lib fs filename = inr (s, h) ->
  exists content, ReadFile fs (Clean lib filename) = inr content /\ h = hash content.
Proof.
  unfold readManagerSettings. destruct (ReadFile fs (Clean lib filename)) as [e | content].
  - discriminate.
  - destruct (UnmarshalManagerSettings lib content) as [e | doc]; [discriminate |].
    intro H. injection H as _ <-. exists content. split; reflexivity.
Qed.

Lemma readAPISettings_hash (fs : FS) (filename : string) (s : APISettings) (h : string) :
  readAPISettings lib fs filename = inr (s, h) ->
  exists content, ReadFile fs (Clean lib filename) = inr content /\ h = hash content.
Proof.
  unfold readAPISettings. destruct (ReadFile fs (Clean lib filename)) as [e | content].
  - discriminate.
  - destruct (UnmarshalAPISettings lib content) as [e | doc]; [discriminate |].
    intro H. injection H as _ <-. exists content. split; reflexivity.
Qed.

Lemma fingerprint_of_read (fs : FS) (filename : string) (content : list byte) (h : string) :
  ReadFile fs (Clean lib filename) = inr content ->
  fingerprint_of (readManagerSettings lib fs filename) = Some h
  \/ fingerprint_of (readAPISettings lib fs filename) = Some h ->
  h = hash content.
Proof.
  intros Hread [H | H].
  - destruct (readManagerSettings lib fs filename) as [e | [s h']] eqn:Hr; [discriminate H |].
    injection H as ->. apply readManagerSettings_hash in Hr as (c & Hc & ->).
    rewrite Hread in Hc. injection Hc as ->. reflexivity.
  - destruct (readAPISettings lib fs filename) as [e | [s h']] eqn:Hr; [discriminate H |].
    injection H as ->. apply readAPISettings_hash in Hr as (c & Hc & ->).
    rewrite Hread in Hc. injection Hc as ->. reflexivity.
Qed.

(** C8.  The fingerprint is a function of the raw bytes alone: two settings
    reads that observe the same bytes, whatever the file, the file system
    (the cycle) and the settings kind of each, return the same fingerprint,
    the hex-encoded SHA-256 digest of these bytes. *)
Theorem fingerprint_deterministic
    (fs1 fs2 : FS) (file1 file2 : string) (content : list byte) (h1 h2 : string) :
  ReadFile fs1 (Clean lib file1) = inr content ->
  ReadFile fs2 (Clean lib file2) = inr content ->
  fingerprint_of (readManagerSettings lib fs1 file1) = Some h1
  \/ fingerprint_of (readAPISettings lib fs1 file1) = Some h1 ->
  fingerprint_of (readManagerSettings lib fs2 file2) = Some h2
  \/ fingerprint_of (readAPISettings lib fs2 file2) = Some h2 ->
  h1 = h2 /\ h1 = EncodeToString (Sha256.sum256 content).
Proof.
  intros R1 R2 F1 F2.
  rewrite (fingerprint_of_read fs1 file1 content h1 R1 F1).
  rewrite (fingerprint_of_read fs2 file2 content h2 R2 F2).
  split; reflexivity.
Qed.

(** *** One cycle *)

Lemma manager_updates_app (a b : list (refresh_event ManagerSettings APISettings)) :
  manager_updates (a ++ b) = manager_updates a ++ manager_updates b.
Proof. unfold manager_updates. apply flat_map_app. Qed.

Lemma api_updates_app (a b : list (refresh_event ManagerSettings APISettings)) :
  api_updates (a ++ b) = api_updates a ++ api_updates b.
Proof. unfold api_updates. apply flat_map_app. Qed.

Lemma file_reads_app (a b : list (refresh_event ManagerSettings APISettings)) :
  file_reads (a ++ b) = file_reads a ++ file_reads b.
Proof. unfold file_reads. apply flat_map_app. Qed.

(** Case analysis on everything the cycle looks at. *)
Ltac cycle_cases cfg t mh ah :=
  unfold cycle;
  destruct (readManagerSettings lib (manager_files t) (ManagerSettingsFilename cfg))
    as [? | [? ?]];
  destruct (readAPISettings lib (api_files t) (APISettingsFilename cfg))
    as [? | [? ?]];
  repeat match goal with
         | |- context [String.eqb ?a ?b] => destruct (String.eqb_spec a b)
         | |- context [manager_UpdateSettings t ?s] => destruct (manager_UpdateSettings t s)
         | |- context [apiServer_UpdateSettings t ?s] => destruct (apiServer_UpdateSettings t s)
         end.

(** The manager fingerprint and the manager updates of a cycle depend on the
    manager side only. *)
Lemma cycle_manager_side (cfg : Config) (t : Tick ManagerSettings APISettings) (mh ah : string) :
  match readManagerSettings lib (manager_files t) (ManagerSettingsFilename cfg) with
  | inl _ =>
      fst (snd (cycle lib cfg t mh ah)) = mh
      /\ manager_updates (fst (cycle lib cfg t mh ah)) = []
  | inr (s, h) =>
      if String.eqb h mh
      then fst (snd (cycle lib cfg t mh ah)) = mh
           /\ manager_updates (fst (cycle lib cfg t mh ah)) = []
      else fst (snd (cycle lib cfg t mh ah)) = h
           /\ manager_updates (fst (cycle lib cfg t mh ah)) = [s]
  end.
Proof.
  cycle_cases cfg t mh ah; simpl; rewrite ?manager_updates_app; simpl; split; reflexivity.
Qed.

Lemma cycle_api_side (cfg : Config) (t : Tick ManagerSettings APISettings) (mh ah : string) :
  match readAPISettings lib (api_files t) (APISettingsFilename cfg) with
  | inl _ =>
      snd (snd (cycle lib cfg t mh ah)) = ah
      /\ api_updates (fst (cycle lib cfg t mh ah)) = []
  | inr (s, h) =>
      if String.eqb h ah
      then snd (snd (cycle lib cfg t mh ah)) = ah
           /\ api_updates (fst (cycle lib cfg t mh ah)) = []
      else snd (snd (cycle lib cfg t mh ah)) = h
           /\ api_updates (fst (cycle lib cfg t mh ah)) = [s]
  end.
Proof.
  cycle_cases cfg t mh ah; simpl; rewrite ?api_updates_app; simpl; split; reflexivity.
Qed.

(** Both files are read in every cycle, the manager settings first. *)
Lemma cycle_reads (cfg : Config) (t : Tick ManagerSettings APISettings) (mh ah : string) :
  file_reads (fst (cycle lib cfg t mh ah))
  = [Clean lib (ManagerSettingsFilename cfg); Clean lib (APISettingsFilename cfg)].
Proof.
  cycle_cases cfg t mh ah; simpl; rewrite ?file_reads_app; reflexivity.
Qed.

(** The outcome of a cycle for one kind does not depend on the other kind:
    two cycles that agree on the API side agree on the API outcome. *)
Lemma cycle_api_independent (cfg : Config) (t t' : Tick ManagerSettings APISettings)
    (mh mh' ah : string) :
  api_files t' = api_files t ->
  apiServer_UpdateSettings t' = apiServer_UpdateSettings t ->
  snd (snd (cycle lib cfg t' mh' ah)) = snd (snd (cycle lib cfg t mh ah))
  /\ api_updates (fst (cycle lib cfg t' mh' ah)) = api_updates (fst (cycle lib cfg t mh ah)).
Proof.
  intros Hf Hu.
  pose proof (cycle_api_side cfg t mh ah) as H.
  pose proof (cycle_api_side cfg t' mh' ah) as H'.
  rewrite Hf in H'.
  destruct (readAPISettings lib (api_files t) (APISettingsFilename cfg)) as [e | [s h]].
  - destruct H as [-> ->], H' as [-> ->]. split; reflexivity.
  - destruct (String.eqb h ah); destruct H as [-> ->], H' as [-> ->]; split; reflexivity.
Qed.

Lemma cycle_manager_independent (cfg : Config) (t t' : Tick ManagerSettings APISettings)
    (mh ah ah' : string) :
  manager_files t' = manager_files t ->
  manager_UpdateSettings t' = manager_UpdateSettings t ->
  fst (snd (cycle lib cfg t' mh ah')) = fst (snd (cycle lib cfg t mh ah))
  /\ manager_updates (fst (cycle lib cfg t' mh ah')) = manager_updates (fst (cycle lib cfg t mh ah)).
Proof.
  intros Hf Hu.
  pose proof (cycle_manager_side cfg t mh ah) as H.
  pose proof (cycle_manager_side cfg t' mh ah') as H'.
  rewrite Hf in H'.
  destruct (readManagerSettings lib (manager_files t) (ManagerSettingsFilename cfg)) as [e | [s h]].
  - destruct H as [-> ->], H' as [-> ->]. split; reflexivity.
  - destruct (String.eqb h mh); destruct H as [-> ->], H' as [-> ->]; split; reflexivity.
Qed.

(** C2.  In a cycle whose read of a settings file succeeds with a
    fingerprint that differs from the stored one, the update operation of
    that kind is called exactly once, with the document just parsed, and
    when the call succeeds the stored fingerprint of that kind becomes the
    fingerprint of the new content. *)
Theorem change_triggers_one_update
    (cfg : Config) (t : Tick ManagerSettings APISettings) (mh ah : string) :
  (forall s h,
      readManagerSettings lib (manager_files t) (ManagerSettingsFilename cfg) = inr (s, h) ->
      h <> mh ->
      manager_updates (fst (cycle lib cfg t mh ah)) = [s]
      /\ (manager_UpdateSettings t s = None -> fst (snd (cycle lib cfg t mh ah)) = h))
  /\ (forall s h,
      readAPISettings lib (api_files t) (APISettingsFilename cfg) = inr (s, h) ->
      h <> ah ->
      api_updates (fst (cycle lib cfg t mh ah)) = [s]
      /\ (apiServer_UpdateSettings t s = None -> snd (snd (cycle lib cfg t mh ah)) = h)).
Proof.
  split; intros s h Hread Hneq.
  - pose proof (cycle_manager_side cfg t mh ah) as H. rewrite Hread in H.
    apply String.eqb_neq in Hneq. rewrite Hneq in H. destruct H as [Hh Hu].
    split; [exact Hu | intros _; exact Hh].
  - pose proof (cycle_api_side cfg t mh ah) as H. rewrite Hread in H.
    apply String.eqb_neq in Hneq. rewrite Hneq in H. destruct H as [Hh Hu].
    split; [exact Hu | intros _; exact Hh].
Qed.

(** C3.  In a cycle whose read of a settings file succeeds with the stored
    fingerprint, the update operation of that kind is not called and the
    stored fingerprint of that kind does not change. *)
Theorem unchanged_content_is_noop
    (cfg : Config) (t : Tick ManagerSettings APISettings) (mh ah : string) :
  (forall s h,
      readManagerSettings lib (manager_files t) (ManagerSettingsFilename cfg) = inr (s, h) ->
      h = mh ->
      manager_updates (fst (cycle lib cfg t mh ah)) = []
      /\ fst (snd (cycle lib cfg t mh ah)) = mh)
  /\ (forall s h,
      readAPISettings lib (api_files t) (APISettingsFilename cfg) = inr (s, h) ->
      h = ah ->
      api_updates (fst (cycle lib cfg t mh ah)) = []
      /\ snd (snd (cycle lib cfg t mh ah)) = ah).
Proof.
  split; intros s h Hread Heq.
  - pose proof (cycle_manager_side cfg t mh ah) as H. rewrite Hread in H.
    apply String.eqb_eq in Heq. rewrite Heq in H. destruct H as [Hh Hu].
    split; assumption.
  - pose proof (cycle_api_side cfg t mh ah) as H. rewrite Hread in H.
    apply String.eqb_eq in Heq. rewrite Heq in H. destruct H as [Hh Hu].
    split; assumption.
Qed.

(** C4.  The two kinds are processed independently in every cycle: when the
    read or the parse of one kind fails, its stored fingerprint is unchanged
    and no update is pushed for it, and the other kind is still read,
    compared and, if it changed, updated in the same cycle. *)
Theorem read_failure_is_local
    (cfg : Config) (t : Tick ManagerSettings APISettings) (mh ah : string) :
  (forall e,
      readManagerSettings lib (manager_files t) (ManagerSettingsFilename cfg) = inl e ->
      fst (snd (cycle lib cfg t mh ah)) = mh
      /\ manager_updates (fst (cycle lib cfg t mh ah)) = []
      /\ In (Clean lib (APISettingsFilename cfg)) (file_reads (fst (cycle lib cfg t mh ah)))
      /\ (forall s h,
            readAPISettings lib (api_files t) (APISettingsFilename cfg) = inr (s, h) ->
            (h <> ah ->
             api_updates (fst (cycle lib cfg t mh ah)) = [s]
             /\ snd (snd (cycle lib cfg t mh ah)) = h)
            /\ (h = ah ->
                api_updates (fst (cycle lib cfg t mh ah)) = []
                /\ snd (snd (cycle lib cfg t mh ah)) = ah)))
  /\ (forall e,
      readAPISettings lib (api_files t) (APISettingsFilename cfg) = inl e ->
      snd (snd (cycle lib cfg t mh ah)) = ah
      /\ api_updates (fst (cycle lib cfg t mh ah)) = []
      /\ In (Clean lib (ManagerSettingsFilename cfg)) (file_reads (fst (cycle lib cfg t mh ah)))
      /\ (forall s h,
            readManagerSettings lib (manager_files t) (ManagerSettingsFilename cfg) = inr (s, h) ->
            (h <> mh ->
             manager_updates (fst (cycle lib cfg t mh ah)) = [s]
             /\ fst (snd (cycle lib cfg t mh ah)) = h)
            /\ (h = mh ->
                manager_updates (fst (cycle lib cfg t mh ah)) = []
                /\ fst (snd (cycle lib cfg t mh ah)) = mh))).
Proof.
  pose proof (cycle_manager_side cfg t mh ah) as Hm.
  pose proof (cycle_api_side cfg t mh ah) as Ha.
  pose proof (cycle_reads cfg t mh ah) as Hr.
  split; intros e Hfail.
  - rewrite Hfail in Hm. destruct Hm as [Hh Hu].
    split; [exact Hh | split; [exact Hu | split]].
    + rewrite Hr. simpl. auto.
    + intros s h Hread. rewrite Hread in Ha. split; intro Hcmp.
      * apply String.eqb_neq in Hcmp. rewrite Hcmp in Ha. destruct Ha; auto.
      * apply String.eqb_eq in Hcmp. rewrite Hcmp in Ha. destruct Ha; auto.
  - rewrite Hfail in Ha. destruct Ha as [Hh Hu].
    split; [exact Hh | split; [exact Hu | split]].
    + rewrite Hr. simpl. auto.
    + intros s h Hread. rewrite Hread in Hm. split; intro Hcmp.
      * apply String.eqb_neq in Hcmp. rewrite Hcmp in Hm. destruct Hm; auto.
      * apply String.eqb_eq in Hcmp. rewrite Hcmp in Hm. destruct Hm; auto.
Qed.

(** *** A failed update *)

Lemma cycle_manager_update_logged (cfg : Config) (t : Tick ManagerSettings APISettings)
    (mh ah : string) (s : ManagerSettings) (h : string) (e : error) :
  readManagerSettings lib (manager_files t) (ManagerSettingsFilename cfg) = inr (s, h) ->
  h <> mh ->
  manager_UpdateSettings t s = Some e ->
  In (EvError (Log ErrorLevel "Failed to update manager settings: %s" [VError e]))
     (fst (cycle lib cfg t mh ah)).
Proof.
  intros Hread Hneq Hupd. apply String.eqb_neq in Hneq.
  unfold cycle. rewrite Hread, Hneq, Hupd. simpl. auto.
Qed.

Lemma cycle_api_update_logged (cfg : Config) (t : Tick ManagerSettings APISettings)
    (mh ah : string) (s : APISettings) (h : string) (e : error) :
  readAPISettings lib (api_files t) (APISettingsFilename cfg) = inr (s, h) ->
  h <> ah ->
  apiServer_UpdateSettings t s = Some e ->
  In (EvError (Log ErrorLevel "Failed to update API settings: %s" [VError e]))
     (fst (cycle lib cfg t mh ah)).
Proof.
  intros Hread Hneq Hupd. apply String.eqb_neq in Hneq.
  unfold cycle. rewrite Hread, Hneq, Hupd. simpl fst.
  apply in_or_app. right. simpl. auto.
Qed.

Lemma readManagerSettings_same_content (fs fs' : FS) (filename : string) :
  ReadFile fs' (Clean lib filename) = ReadFile fs (Clean lib filename) ->
  readManagerSettings lib fs' filename = readManagerSettings lib fs filename.
Proof. intro H. unfold readManagerSettings. rewrite H. reflexivity. Qed.

Lemma readAPISettings_same_content (fs fs' : FS) (filename : string) :
  ReadFile fs' (Clean lib filename) = ReadFile fs (Clean lib filename) ->
  readAPISettings lib fs' filename = readAPISettings lib fs filename.
Proof. intro H. unfold readAPISettings. rewrite H. reflexivity. Qed.

(** C1, as the code has it.  In a cycle whose read of a settings file
    succeeds with a fingerprint that differs from the stored one, when the
    update operation returns an error, the error is logged and the stored
    fingerprint of that kind is set to the new fingerprint all the same; in
    the next cycle, with the content of the file unchanged, the update of
    that kind is not attempted again. *)
Theorem failed_update_is_not_retried
    (cfg : Config) (t t' : Tick ManagerSettings APISettings) (mh ah : string) :
  (forall s h e,
      readManagerSettings lib (manager_files t) (ManagerSettingsFilename cfg) = inr (s, h) ->
      h <> mh ->
      manager_UpdateSettings t s = Some e ->
      In (EvError (Log ErrorLevel "Failed to update manager settings: %s" [VError e]))
         (fst (cycle lib cfg t mh ah))
      /\ fst (snd (cycle lib cfg t mh ah)) = h
      /\ (ReadFile (manager_files t') (Clean lib (ManagerSettingsFilename cfg))
          = ReadFile (manager_files t) (Clean lib (ManagerSettingsFilename cfg)) ->
          manager_updates
            (fst (cycle lib cfg t' (fst (snd (cycle lib cfg t mh ah)))
                        (snd (snd (cycle lib cfg t mh ah))))) = []))
  /\ (forall s h e,
      readAPISettings lib (api_files t) (APISettingsFilename cfg) = inr (s, h) ->
      h <> ah ->
      apiServer_UpdateSettings t s = Some e ->
      In (EvError (Log ErrorLevel "Failed to update API settings: %s" [VError e]))
         (fst (cycle lib cfg t mh ah))
      /\ snd (snd (cycle lib cfg t mh ah)) = h
      /\ (ReadFile (api_files t') (Clean lib (APISettingsFilename cfg))
          = ReadFile (api_files t) (Clean lib (APISettingsFilename cfg)) ->
          api_updates
            (fst (cycle lib cfg t' (fst (snd (cycle lib cfg t mh ah)))
                        (snd (snd (cycle lib cfg t mh ah))))) = [])).
Proof.
  split; intros s h e Hread Hneq Hupd.
  - assert (Hh : fst (snd (cycle lib cfg t mh ah)) = h).
    { pose proof (cycle_manager_side cfg t mh ah) as H. rewrite Hread in H.
      apply String.eqb_neq in Hneq. rewrite Hneq in H. apply H. }
    split; [eapply cycle_manager_update_logged; eassumption |].
    split; [exact Hh |].
    intro Hsame. apply readManagerSettings_same_content in Hsame.
    pose proof (cycle_manager_side cfg t' (fst (snd (cycle lib cfg t mh ah)))
                  (snd (snd (cycle lib cfg t mh ah)))) as H.
    rewrite Hsame, Hread, Hh, String.eqb_refl in H. rewrite Hh. apply H.
  - assert (Hh : snd (snd (cycle lib cfg t mh ah)) = h).
    { pose proof (cycle_api_side cfg t mh ah) as H. rewrite Hread in H.
      apply String.eqb_neq in Hneq. rewrite Hneq in H. apply H. }
    split; [eapply cycle_api_update_logged; eassumption |].
    split; [exact Hh |].
    intro Hsame. apply readAPISettings_same_content in Hsame.
    pose proof (cycle_api_side cfg t' (fst (snd (cycle lib cfg t mh ah)))
                  (snd (snd (cycle lib cfg t mh ah)))) as H.
    rewrite Hsame, Hread, Hh, String.eqb_refl in H. rewrite Hh. apply H.
Qed.

(** *** The loop *)

Lemma refreshSettings_done (ticks : list (Tick ManagerSettings APISettings)) (cfg : Config)
    (mh ah : string) :
  refreshSettings lib true ticks cfg mh ah = ([], Returned (Some (Sentinel Canceled))).
Proof. destruct ticks; reflexivity. Qed.

(** The loop returns through its [ctx.Done()] case only. *)
Lemma refreshSettings_returns_Canceled (ticks : list (Tick ManagerSettings APISettings)) :
  forall (done : bool) (cfg : Config) (mh ah : string) (err : option error),
    snd (refreshSettings lib done ticks cfg mh ah) = Returned err ->
    err = Some (Sentinel Canceled).
Proof.
  induction ticks as [| t rest IH]; intros done cfg mh ah err.
  - destruct done; simpl; intro H; [injection H as <-; reflexivity | discriminate H].
  - destruct done; simpl.
    + intro H. injection H as <-. reflexivity.
    + destruct (fired t); simpl.
      * intro H. injection H as <-. reflexivity.
      * apply IH.
Qed.

Lemma refreshSettings_step (t : Tick ManagerSettings APISettings)
    (rest : list (Tick ManagerSettings APISettings)) (cfg : Config) (mh ah : string) :
  fired t = TimeAfter ->
  refreshSettings lib false (t :: rest) cfg mh ah
  = (fst (cycle lib cfg t mh ah)
       ++ fst (refreshSettings lib (cancelled_in_cycle t) rest cfg
                 (fst (snd (cycle lib cfg t mh ah))) (snd (snd (cycle lib cfg t mh ah)))),
     snd (refreshSettings lib (cancelled_in_cycle t) rest cfg
            (fst (snd (cycle lib cfg t mh ah))) (snd (snd (cycle lib cfg t mh ah))))).
Proof. intro H. simpl. rewrite H. reflexivity. Qed.

(** C5.  Once the context is cancelled the loop returns the cancellation
    error of the context and begins no further file read: a loop that finds
    the context done at its select returns at once, and when the
    cancellation arrives during a turn, the cycle in flight, if any, runs to
    its end, after which the loop returns without looking at the rest of the
    schedule. *)
Theorem cancellation_stops_the_loop (cfg : Config) :
  (forall ticks mh ah,
      refreshSettings lib true ticks cfg mh ah = ([], Returned (Some (Sentinel Canceled))))
  /\ (forall pre t post mh ah,
        Forall undisturbed pre ->
        fired t = CtxDone \/ cancelled_in_cycle t = true ->
        refreshSettings lib false (pre ++ t :: post) cfg mh ah
        = (fst (run_cycles lib cfg (pre ++ in_flight t) mh ah),
           Returned (Some (Sentinel Canceled)))).
Proof.
  split; [intros; apply refreshSettings_done |].
  induction pre as [| p pre IH]; intros t post mh ah Hpre Hcancel.
  - simpl app. unfold in_flight. destruct (fired t) eqn:Hfired.
    + simpl. rewrite Hfired. reflexivity.
    + destruct Hcancel as [Hc | Hc]; [discriminate Hc |].
      rewrite refreshSettings_step by exact Hfired.
      rewrite Hc, refreshSettings_done. reflexivity.
  - inversion Hpre as [| p' pre' [Hfired Hquiet] Hrest]; subst.
    simpl app. rewrite refreshSettings_step by exact Hfired.
    rewrite Hquiet, (IH t post _ _ Hrest Hcancel). reflexivity.
Qed.

End RefreshProperties.

(** ** The startup sequence *)

(** *** The monad of the main flow *)

Lemma snd_bind_Ok {A B : Type} (m : M A) (k : A -> M B) (a : A) :
  snd m = Ok a -> snd (bind m k) = snd (k a).
Proof. intro H. unfold bind. rewrite H. reflexivity. Qed.

Lemma snd_bind_Fail {A B : Type} (m : M A) (k : A -> M B) (e : error) :
  snd m = Fail e -> snd (bind m k) = Fail e.
Proof. intro H. unfold bind. rewrite H. reflexivity. Qed.

Lemma snd_bind_Panic {A B : Type} (m : M A) (k : A -> M B) (v : value) :
  snd m = Panic v -> snd (bind m k) = Panic v.
Proof. intro H. unfold bind. rewrite H. reflexivity. Qed.

Lemma snd_or_return_Ok {A : Type} (format : string) (m : M A) (a : A) :
  snd m = Ok a -> snd (or_return format m) = Ok a.
Proof. intro H. unfold or_return. rewrite H. exact H. Qed.

Lemma snd_or_return_Fail {A : Type} (format : string) (m : M A) (e : error) :
  snd m = Fail e -> snd (or_return format m) = Fail (wrapError format [] e).
Proof. intro H. unfold or_return. rewrite H. reflexivity. Qed.

Lemma fst_or_return {A : Type} (format : string) (m : M A) :
  fst (or_return format m) = fst m.
Proof. unfold or_return. destruct (snd m); reflexivity. Qed.

Lemma snd_bind_or_return_Ok {A B : Type} (format : string) (m : M A) (k : A -> M B) (a : A) :
  snd m = Ok a -> snd (bind (or_return format m) k) = snd (k a).
Proof. intro H. apply snd_bind_Ok, snd_or_return_Ok, H. Qed.

Lemma snd_bind_or_return_Fail {A B : Type} (format : string) (m : M A) (k : A -> M B)
    (e : error) :
  snd m = Fail e -> snd (bind (or_return format m) k) = Fail (wrapError format [] e).
Proof. intro H. apply snd_bind_Fail, snd_or_return_Fail, H. Qed.

Lemma snd_bind_metrics {B : Type} (b : bool) (port : string) (k : unit -> M B) :
  snd (bind (if b then emit (EvGo (MetricsServer port)) else ret tt) k) = snd (k tt).
Proof. destruct b; reflexivity. Qed.

(** *** Events of the startup steps *)

Lemma no_service_app (a b : list event) :
  no_service_started a -> no_service_started b -> no_service_started (a ++ b).
Proof.
  unfold no_service_started. intros Ha Hb. rewrite existsb_app, Ha, Hb. reflexivity.
Qed.

Lemma quiet_bind {A B : Type} (m : M A) (k : A -> M B) :
  no_service_started (fst m) ->
  (forall a, no_service_started (fst (k a))) ->
  no_service_started (fst (bind m k)).
Proof.
  intros Hm Hk. unfold bind. destruct (snd m) as [a | e | v]; simpl; auto.
  apply no_service_app; auto.
Qed.

Lemma quiet_or_return {A : Type} (format : string) (m : M A) :
  no_service_started (fst m) -> no_service_started (fst (or_return format m)).
Proof. rewrite fst_or_return. auto. Qed.

Lemma quiet_ret {A : Type} (a : A) : no_service_started (fst (ret a)).
Proof. reflexivity. Qed.

Lemma quiet_fail {A : Type} (e : error) : no_service_started (fst (@fail A e)).
Proof. reflexivity. Qed.

Lemma quiet_panic {A : Type} (v : value) : no_service_started (fst (@panic A v)).
Proof. reflexivity. Qed.

Lemma quiet_lift {A : Type} (r : result A) : no_service_started (fst (lift r)).
Proof. reflexivity. Qed.

Lemma quiet_of_error (err : option error) : no_service_started (fst (of_error err)).
Proof. destruct err; reflexivity. Qed.

Lemma quiet_of_sum {A : Type} (r : error + A) : no_service_started (fst (of_sum r)).
Proof. destruct r; reflexivity. Qed.

Lemma quiet_Info (l : Logger) (msg : string) : no_service_started (fst (Logger_Info l msg)).
Proof. reflexivity. Qed.

Lemma quiet_Infof (l : Logger) (format : string) (args : list value) :
  no_service_started (fst (Logger_Infof l format args)).
Proof. reflexivity. Qed.

Lemma quiet_if {A : Type} (b : bool) (m1 m2 : M A) :
  no_service_started (fst m1) -> no_service_started (fst m2) ->
  no_service_started (fst (if b then m1 else m2)).
Proof. destruct b; auto. Qed.

Create HintDb quiet.
#[local] Hint Resolve quiet_ret quiet_fail quiet_panic quiet_lift quiet_of_error quiet_of_sum
  quiet_Info quiet_Infof quiet_or_return : quiet.
#[local] Hint Extern 2 (no_service_started (fst (bind _ _))) =>
  apply quiet_bind; [| intro] : quiet.
#[local] Hint Extern 2 (no_service_started (fst (if _ then _ else _))) =>
  apply quiet_if : quiet.

Lemma quiet_newRedisClient (cfg : RedisConfig) : no_service_started (fst (newRedisClient cfg)).
Proof. unfold newRedisClient. auto with quiet. Qed.

Lemma quiet_createAwsCfg (w : World) (c : AwsConfig) (l : Logger) :
  no_service_started (fst (createAwsCfg w c l)).
Proof. unfold createAwsCfg. auto 12 with quiet. Qed.

#[local] Hint Resolve quiet_newRedisClient quiet_createAwsCfg : quiet.

Lemma quiet_newSQSClient (w : World) (cfg : AwsConfig) (q : SqsQueueConfig) (l : Logger) :
  no_service_started (fst (newSQSClient w cfg q l)).
Proof. unfold newSQSClient. auto 8 with quiet. Qed.

Lemma quiet_newPostgresClient (w : World) (cfg : PostgresConfig) (l : Logger) :
  no_service_started (fst (newPostgresClient w cfg l)).
Proof. unfold newPostgresClient. auto 12 with quiet. Qed.

Lemma quiet_newDynamoDBClient (w : World) (cfg : AwsConfig) (l : Logger) :
  no_service_started (fst (newDynamoDBClient w cfg l)).
Proof. unfold newDynamoDBClient. auto 14 with quiet. Qed.

#[local] Hint Resolve quiet_newSQSClient quiet_newPostgresClient quiet_newDynamoDBClient : quiet.

Section StartupProperties.

Context {ManagerSettings APISettings : Type}.
Variable lib : Lib ManagerSettings APISettings.

Lemma quiet_newAlertQueue (w : World) (rc : RedisOptions) (cl : ChannelLocker) (cfg : Config)
    (l : Logger) :
  no_service_started (fst (newAlertQueue lib w rc cl cfg l)).
Proof. unfold newAlertQueue. cbv zeta. auto 10 with quiet. Qed.

Lemma quiet_newCommandQueue (w : World) (rc : RedisOptions) (cl : ChannelLocker) (cfg : Config)
    (l : Logger) :
  no_service_started (fst (newCommandQueue lib w rc cl cfg l)).
Proof. unfold newCommandQueue. cbv zeta. auto 10 with quiet. Qed.

Lemma quiet_newDatabase (w : World) (cfg : Config) (l : Logger) :
  no_service_started (fst (newDatabase lib w cfg l)).
Proof. unfold newDatabase. cbv zeta. auto 10 with quiet. Qed.

Lemma quiet_getLocation (w : World) (cfg : Config) :
  no_service_started (fst (getLocation w cfg)).
Proof. unfold getLocation. destruct (LoadLocation w (Location cfg)); reflexivity. Qed.

Lemma completes_or_quiet_bind {A B : Type} (m : M A) (k : A -> M B) :
  no_service_started (fst m) ->
  (forall a, completes_or_quiet (k a)) ->
  completes_or_quiet (bind m k).
Proof.
  intros Hm Hk. unfold completes_or_quiet, bind.
  destruct (snd m) as [a | e | v]; simpl; auto.
  destruct (Hk a) as [[b Hb] | Hq].
  - left. exists b. exact Hb.
  - right. apply no_service_app; assumption.
Qed.

(** The services are started by the last steps of [mainImpl] only: a run
    that does not reach [errg.Wait()] has started none of them. *)
Lemma mainBody_completes_or_quiet (w : World) : completes_or_quiet (mainBody lib w).
Proof.
  unfold mainBody.
  apply completes_or_quiet_bind; [reflexivity | intros _].
  apply completes_or_quiet_bind; [apply quiet_lift | intro cfg].
  cbv zeta.
  apply completes_or_quiet_bind; [destruct (EnableMetrics cfg); reflexivity | intros _].
  apply completes_or_quiet_bind; [auto with quiet | intro rc].
  apply completes_or_quiet_bind; [apply quiet_or_return, quiet_newAlertQueue | intro aq].
  apply completes_or_quiet_bind; [apply quiet_or_return, quiet_newCommandQueue | intro cq].
  apply completes_or_quiet_bind; [apply quiet_or_return, quiet_newDatabase | intro db].
  apply completes_or_quiet_bind; [apply quiet_getLocation | intro loc].
  apply completes_or_quiet_bind; [auto with quiet | intros _].
  apply completes_or_quiet_bind; [auto with quiet | intro mr].
  apply completes_or_quiet_bind; [auto with quiet | intros _].
  apply completes_or_quiet_bind; [auto with quiet | intro ar].
  left. eexists. reflexivity.
Qed.

Lemma mainImpl_quiet (w : World) :
  (forall r, snd (mainBody lib w) <> Ok r) -> no_service_started (fst (mainImpl lib w)).
Proof.
  intro Hnot. unfold mainImpl. simpl fst.
  apply no_service_app; [| reflexivity].
  destruct (mainBody_completes_or_quiet w) as [[r Hr] | Hq]; [| exact Hq].
  exfalso. exact (Hnot r Hr).
Qed.

End StartupProperties.

(** *** Parsing the environment *)

Lemma returns_or_panics_bind {A B : Type} (Q : A -> Prop) (P : B -> Prop)
    (r : result A) (k : A -> result B) :
  returns_or_panics Q r ->
  (forall a, Q a -> returns_or_panics P (k a)) ->
  returns_or_panics P (result_bind r k).
Proof. destruct r as [a | e | v]; simpl; auto. Qed.

Lemma GetEnvIntIfSet_well_formed (env : Env) (name : string) (d : Z) :
  returns_or_panics (fun _ => ~ malformed_int env name) (GetEnvIntIfSet env name d).
Proof.
  unfold GetEnvIntIfSet, malformed_int.
  destruct (String.eqb_spec (Getenv env name) "") as [Hempty | Hset]; simpl.
  - intros [Hset _]. contradiction.
  - destruct (Atoi (Getenv env name)) as [err | val]; simpl; [exact I |].
    intros [_ [err Herr]]. discriminate Herr.
Qed.

Lemma GetEnvSecondsIfSet_well_formed (env : Env) (name : string) (d : Z) :
  returns_or_panics (fun _ => ~ malformed_int env name) (GetEnvSecondsIfSet env name d).
Proof.
  unfold GetEnvSecondsIfSet.
  eapply returns_or_panics_bind; [apply GetEnvIntIfSet_well_formed |].
  intros val Hval. exact Hval.
Qed.

Lemma GetEnvBoolIfSet_well_formed (env : Env) (name : string) (d : bool) :
  returns_or_panics (fun _ => ~ malformed_bool env name) (GetEnvBoolIfSet env name d).
Proof.
  unfold GetEnvBoolIfSet, malformed_bool.
  destruct (String.eqb_spec (Getenv env name) "") as [Hempty | Hset]; simpl.
  - intros [Hset _]. contradiction.
  - destruct (ParseBool (Getenv env name)) as [err | val]; simpl; [exact I |].
    intros [_ [err Herr]]. discriminate Herr.
Qed.

(** [config.New] returns a configuration or panics, and it returns one only
    when every variable it parses is unset, empty or well-formed. *)
Lemma New_well_formed (env : Env) :
  returns_or_panics (fun _ => ~ malformed_environment env) (New env).
Proof.
  unfold New.
  repeat (eapply returns_or_panics_bind;
          [ first [ apply GetEnvIntIfSet_well_formed
                  | apply GetEnvSecondsIfSet_well_formed
                  | apply GetEnvBoolIfSet_well_formed ]
          | intros ? ? ]).
  simpl.
  intros [[name [Hin Hbad]] | [name [Hin Hbad]]]; simpl in Hin;
    repeat (destruct Hin as [<- | Hin]; [contradiction |]); exact Hin.
Qed.

Lemma New_malformed (env : Env) :
  malformed_environment env -> exists v, New env = Panic v.
Proof.
  intro Hbad. pose proof (New_well_formed env) as H.
  destruct (New env) as [cfg | e | v]; simpl in H.
  - contradiction.
  - contradiction.
  - exists v. reflexivity.
Qed.

Section StartupTheorems.

Context {ManagerSettings APISettings : Type}.
Variable lib : Lib ManagerSettings APISettings.

(** Enter [mainBody] with the configuration [config.New] returned. *)
Ltac enter_main Hcfg :=
  unfold mainBody;
  rewrite (snd_bind_Ok _ _ tt) by reflexivity;
  rewrite Hcfg;
  rewrite (snd_bind_Ok (lift (Ok _)) _ _) by reflexivity;
  cbv beta zeta;
  rewrite snd_bind_metrics.

Ltac pass H := rewrite (snd_bind_or_return_Ok _ _ _ _ H); cbv beta zeta.
Ltac stop H := rewrite (snd_bind_or_return_Fail _ _ _ _ H).

Lemma mainBody_New_Panic (w : World) (v : value) :
  New (environ w) = Panic v -> snd (mainBody lib w) = Panic v.
Proof.
  intro H. unfold mainBody.
  rewrite (snd_bind_Ok _ _ tt) by reflexivity.
  apply snd_bind_Panic. rewrite H. reflexivity.
Qed.

Lemma mainBody_backend_failure (w : World) (cfg : Config) (format : string) (e : error) :
  New (environ w) = Ok cfg ->
  backend_failure lib w cfg format e ->
  snd (mainBody lib w) = Fail (wrapError format [] e).
Proof.
  intros Hcfg Hfail. enter_main Hcfg.
  destruct Hfail as [e Hrc | rc e Hrc Haq | rc aq e Hrc Haq Hcq | rc aq cq e Hrc Haq Hcq Hdb].
  - stop Hrc. reflexivity.
  - pass Hrc. stop Haq. reflexivity.
  - pass Hrc. pass Haq. stop Hcq. reflexivity.
  - pass Hrc. pass Haq. pass Hcq. stop Hdb. reflexivity.
Qed.

Lemma mainBody_read_failure (w : World) (cfg : Config) (format : string) (e : error) :
  startup_read_failure lib w cfg format e ->
  snd (mainBody lib w) = Fail (wrapError format [] e).
Proof.
  intros [e' Hreach Hread | e' Hreach Hread].
  - destruct Hreach as (Hcfg & (rc & aq & cq & db & Hrc & Haq & Hcq & Hdb) & loc & Hloc & Hval).
    enter_main Hcfg. pass Hrc. pass Haq. pass Hcq. pass Hdb.
    unfold getLocation. rewrite Hloc.
    rewrite (snd_bind_Ok (ret loc) _ loc) by reflexivity. cbv beta zeta.
    unfold managerCfg_of in Hval. rewrite Hval.
    rewrite (snd_bind_or_return_Ok _ (of_error None) _ tt) by reflexivity.
    rewrite Hread. apply snd_bind_or_return_Fail. reflexivity.
  - destruct Hreach as ((Hcfg & (rc & aq & cq & db & Hrc & Haq & Hcq & Hdb) & loc & Hloc & Hval)
                        & (mr & Hmr) & Hapi).
    enter_main Hcfg. pass Hrc. pass Haq. pass Hcq. pass Hdb.
    unfold getLocation. rewrite Hloc.
    rewrite (snd_bind_Ok (ret loc) _ loc) by reflexivity. cbv beta zeta.
    unfold managerCfg_of in Hval. rewrite Hval.
    rewrite (snd_bind_or_return_Ok _ (of_error None) _ tt) by reflexivity.
    rewrite Hmr.
    rewrite (snd_bind_or_return_Ok _ (of_sum (inr mr)) _ mr) by reflexivity. cbv beta zeta.
    unfold apiCfg_of in Hapi. rewrite Hapi.
    rewrite (snd_bind_or_return_Ok _ (of_error None) _ tt) by reflexivity.
    rewrite Hread. apply snd_bind_or_return_Fail. reflexivity.
Qed.

(** What [mainImpl] and [main] do with the outcome of the body. *)
Lemma mainImpl_of_Fail (w : World) (e : error) :
  snd (mainBody lib w) = Fail e ->
  snd (mainImpl lib w) = Some e
  /\ no_service_started (fst (mainImpl lib w))
  /\ returnCode (main lib w) = (if errors_Is (Some e) Canceled then 0 else 1)%Z.
Proof.
  intro H. split; [| split].
  - unfold mainImpl. cbv zeta. cbn [snd]. rewrite H. reflexivity.
  - apply mainImpl_quiet. intros r Hr. rewrite H in Hr. discriminate Hr.
  - unfold main, mainImpl. cbv zeta. cbn [snd]. rewrite H. rewrite exitMain_returnCode. reflexivity.
Qed.

Lemma mainImpl_of_Panic (w : World) (r : value) :
  snd (mainBody lib w) = Panic r ->
  snd (mainImpl lib w) = Some (fmtError "panic: %v\n%s" [r; VBytes (Stack w)])
  /\ no_service_started (fst (mainImpl lib w))
  /\ returnCode (main lib w) = 1%Z.
Proof.
  intro H. split; [| split].
  - unfold mainImpl. cbv zeta. cbn [snd]. rewrite H. reflexivity.
  - apply mainImpl_quiet. intros r' Hr. rewrite H in Hr. discriminate Hr.
  - unfold main, mainImpl. cbv zeta. cbn [snd]. rewrite H. reflexivity.
Qed.

(** C7.  A panic of the main flow, the panic of [config.New] on a malformed
    integer or boolean variable included, is recovered by the deferred
    function of [mainImpl]: [mainImpl] returns an error made of the panic
    value and of the stack trace, and the process exits with code 1. *)
Theorem panic_is_recovered (w : World) :
  malformed_environment (environ w) \/ (exists r, snd (mainBody lib w) = Panic r) ->
  exists r,
    snd (mainBody lib w) = Panic r
    /\ snd (mainImpl lib w) = Some (fmtError "panic: %v\n%s" [r; VBytes (Stack w)])
    /\ returnCode (main lib w) = 1%Z.
Proof.
  intros [Hbad | [r Hr]].
  - destruct (New_malformed (environ w) Hbad) as [v Hv].
    apply mainBody_New_Panic in Hv. exists v.
    destruct (mainImpl_of_Panic w v Hv) as (H1 & _ & H3). auto.
  - exists r. destruct (mainImpl_of_Panic w r Hr) as (H1 & _ & H3). auto.
Qed.

(** *** Unknown discriminators *)

Lemma newAlertQueue_unknown (w : World) (rc : RedisOptions) (cl : ChannelLocker)
    (cfg : Config) (l : Logger) :
  unknown_queue_mode lib cfg ->
  newAlertQueue lib w rc cl cfg l = fail (fmtError "unknown queue mode: %s" [VString (QueueMode cfg)]).
Proof.
  intros (H1 & H2 & H3). unfold newAlertQueue. cbv zeta.
  apply String.eqb_neq in H1, H2, H3. rewrite H1, H2, H3. reflexivity.
Qed.

Lemma newDatabase_unknown (w : World) (cfg : Config) (l : Logger) :
  unknown_database_mode lib cfg ->
  newDatabase lib w cfg l
  = fail (fmtError "unknown database mode: %s" [VString (DatabaseMode cfg)]).
Proof.
  intros (H1 & H2 & H3). unfold newDatabase. cbv zeta.
  apply String.eqb_neq in H1, H2, H3. rewrite H1, H2, H3. reflexivity.
Qed.

(** C9, as the code has it.  When the construction of a backend client
    fails, [mainImpl] returns that error, wrapped, and has started none of
    the API server, manager and refresh tasks; the process exits with code
    1, unless the error wraps [context.Canceled], in which case it exits
    with code 0.  For an unrecognised queue or database mode the factory
    returns an error that names the mode, and the exit code is 1. *)
Theorem backend_failure_aborts_startup (w : World) (cfg : Config) :
  New (environ w) = Ok cfg ->
  (forall format e,
      backend_failure lib w cfg format e ->
      snd (mainImpl lib w) = Some (wrapError format [] e)
      /\ no_service_started (fst (mainImpl lib w))
      /\ returnCode (main lib w) = (if errors_Is (Some e) Canceled then 0 else 1)%Z)
  /\ (unknown_queue_mode lib cfg ->
      forall rc,
        snd (newRedisClient (Redis cfg)) = Ok rc ->
        newAlertQueue lib w rc (RedisChannelLocker rc) cfg (newLogger cfg)
        = fail (fmtError "unknown queue mode: %s" [VString (QueueMode cfg)])
        /\ snd (mainImpl lib w)
           = Some (wrapError "failed to create alert queue: %w" []
                     (fmtError "unknown queue mode: %s" [VString (QueueMode cfg)]))
        /\ no_service_started (fst (mainImpl lib w))
        /\ returnCode (main lib w) = 1%Z)
  /\ (unknown_database_mode lib cfg ->
      forall rc aq cq,
        snd (newRedisClient (Redis cfg)) = Ok rc ->
        snd (newAlertQueue lib w rc (RedisChannelLocker rc) cfg (newLogger cfg)) = Ok aq ->
        snd (newCommandQueue lib w rc (RedisChannelLocker rc) cfg (newLogger cfg)) = Ok cq ->
        newDatabase lib w cfg (newLogger cfg)
        = fail (fmtError "unknown database mode: %s" [VString (DatabaseMode cfg)])
        /\ snd (mainImpl lib w)
           = Some (wrapError "failed to create database client: %w" []
                     (fmtError "unknown database mode: %s" [VString (DatabaseMode cfg)]))
        /\ no_service_started (fst (mainImpl lib w))
        /\ returnCode (main lib w) = 1%Z).
Proof.
  intro Hcfg. split; [| split].
  - intros format e Hfail.
    destruct (mainImpl_of_Fail w _ (mainBody_backend_failure w cfg format e Hcfg Hfail))
      as (H1 & H2 & H3).
    split; [exact H1 | split; [exact H2 | exact H3]].
  - intros Hmode rc Hrc.
    pose proof (newAlertQueue_unknown w rc (RedisChannelLocker rc) cfg (newLogger cfg) Hmode)
      as Haq.
    split; [exact Haq |].
    assert (Hfail : backend_failure lib w cfg "failed to create alert queue: %w"
                      (fmtError "unknown queue mode: %s" [VString (QueueMode cfg)])).
    { apply alert_queue_fails with rc; [exact Hrc | rewrite Haq; reflexivity]. }
    destruct (mainImpl_of_Fail w _ (mainBody_backend_failure w cfg _ _ Hcfg Hfail))
      as (H1 & H2 & H3).
    split; [exact H1 | split; [exact H2 | exact H3]].
  - intros Hmode rc aq cq Hrc Haq Hcq.
    pose proof (newDatabase_unknown w cfg (newLogger cfg) Hmode) as Hdb.
    split; [exact Hdb |].
    assert (Hfail : backend_failure lib w cfg "failed to create database client: %w"
                      (fmtError "unknown database mode: %s" [VString (DatabaseMode cfg)])).
    { apply database_fails with rc aq cq; [exact Hrc | exact Haq | exact Hcq |].
      rewrite Hdb. reflexivity. }
    destruct (mainImpl_of_Fail w _ (mainBody_backend_failure w cfg _ _ Hcfg Hfail))
      as (H1 & H2 & H3).
    split; [exact H1 | split; [exact H2 | exact H3]].
Qed.

(** *** The first reads of the settings *)

Lemma ReadFile_error_kind (fs : FS) (name : string) (e : error) :
  ReadFile fs name = inl e -> errors_Is_chain e Canceled = false.
Proof.
  unfold ReadFile. destruct (fs name) as [[op code] | content]; [| discriminate].
  intro H. injection H as <-. reflexivity.
Qed.

Lemma yaml_error_kind (f : yaml_failure) : errors_Is_chain (yaml_error f) Canceled = false.
Proof. destruct f; reflexivity. Qed.

Lemma readManagerSettings_error_kind (fs : FS) (filename : string) (e : error) :
  readManagerSettings lib fs filename = inl e -> errors_Is_chain e Canceled = false.
Proof.
  unfold readManagerSettings.
  destruct (ReadFile fs (Clean lib filename)) as [err | content] eqn:Hread.
  - intro H. injection H as <-. simpl. eapply ReadFile_error_kind, Hread.
  - destruct (UnmarshalManagerSettings lib content) as [f | doc]; [| discriminate].
    intro H. injection H as <-. simpl. apply yaml_error_kind.
Qed.

Lemma readAPISettings_error_kind (fs : FS) (filename : string) (e : error) :
  readAPISettings lib fs filename = inl e -> errors_Is_chain e Canceled = false.
Proof.
  unfold readAPISettings.
  destruct (ReadFile fs (Clean lib filename)) as [err | content] eqn:Hread.
  - intro H. injection H as <-. simpl. eapply ReadFile_error_kind, Hread.
  - destruct (UnmarshalAPISettings lib content) as [f | doc]; [| discriminate].
    intro H. injection H as <-. simpl. apply yaml_error_kind.
Qed.

Lemma startup_read_failure_kind (w : World) (cfg : Config) (format : string) (e : error) :
  startup_read_failure lib w cfg format e -> errors_Is (Some e) Canceled = false.
Proof.
  intros [e' _ Hread | e' _ Hread]; simpl.
  - eapply readManagerSettings_error_kind, Hread.
  - eapply readAPISettings_error_kind, Hread.
Qed.

Lemma cycle_manager_read_logged (cfg : Config) (t : Tick ManagerSettings APISettings)
    (mh ah : string) (e : error) :
  readManagerSettings lib (manager_files t) (ManagerSettingsFilename cfg) = inl e ->
  In (EvError (Log ErrorLevel "Failed to read manager settings: %s" [VError e]))
     (fst (cycle lib cfg t mh ah)).
Proof. intro H. unfold cycle. rewrite H. simpl. auto. Qed.

Lemma cycle_api_read_logged (cfg : Config) (t : Tick ManagerSettings APISettings)
    (mh ah : string) (e : error) :
  readAPISettings lib (api_files t) (APISettingsFilename cfg) = inl e ->
  In (EvError (Log ErrorLevel "Failed to read API settings: %s" [VError e]))
     (fst (cycle lib cfg t mh ah)).
Proof.
  intro H. unfold cycle. rewrite H. simpl fst. apply in_or_app. right. simpl. auto.
Qed.

(** C10.  When the first read of the manager settings or of the API
    settings fails at startup, on the file or on its decoding, [mainImpl]
    returns the error before any of the API server, manager and refresh
    tasks is started, and the process exits with code 1; the same failures
    in a cycle of the refresh loop are logged, and the loop goes on: it
    only ever returns the cancellation error of its context. *)
Theorem startup_read_failure_is_fatal (w : World) (cfg : Config) (format : string) (e : error) :
  startup_read_failure lib w cfg format e ->
  (snd (mainImpl lib w) = Some (wrapError format [] e)
   /\ no_service_started (fst (mainImpl lib w))
   /\ returnCode (main lib w) = 1%Z)
  /\ (forall t mh ah e',
         readManagerSettings lib (manager_files t) (ManagerSettingsFilename cfg) = inl e' ->
         In (EvError (Log ErrorLevel "Failed to read manager settings: %s" [VError e']))
            (fst (cycle lib cfg t mh ah)))
  /\ (forall t mh ah e',
         readAPISettings lib (api_files t) (APISettingsFilename cfg) = inl e' ->
         In (EvError (Log ErrorLevel "Failed to read API settings: %s" [VError e']))
            (fst (cycle lib cfg t mh ah)))
  /\ (forall done ticks mh ah err,
         snd (refreshSettings lib done ticks cfg mh ah) = Returned err ->
         err = Some (Sentinel Canceled)).
Proof.
  intro Hfail. split; [| split; [| split]].
  - pose proof (startup_read_failure_kind w cfg format e Hfail) as Hkind.
    destruct (mainImpl_of_Fail w _ (mainBody_read_failure w cfg format e Hfail))
      as (H1 & H2 & H3).
    simpl in H3. simpl in Hkind. rewrite Hkind in H3. auto.
  - intros t mh ah e'. apply cycle_manager_read_logged.
  - intros t mh ah e'. apply cycle_api_read_logged.
  - intros done ticks mh ah err. apply refreshSettings_returns_Canceled.
Qed.

End StartupTheorems.

(** ** The statements on the sample instances *)

Lemma failed_update_is_not_retried_witness :
  fst (snd (cycle sample_lib sample_cfg refused_tick (hash admins_v1) (hash rules_v1)))
  = hash admins_v2
  /\ manager_updates
       (fst (cycle sample_lib sample_cfg refused_tick (hash admins_v2) (hash rules_v1))) = [].
Proof.
  destruct (proj1 (failed_update_is_not_retried sample_lib sample_cfg refused_tick refused_tick
                     (hash admins_v1) (hash rules_v1))
              "globalAdmins: [U1, U2]" (hash admins_v2)
              (errorString "invalid manager settings"))
    as (_ & Hh & Hnext).
  - vm_compute. reflexivity.
  - intro H. vm_compute in H. discriminate H.
  - reflexivity.
  - split; [exact Hh |].
    specialize (Hnext eq_refl). rewrite Hh in Hnext.
    replace (snd (snd (cycle sample_lib sample_cfg refused_tick (hash admins_v1) (hash rules_v1))))
      with (hash rules_v1) in Hnext by (vm_compute; reflexivity).
    exact Hnext.
Defined.

(** C1 as stated fails: the manager settings changed, the manager refuses
    the new document, and the stored fingerprint does not keep its old
    value; over two such cycles on the same content the document is pushed
    once, not twice. *)
Lemma failed_update_advances_fingerprint :
  readManagerSettings sample_lib (manager_files refused_tick) (ManagerSettingsFilename sample_cfg)
  = inr ("globalAdmins: [U1, U2]", hash admins_v2)
  /\ hash admins_v2 <> hash admins_v1
  /\ manager_UpdateSettings refused_tick "globalAdmins: [U1, U2]"
     = Some (errorString "invalid manager settings")
  /\ fst (snd (cycle sample_lib sample_cfg refused_tick (hash admins_v1) (hash rules_v1)))
     <> hash admins_v1
  /\ manager_updates
       (fst (run_cycles sample_lib sample_cfg [refused_tick; refused_tick]
               (hash admins_v1) (hash rules_v1)))
     = ["globalAdmins: [U1, U2]"].
Proof.
  split; [vm_compute; reflexivity |].
  split; [intro H; vm_compute in H; discriminate H |].
  split; [reflexivity |].
  split; [intro H; vm_compute in H; discriminate H |].
  vm_compute. reflexivity.
Qed.

Lemma change_triggers_one_update_witness :
  manager_updates (fst (cycle sample_lib sample_cfg changed_tick (hash admins_v1) (hash rules_v1)))
  = ["globalAdmins: [U1, U2]"]
  /\ fst (snd (cycle sample_lib sample_cfg changed_tick (hash admins_v1) (hash rules_v1)))
     = hash admins_v2.
Proof.
  destruct (proj1 (change_triggers_one_update sample_lib sample_cfg changed_tick
                     (hash admins_v1) (hash rules_v1))
              "globalAdmins: [U1, U2]" (hash admins_v2))
    as (Hcalls & Hstored).
  - vm_compute. reflexivity.
  - intro H. vm_compute in H. discriminate H.
  - split; [exact Hcalls | apply Hstored; reflexivity].
Defined.

Lemma unchanged_content_is_noop_witness :
  api_updates (fst (cycle sample_lib sample_cfg unchanged_tick (hash admins_v1) (hash rules_v1)))
  = []
  /\ snd (snd (cycle sample_lib sample_cfg unchanged_tick (hash admins_v1) (hash rules_v1)))
     = hash rules_v1.
Proof.
  apply (proj2 (unchanged_content_is_noop sample_lib sample_cfg unchanged_tick
                  (hash admins_v1) (hash rules_v1))
           "routingRules: [{matchAll: true, channel: CZZZZZZZZZZZ}]" (hash rules_v1)).
  - vm_compute. reflexivity.
  - reflexivity.
Defined.

Lemma read_failure_is_local_witness :
  fst (snd (cycle sample_lib sample_cfg
              (sample_tick TimeAfter (only_api_file rules_v2) None None false)
              (hash admins_v1) (hash rules_v1)))
  = hash admins_v1
  /\ api_updates
       (fst (cycle sample_lib sample_cfg
               (sample_tick TimeAfter (only_api_file rules_v2) None None false)
               (hash admins_v1) (hash rules_v1)))
     = [string_of_list_byte rules_v2].
Proof.
  destruct (proj1 (read_failure_is_local sample_lib sample_cfg
                     (sample_tick TimeAfter (only_api_file rules_v2) None None false)
                     (hash admins_v1) (hash rules_v1))
              (wrapError "failed to read manager settings file %s: %w"
                 [VString "manager-settings.yaml"]
                 (PathError "open" "manager-settings.yaml" (Errno ENOENT))))
    as (Hstored & _ & _ & Hapi).
  - vm_compute. reflexivity.
  - split; [exact Hstored |].
    apply (proj1 (Hapi (string_of_list_byte rules_v2) (hash rules_v2) eq_refl)).
    intro H. vm_compute in H. discriminate H.
Defined.

Lemma cancellation_stops_the_loop_witness :
  refreshSettings sample_lib false [unchanged_tick; last_tick; changed_tick; changed_tick]
    sample_cfg (hash admins_v1) (hash rules_v1)
  = (fst (run_cycles sample_lib sample_cfg [unchanged_tick; last_tick]
            (hash admins_v1) (hash rules_v1)),
     Returned (Some (Sentinel Canceled))).
Proof.
  apply (proj2 (cancellation_stops_the_loop sample_lib sample_cfg)
           [unchanged_tick] last_tick [changed_tick; changed_tick]).
  - constructor; [split; reflexivity | constructor].
  - right. reflexivity.
Defined.

Lemma panic_is_recovered_witness :
  returnCode (main sample_lib (sample_world broken_env (two_files admins_v1 rules_v1) None))
  = 1%Z.
Proof.
  destruct (panic_is_recovered sample_lib
              (sample_world broken_env (two_files admins_v1 rules_v1) None))
    as (r & _ & _ & Hcode).
  - left. left. exists "REDIS_DB". split.
    + do 10 right. left. reflexivity.
    + split.
      * intro H. vm_compute in H. discriminate H.
      * eexists. vm_compute. reflexivity.
  - exact Hcode.
Defined.

Lemma fingerprint_deterministic_witness :
  hash admins_v1 = hash admins_v1
  /\ hash admins_v1 = EncodeToString (Sha256.sum256 admins_v1).
Proof.
  apply (fingerprint_deterministic sample_lib
           (two_files admins_v1 rules_v1) (two_files rules_v2 admins_v1)
           "manager-settings.yaml" "api-settings.yaml" admins_v1).
  - reflexivity.
  - reflexivity.
  - left. vm_compute. reflexivity.
  - right. vm_compute. reflexivity.
Defined.

Lemma backend_failure_aborts_startup_witness :
  returnCode (main sample_lib (sample_world kafka_env (two_files admins_v1 rules_v1) None))
  = 1%Z.
Proof.
  destruct (proj1 (proj2 (backend_failure_aborts_startup sample_lib
                            (sample_world kafka_env (two_files admins_v1 rules_v1) None)
                            (config_of kafka_env) eq_refl)))
    with (rc := {| opt_Addr := "localhost:6379"; opt_Username := ""; opt_Password := "";
                   opt_DB := 0%Z |})
    as (_ & _ & _ & Hcode).
  - repeat split; intro H; vm_compute in H; discriminate H.
  - reflexivity.
  - exact Hcode.
Defined.

(** C9 as stated fails: the Postgres client fails to connect with the
    cancellation of its context, no service is started, and the process
    exits with code 0, not 1. *)
Lemma interrupted_startup_exits_zero :
  New (environ interrupted_world) = Ok sample_cfg
  /\ backend_failure sample_lib interrupted_world sample_cfg
       "failed to create database client: %w"
       (wrapError "failed to connect to postgres: %w" [] (Sentinel Canceled))
  /\ no_service_started (fst (mainImpl sample_lib interrupted_world))
  /\ returnCode (main sample_lib interrupted_world) <> 1%Z.
Proof.
  split; [reflexivity |].
  split.
  - eapply database_fails; reflexivity.
  - split; [reflexivity |]. intro H. vm_compute in H. discriminate H.
Qed.

Lemma startup_read_failure_is_fatal_witness :
  returnCode (main sample_lib (sample_world sample_env (only_manager_file admins_v1) None))
  = 1%Z
  /\ no_service_started
       (fst (mainImpl sample_lib (sample_world sample_env (only_manager_file admins_v1) None))).
Proof.
  destruct (startup_read_failure_is_fatal sample_lib
              (sample_world sample_env (only_manager_file admins_v1) None) sample_cfg
              "failed to read API settings: %w"
              (wrapError "failed to read API settings file %s: %w"
                 [VString "api-settings.yaml"]
                 (PathError "open" "api-settings.yaml" (Errno ENOENT))))
    as ((_ & Hquiet & Hcode) & _).
  - apply api_read_fails; [| vm_compute; reflexivity].
    split; [| split].
    + split; [reflexivity | split].
      * do 4 eexists. repeat split; reflexivity.
      * eexists. split; reflexivity.
    + eexists. vm_compute. reflexivity.
    + reflexivity.
  - split; [exact Hcode | exact Hquiet].
Defined.

(** ** Further properties of the refresh loop *)

Section RefreshLoopProperties.

Context {ManagerSettings APISettings : Type}.
Variable lib : Lib ManagerSettings APISettings.

(** What a cycle stores for a kind is the fingerprint it read, when it read
    one. *)
Lemma cycle_manager_stored (cfg : Config) (t : Tick ManagerSettings APISettings)
    (mh ah : string) :
  fst (snd (cycle lib cfg t mh ah))
  = match fingerprint_of
            (readManagerSettings lib (manager_files t) (ManagerSettingsFilename cfg)) with
    | Some h => h
    | None => mh
    end.
Proof.
  pose proof (cycle_manager_side lib cfg t mh ah) as H.
  destruct (readManagerSettings lib (manager_files t) (ManagerSettingsFilename cfg))
    as [e | [s h]]; cbn [fingerprint_of].
  - apply H.
  - destruct (String.eqb h mh) eqn:E; destruct H as [H _]; rewrite H;
      [apply String.eqb_eq in E; symmetry; exact E | reflexivity].
Qed.

Lemma cycle_api_stored (cfg : Config) (t : Tick ManagerSettings APISettings)
    (mh ah : string) :
  snd (snd (cycle lib cfg t mh ah))
  = match fingerprint_of (readAPISettings lib (api_files t) (APISettingsFilename cfg)) with
    | Some h => h
    | None => ah
    end.
Proof.
  pose proof (cycle_api_side lib cfg t mh ah) as H.
  destruct (readAPISettings lib (api_files t) (APISettingsFilename cfg)) as [e | [s h]];
    cbn [fingerprint_of].
  - apply H.
  - destruct (String.eqb h ah) eqn:E; destruct H as [H _]; rewrite H;
      [apply String.eqb_eq in E; symmetry; exact E | reflexivity].
Qed.

Lemma run_cycles_stored (cfg : Config) (ticks : list (Tick ManagerSettings APISettings)) :
  forall mh ah,
    snd (run_cycles lib cfg ticks mh ah)
    = (last_manager_fingerprint lib cfg ticks mh, last_api_fingerprint lib cfg ticks ah).
Proof.
  induction ticks as [| t rest IH]; intros mh ah; [reflexivity |].
  cbn [run_cycles last_manager_fingerprint last_api_fingerprint snd].
  rewrite IH, cycle_manager_stored, cycle_api_stored. reflexivity.
Qed.

(** A schedule without cancellation runs all its cycles and leaves the loop
    in its select. *)
Lemma refreshSettings_undisturbed (cfg : Config)
    (ticks : list (Tick ManagerSettings APISettings)) :
  forall mh ah,
    Forall undisturbed ticks ->
    refreshSettings lib false ticks cfg mh ah
    = (fst (run_cycles lib cfg ticks mh ah),
       Waiting (fst (snd (run_cycles lib cfg ticks mh ah)))
               (snd (snd (run_cycles lib cfg ticks mh ah)))).
Proof.
  induction ticks as [| t rest IH]; intros mh ah Hall; [reflexivity |].
  inversion Hall as [| t' rest' [Hfired Hquiet] Hrest]; subst.
  rewrite refreshSettings_step by exact Hfired.
  rewrite Hquiet, (IH _ _ Hrest). reflexivity.
Qed.

(** X1.  While nothing cancels the context, the fingerprint the loop holds
    for a kind is the fingerprint of the last content of that kind that was
    read and decoded, or the baseline when no read succeeded yet: failed
    reads and refused updates leave no other trace in it. *)
Theorem loop_holds_last_read_fingerprint (cfg : Config)
    (ticks : list (Tick ManagerSettings APISettings)) (mh ah : string) :
  Forall undisturbed ticks ->
  snd (refreshSettings lib false ticks cfg mh ah)
  = Waiting (last_manager_fingerprint lib cfg ticks mh) (last_api_fingerprint lib cfg ticks ah).
Proof.
  intro Hall. rewrite (refreshSettings_undisturbed cfg ticks mh ah Hall).
  cbn [snd]. rewrite run_cycles_stored. reflexivity.
Qed.

(** The trace of the loop is the trace of the cycles of a prefix of the
    schedule. *)
Lemma refreshSettings_trace (cfg : Config) (ticks : list (Tick ManagerSettings APISettings)) :
  forall done mh ah,
    exists n,
      fst (refreshSettings lib done ticks cfg mh ah)
      = fst (run_cycles lib cfg (firstn n ticks) mh ah).
Proof.
  induction ticks as [| t rest IH]; intros done mh ah.
  - exists 0. destruct done; reflexivity.
  - destruct done; [exists 0; reflexivity |].
    destruct (fired t) eqn:Hfired.
    + exists 0. simpl. rewrite Hfired. reflexivity.
    + rewrite refreshSettings_step by exact Hfired.
      destruct (IH (cancelled_in_cycle t) (fst (snd (cycle lib cfg t mh ah)))
                  (snd (snd (cycle lib cfg t mh ah)))) as [n Hn].
      exists (S n). cbn [firstn run_cycles fst]. rewrite Hn. reflexivity.
Qed.



(** *** Files that do not change *)

Lemma steady_manager_read (cfg : Config) (r : error + list byte)
    (t t' : Tick ManagerSettings APISettings) :
  ReadFile (manager_files t) (Clean lib (ManagerSettingsFilename cfg)) = r ->
  ReadFile (manager_files t') (Clean lib (ManagerSettingsFilename cfg)) = r ->
  readManagerSettings lib (manager_files t') (ManagerSettingsFilename cfg)
  = readManagerSettings lib (manager_files t) (ManagerSettingsFilename cfg).
Proof. intros H H'. apply readManagerSettings_same_content. rewrite H, H'. reflexivity. Qed.

Lemma steady_api_read (cfg : Config) (r : error + list byte)
    (t t' : Tick ManagerSettings APISettings) :
  ReadFile (api_files t) (Clean lib (APISettingsFilename cfg)) = r ->
  ReadFile (api_files t') (Clean lib (APISettingsFilename cfg)) = r ->
  readAPISettings lib (api_files t') (APISettingsFilename cfg)
  = readAPISettings lib (api_files t) (APISettingsFilename cfg).
Proof. intros H H'. apply readAPISettings_same_content. rewrite H, H'. reflexivity. Qed.

(** Once the stored fingerprint is the one of the steady content, or the
    content cannot be read, no update is pushed any more. *)
Lemma steady_manager_settled (cfg : Config)
    (R : error + (ManagerSettings * string))
    (ticks : list (Tick ManagerSettings APISettings)) :
  forall mh ah,
    Forall (fun t => readManagerSettings lib (manager_files t) (ManagerSettingsFilename cfg) = R)
           ticks ->
    fingerprint_of R = None \/ fingerprint_of R = Some mh ->
    manager_updates (fst (run_cycles lib cfg ticks mh ah)) = [].
Proof.
  induction ticks as [| t rest IH]; intros mh ah Hall Hset; [reflexivity |].
  apply Forall_cons_iff in Hall. destruct Hall as [Hread Hrest].
  cbn [run_cycles fst]. rewrite manager_updates_app.
  pose proof (cycle_manager_side lib cfg t mh ah) as Hside.
  pose proof (cycle_manager_stored cfg t mh ah) as Hstored.
  rewrite Hread in Hside, Hstored.
  assert (Hkeep : fst (snd (cycle lib cfg t mh ah)) = mh
                  /\ manager_updates (fst (cycle lib cfg t mh ah)) = []).
  { destruct R as [e | [s h]]; cbn [fingerprint_of] in Hset.
    - exact Hside.
    - destruct Hset as [Habs | Heq]; [discriminate Habs |].
      injection Heq as Heq. rewrite Heq, String.eqb_refl in Hside. exact Hside. }
  destruct Hkeep as [Hmh Hnone]. rewrite Hnone, Hmh.
  apply (IH mh _ Hrest Hset).
Qed.

Lemma steady_api_settled (cfg : Config)
    (R : error + (APISettings * string))
    (ticks : list (Tick ManagerSettings APISettings)) :
  forall mh ah,
    Forall (fun t => readAPISettings lib (api_files t) (APISettingsFilename cfg) = R) ticks ->
    fingerprint_of R = None \/ fingerprint_of R = Some ah ->
    api_updates (fst (run_cycles lib cfg ticks mh ah)) = [].
Proof.
  induction ticks as [| t rest IH]; intros mh ah Hall Hset; [reflexivity |].
  apply Forall_cons_iff in Hall. destruct Hall as [Hread Hrest].
  cbn [run_cycles fst]. rewrite api_updates_app.
  pose proof (cycle_api_side lib cfg t mh ah) as Hside.
  pose proof (cycle_api_stored cfg t mh ah) as Hstored.
  rewrite Hread in Hside, Hstored.
  assert (Hkeep : snd (snd (cycle lib cfg t mh ah)) = ah
                  /\ api_updates (fst (cycle lib cfg t mh ah)) = []).
  { destruct R as [e | [s h]]; cbn [fingerprint_of] in Hset.
    - exact Hside.
    - destruct Hset as [Habs | Heq]; [discriminate Habs |].
      injection Heq as Heq. rewrite Heq, String.eqb_refl in Hside. exact Hside. }
  destruct Hkeep as [Hah Hnone]. rewrite Hnone, Hah.
  apply (IH _ ah Hrest Hset).
Qed.

Lemma steady_manager_reads (cfg : Config) (r : error + list byte)
    (t : Tick ManagerSettings APISettings) (rest : list (Tick ManagerSettings APISettings)) :
  manager_file_steady lib cfg r (t :: rest) ->
  Forall (fun t' => readManagerSettings lib (manager_files t') (ManagerSettingsFilename cfg)
                    = readManagerSettings lib (manager_files t) (ManagerSettingsFilename cfg))
         rest.
Proof.
  intro Hall. apply Forall_cons_iff in Hall. destruct Hall as [Ht Hrest].
  apply Forall_forall. intros t' Hin.
  apply (steady_manager_read cfg r t t' Ht).
  exact (proj1 (Forall_forall _ _) Hrest t' Hin).
Qed.

Lemma steady_api_reads (cfg : Config) (r : error + list byte)
    (t : Tick ManagerSettings APISettings) (rest : list (Tick ManagerSettings APISettings)) :
  api_file_steady lib cfg r (t :: rest) ->
  Forall (fun t' => readAPISettings lib (api_files t') (APISettingsFilename cfg)
                    = readAPISettings lib (api_files t) (APISettingsFilename cfg))
         rest.
Proof.
  intro Hall. apply Forall_cons_iff in Hall. destruct Hall as [Ht Hrest].
  apply Forall_forall. intros t' Hin.
  apply (steady_api_read cfg r t t' Ht).
  exact (proj1 (Forall_forall _ _) Hrest t' Hin).
Qed.

Lemma steady_manager_once (cfg : Config) (r : error + list byte)
    (ticks : list (Tick ManagerSettings APISettings)) (mh ah : string) :
  manager_file_steady lib cfg r ticks ->
  List.length (manager_updates (fst (run_cycles lib cfg ticks mh ah))) <= 1.
Proof.
  destruct ticks as [| t rest]; intro Hall; [simpl; lia |].
  pose proof (steady_manager_reads cfg r t rest Hall) as Hrest.
  cbn [run_cycles fst]. rewrite manager_updates_app, length_app.
  rewrite (steady_manager_settled cfg _ rest _ _ Hrest).
  - pose proof (cycle_manager_side lib cfg t mh ah) as Hside.
    destruct (readManagerSettings lib (manager_files t) (ManagerSettingsFilename cfg))
      as [e | [s h]].
    + destruct Hside as [_ ->]. simpl. lia.
    + destruct (String.eqb h mh); destruct Hside as [_ ->]; simpl; lia.
  - rewrite cycle_manager_stored.
    destruct (fingerprint_of
                (readManagerSettings lib (manager_files t) (ManagerSettingsFilename cfg)));
      [right | left]; reflexivity.
Qed.

Lemma steady_api_once (cfg : Config) (r : error + list byte)
    (ticks : list (Tick ManagerSettings APISettings)) (mh ah : string) :
  api_file_steady lib cfg r ticks ->
  List.length (api_updates (fst (run_cycles lib cfg ticks mh ah))) <= 1.
Proof.
  destruct ticks as [| t rest]; intro Hall; [simpl; lia |].
  pose proof (steady_api_reads cfg r t rest Hall) as Hrest.
  cbn [run_cycles fst]. rewrite api_updates_app, length_app.
  rewrite (steady_api_settled cfg _ rest _ _ Hrest).
  - pose proof (cycle_api_side lib cfg t mh ah) as Hside.
    destruct (readAPISettings lib (api_files t) (APISettingsFilename cfg)) as [e | [s h]].
    + destruct Hside as [_ ->]. simpl. lia.
    + destruct (String.eqb h ah); destruct Hside as [_ ->]; simpl; lia.
  - rewrite cycle_api_stored.
    destruct (fingerprint_of (readAPISettings lib (api_files t) (APISettingsFilename cfg)));
      [right | left]; reflexivity.
Qed.

Lemma firstn_incl {A : Type} (n : nat) :
  forall (l : list A) (x : A), In x (firstn n l) -> In x l.
Proof.
  induction n as [| n IH]; intros l x Hin; [contradiction |].
  destruct l as [| a l']; [contradiction |].
  destruct Hin as [-> | Hin]; [left; reflexivity | right; apply IH, Hin].
Qed.

Lemma steady_firstn_manager (cfg : Config) (r : error + list byte) (n : nat)
    (ticks : list (Tick ManagerSettings APISettings)) :
  manager_file_steady lib cfg r ticks -> manager_file_steady lib cfg r (firstn n ticks).
Proof.
  unfold manager_file_steady. rewrite !Forall_forall. intros H t Hin.
  apply H. eapply firstn_incl. exact Hin.
Qed.

Lemma steady_firstn_api (cfg : Config) (r : error + list byte) (n : nat)
    (ticks : list (Tick ManagerSettings APISettings)) :
  api_file_steady lib cfg r ticks -> api_file_steady lib cfg r (firstn n ticks).
Proof.
  unfold api_file_steady. rewrite !Forall_forall. intros H t Hin.
  apply H. eapply firstn_incl. exact Hin.
Qed.

(** X3.  While a settings file keeps the same content (or stays unreadable),
    the loop pushes at most one update of that kind, however many cycles it
    runs, whatever the stored fingerprint was and whatever the update
    operation returns. *)
Theorem steady_file_is_pushed_at_most_once (cfg : Config) (done : bool)
    (ticks : list (Tick ManagerSettings APISettings)) (mh ah : string) :
  (forall r,
      manager_file_steady lib cfg r ticks ->
      List.length (manager_updates (fst (refreshSettings lib done ticks cfg mh ah))) <= 1)
  /\ (forall r,
      api_file_steady lib cfg r ticks ->
      List.length (api_updates (fst (refreshSettings lib done ticks cfg mh ah))) <= 1).
Proof.
  destruct (refreshSettings_trace cfg ticks done mh ah) as [n Hn]. rewrite Hn.
  split; intros r Hsteady.
  - apply (steady_manager_once cfg r). apply steady_firstn_manager, Hsteady.
  - apply (steady_api_once cfg r). apply steady_firstn_api, Hsteady.
Qed.

(** X4.  What a cycle does for one kind depends on the file and on the
    stored fingerprint of that kind only: not on the file, the stored
    fingerprint or the service of the other kind, and not on what the update
    operation of either kind returns. *)
Theorem kinds_do_not_interfere (cfg : Config) (t t' : Tick ManagerSettings APISettings)
    (mh mh' ah ah' : string) :
  (ReadFile (manager_files t') (Clean lib (ManagerSettingsFilename cfg))
   = ReadFile (manager_files t) (Clean lib (ManagerSettingsFilename cfg)) ->
   fst (snd (cycle lib cfg t' mh ah')) = fst (snd (cycle lib cfg t mh ah))
   /\ manager_updates (fst (cycle lib cfg t' mh ah'))
      = manager_updates (fst (cycle lib cfg t mh ah)))
  /\ (ReadFile (api_files t') (Clean lib (APISettingsFilename cfg))
      = ReadFile (api_files t) (Clean lib (APISettingsFilename cfg)) ->
      snd (snd (cycle lib cfg t' mh' ah)) = snd (snd (cycle lib cfg t mh ah))
      /\ api_updates (fst (cycle lib cfg t' mh' ah))
         = api_updates (fst (cycle lib cfg t mh ah))).
Proof.
  split; intro Hsame.
  - apply readManagerSettings_same_content in Hsame.
    pose proof (cycle_manager_side lib cfg t mh ah) as H.
    pose proof (cycle_manager_side lib cfg t' mh ah') as H'.
    rewrite Hsame in H'.
    destruct (readManagerSettings lib (manager_files t) (ManagerSettingsFilename cfg))
      as [e | [s h]].
    + destruct H as [-> ->], H' as [-> ->]. split; reflexivity.
    + destruct (String.eqb h mh); destruct H as [-> ->], H' as [-> ->]; split; reflexivity.
  - apply readAPISettings_same_content in Hsame.
    pose proof (cycle_api_side lib cfg t mh ah) as H.
    pose proof (cycle_api_side lib cfg t' mh' ah) as H'.
    rewrite Hsame in H'.
    destruct (readAPISettings lib (api_files t) (APISettingsFilename cfg)) as [e | [s h]].
    + destruct H as [-> ->], H' as [-> ->]. split; reflexivity.
    + destruct (String.eqb h ah); destruct H as [-> ->], H' as [-> ->]; split; reflexivity.
Qed.

End RefreshLoopProperties.

(** ** Further properties of the configuration *)

Lemma returns_or_panics_with_bind {A B : Type} (Pa : A -> Prop) (P : B -> Prop)
    (Q : value -> Prop) (r : result A) (k : A -> result B) :
  returns_or_panics_with Pa Q r ->
  (forall a, Pa a -> returns_or_panics_with P Q (k a)) ->
  returns_or_panics_with P Q (result_bind r k).
Proof. destruct r as [a | e | v]; simpl; auto. Qed.

Lemma returns_or_panics_with_weaken {A : Type} (P : A -> Prop) (Q Q' : value -> Prop)
    (r : result A) :
  returns_or_panics_with P Q r ->
  (forall v, Q v -> Q' v) ->
  returns_or_panics_with P Q' r.
Proof. destruct r as [a | e | v]; simpl; auto. Qed.

Lemma GetEnvIntIfSet_outcome (env : Env) (name : string) (d : Z) :
  returns_or_panics_with
    (fun val => val = parsed_int env name d /\ ~ malformed_int env name)
    (fun v => malformed_int env name
              /\ exists err, Atoi (Getenv env name) = inl err
                             /\ v = VSprintf "failed to parse environment variable %s as int: %v"
                                      [VString name; VError err])
    (GetEnvIntIfSet env name d).
Proof.
  unfold GetEnvIntIfSet, parsed_int, malformed_int.
  destruct (String.eqb_spec (Getenv env name) "") as [Hempty | Hset]; simpl.
  - split; [reflexivity | intros [Hset _]; contradiction].
  - destruct (Atoi (Getenv env name)) as [err | val]; simpl.
    + split; [split; [exact Hset | exists err; reflexivity] |].
      exists err. split; reflexivity.
    + split; [reflexivity | intros [_ [err Herr]]; discriminate Herr].
Qed.

Lemma GetEnvSecondsIfSet_outcome (env : Env) (name : string) (d : Z) :
  returns_or_panics_with
    (fun val => val = int64 (parsed_int env name d * Second) /\ ~ malformed_int env name)
    (fun v => malformed_int env name
              /\ exists err, Atoi (Getenv env name) = inl err
                             /\ v = VSprintf "failed to parse environment variable %s as int: %v"
                                      [VString name; VError err])
    (GetEnvSecondsIfSet env name d).
Proof.
  unfold GetEnvSecondsIfSet.
  eapply returns_or_panics_with_bind; [apply GetEnvIntIfSet_outcome |].
  intros val [-> Hgood]. simpl. split; [reflexivity | exact Hgood].
Qed.

Lemma GetEnvBoolIfSet_outcome (env : Env) (name : string) (d : bool) :
  returns_or_panics_with
    (fun val => val = parsed_bool env name d /\ ~ malformed_bool env name)
    (fun v => malformed_bool env name
              /\ exists err, ParseBool (Getenv env name) = inl err
                             /\ v = VSprintf "failed to parse environment variable %s as bool: %v"
                                      [VString name; VError err])
    (GetEnvBoolIfSet env name d).
Proof.
  unfold GetEnvBoolIfSet, parsed_bool, malformed_bool.
  destruct (String.eqb_spec (Getenv env name) "") as [Hempty | Hset]; simpl.
  - split; [reflexivity | intros [Hset _]; contradiction].
  - destruct (ParseBool (Getenv env name)) as [err | val]; simpl.
    + split; [split; [exact Hset | exists err; reflexivity] |].
      exists err. split; reflexivity.
    + split; [reflexivity | intros [_ [err Herr]]; discriminate Herr].
Qed.

(** The panic of a step, given that the steps before it returned. *)
Ltac first_malformed name :=
  let Hbad := fresh "Hbad" in
  let err := fresh "err" in
  let Herr := fresh "Herr" in
  intros ? (Hbad & err & Herr & ->);
  exists name, err;
  split; [simpl; tauto |];
  split; [exact Hbad |];
  split; [cbn [before parse_order String.eqb Ascii.eqb Bool.eqb andb];
          repeat (constructor; [assumption |]); constructor |];
  split; [unfold parse_error; cbn [is_bool_variable bool_variables existsb String.eqb
                                     Ascii.eqb Bool.eqb andb orb];
          rewrite Herr; reflexivity |];
  reflexivity.

Ltac step_outcome :=
  match goal with
  | |- returns_or_panics_with _ _ (result_bind (GetEnvIntIfSet _ ?name _) _) =>
      eapply returns_or_panics_with_bind;
      [ eapply returns_or_panics_with_weaken;
        [apply GetEnvIntIfSet_outcome | first_malformed name]
      | intros ? [-> ?] ]
  | |- returns_or_panics_with _ _ (result_bind (GetEnvSecondsIfSet _ ?name _) _) =>
      eapply returns_or_panics_with_bind;
      [ eapply returns_or_panics_with_weaken;
        [apply GetEnvSecondsIfSet_outcome | first_malformed name]
      | intros ? [-> ?] ]
  | |- returns_or_panics_with _ _ (result_bind (GetEnvBoolIfSet _ ?name _) _) =>
      eapply returns_or_panics_with_bind;
      [ eapply returns_or_panics_with_weaken;
        [apply GetEnvBoolIfSet_outcome | first_malformed name]
      | intros ? [-> ?] ]
  end.

(** [config.New] returns the table of a well-formed environment, or panics
    on the first malformed variable. *)
Lemma New_outcome (env : Env) :
  returns_or_panics_with
    (fun cfg => cfg = config_table env /\ ~ malformed_environment env)
    (panic_of_first_malformed env)
    (New env).
Proof.
  unfold New.
  repeat step_outcome.
  simpl. split; [reflexivity |].
  intros [[name [Hin Hbad]] | [name [Hin Hbad]]]; simpl in Hin;
    repeat (destruct Hin as [<- | Hin]; [contradiction |]); exact Hin.
Qed.

Lemma New_Ok_table (env : Env) (cfg : Config) :
  New env = Ok cfg -> cfg = config_table env.
Proof.
  intro H. pose proof (New_outcome env) as Hout. rewrite H in Hout. apply Hout.
Qed.

(** X5.  [config.New] returns exactly in the environments where every
    variable it parses is unset, empty or well-formed, and then it returns
    the table of the defaults overridden by the environment; in every other
    environment it panics. *)
Theorem New_returns_iff_well_formed (env : Env) :
  (~ malformed_environment env /\ New env = Ok (config_table env))
  \/ (malformed_environment env /\ exists v, New env = Panic v).
Proof.
  pose proof (New_outcome env) as Hout.
  destruct (New env) as [cfg | e | v] eqn:HNew; simpl in Hout.
  - left. destruct Hout as [-> Hgood]. split; [exact Hgood | reflexivity].
  - contradiction.
  - right. split; [| exists v; reflexivity].
    destruct Hout as (name & err & Hin & Hbad & _).
    unfold malformed_variable in Hbad.
    destruct (is_bool_variable name) eqn:Hkind.
    + right. exists name. split; [| exact Hbad].
      unfold is_bool_variable in Hkind. apply existsb_exists in Hkind.
      destruct Hkind as [x [Hx Heq]]. apply String.eqb_eq in Heq. subst x. exact Hx.
    + left. exists name. split; [| exact Hbad].
      simpl in Hin.
      repeat (destruct Hin as [<- | Hin]; [first [discriminate Hkind | simpl; tauto] |]).
      contradiction.
Qed.

(** X6.  When [config.New] panics, the panic is the one of the first
    malformed variable in the order of the composite literal, whatever the
    order of the environment: its value carries the name of that variable
    and the error of its parse. *)
Theorem New_panics_on_first_malformed (env : Env) (v : value) :
  New env = Panic v -> panic_of_first_malformed env v.
Proof.
  intro H. pose proof (New_outcome env) as Hout. rewrite H in Hout. exact Hout.
Qed.

(** *** Integer conversions *)

Lemma wrap_range (bits x : Z) :
  (0 < bits)%Z -> (- 2 ^ (bits - 1) <= wrap bits x < 2 ^ (bits - 1))%Z.
Proof.
  intro Hbits. unfold wrap.
  assert (Hpow : (2 ^ bits = 2 * 2 ^ (bits - 1))%Z).
  { replace bits with (Z.succ (bits - 1)) at 1 by lia. apply Z.pow_succ_r. lia. }
  assert (Hpos : (0 < 2 ^ (bits - 1))%Z) by (apply Z.pow_pos_nonneg; lia).
  pose proof (Z.mod_pos_bound (x + 2 ^ (bits - 1)) (2 ^ bits)) as Hb.
  lia.
Qed.

Lemma wrap_small (bits x : Z) :
  (0 < bits)%Z -> (- 2 ^ (bits - 1) <= x < 2 ^ (bits - 1))%Z -> wrap bits x = x.
Proof.
  intros Hbits Hx. unfold wrap.
  assert (Hpow : (2 ^ bits = 2 * 2 ^ (bits - 1))%Z).
  { replace bits with (Z.succ (bits - 1)) at 1 by lia. apply Z.pow_succ_r. lia. }
  rewrite Z.mod_small by lia. lia.
Qed.

Lemma wrap_congruent (bits x : Z) :
  (0 < bits)%Z -> ((wrap bits x - x) mod 2 ^ bits = 0)%Z.
Proof.
  intro Hbits. unfold wrap.
  assert (Hpos : (0 < 2 ^ bits)%Z) by (apply Z.pow_pos_nonneg; lia).
  rewrite (Z.mod_eq (x + 2 ^ (bits - 1)) (2 ^ bits)) by lia.
  replace (x + 2 ^ (bits - 1) - 2 ^ bits * ((x + 2 ^ (bits - 1)) / 2 ^ bits)
           - 2 ^ (bits - 1) - x)%Z
    with (- ((x + 2 ^ (bits - 1)) / 2 ^ bits) * 2 ^ bits)%Z by ring.
  apply Z.mod_mul. lia.
Qed.

(** X7.  The queue settings that the configuration stores on 32 bits are
    not checked against that range: the stored value is the parsed integer
    (or the default) reduced modulo [2^32] into the signed range, equal to
    it exactly when it fits. *)
Theorem int32_settings_wrap (env : Env) (cfg : Config) :
  New env = Ok cfg ->
  Forall (fun '(name, defaultValue, field) =>
            let val := parsed_int env name defaultValue in
            (- 2 ^ 31 <= field cfg < 2 ^ 31)%Z
            /\ ((field cfg - val) mod 2 ^ 32 = 0)%Z
            /\ ((- 2 ^ 31 <= val < 2 ^ 31)%Z <-> field cfg = val))
         int32_settings.
Proof.
  intro H. apply New_Ok_table in H. subst cfg.
  assert (Hone : forall val,
             (- 2 ^ 31 <= int32 val < 2 ^ 31)%Z
             /\ ((int32 val - val) mod 2 ^ 32 = 0)%Z
             /\ ((- 2 ^ 31 <= val < 2 ^ 31)%Z <-> int32 val = val)).
  { intro val. unfold int32.
    pose proof (wrap_range 32 val ltac:(lia)) as Hr.
    split; [exact Hr | split].
    - apply (wrap_congruent 32 val). lia.
    - split; intro Hv.
      + apply (wrap_small 32 val); [lia | exact Hv].
      + rewrite <- Hv. exact Hr. }
  unfold int32_settings.
  repeat (apply Forall_cons; [cbv beta iota zeta; apply Hone |]). apply Forall_nil.
Qed.


Example backoff_delay_wraps :
  match New long_delay_env with
  | Ok cfg => MaxRetryBackoffDelay (Aws cfg) = (-9223372036709551616)%Z
  | _ => False
  end.
Proof. vm_compute. reflexivity. Qed.

(** X9.  A variable that is unset takes its default in every getter; a
    variable that is set to the empty string takes its default as an
    integer, a duration or a boolean, but is the empty string, not the
    default, as a string. *)
Theorem unset_and_empty_variables (env : Env) (name : string) :
  (LookupEnv env name = None ->
   forall (s : string) (n : Z) (b : bool),
     GetEnvIfSet env name s = s
     /\ GetEnvIntIfSet env name n = Ok n
     /\ GetEnvSecondsIfSet env name n = Ok (int64 (n * Second))
     /\ GetEnvBoolIfSet env name b = Ok b)
  /\ (LookupEnv env name = Some "" ->
      forall (s : string) (n : Z) (b : bool),
        GetEnvIfSet env name s = ""
        /\ GetEnvIntIfSet env name n = Ok n
        /\ GetEnvSecondsIfSet env name n = Ok (int64 (n * Second))
        /\ GetEnvBoolIfSet env name b = Ok b).
Proof.
  split; intros H s n b;
    unfold GetEnvIfSet, GetEnvSecondsIfSet, GetEnvIntIfSet, GetEnvBoolIfSet, Getenv;
    rewrite H; simpl; repeat split; reflexivity.
Qed.

(** ** Further properties of the startup *)

Lemma services_started_app (a b : list event) :
  services_started (a ++ b) = services_started a ++ services_started b.
Proof. unfold services_started. apply flat_map_app. Qed.

Lemma quiet_services_started (tr : list event) :
  no_service_started tr -> services_started tr = [].
Proof.
  unfold no_service_started. induction tr as [| e tr IH]; [reflexivity |].
  simpl. intro H. apply orb_false_iff in H. destruct H as [He Htr].
  rewrite (IH Htr). destruct e as [t | l |]; simpl in *; try reflexivity.
  rewrite He. reflexivity.
Qed.

Lemma services_started_In (tr : list event) (t : task) :
  is_service t = true -> In (EvGo t) tr -> In t (services_started tr).
Proof.
  intros Hs. induction tr as [| e tr IH]; [contradiction |].
  intros [-> | Hin]; simpl.
  - rewrite Hs. left. reflexivity.
  - apply in_or_app. right. apply IH, Hin.
Qed.

Section StartupOutcome.

Context {ManagerSettings APISettings : Type}.
Variable lib : Lib ManagerSettings APISettings.

Lemma bind_outcome {A : Type} (w : World) (pre : list event) (m : M A)
    (k : A -> M (option error)) :
  services_started pre = [] ->
  no_service_started (fst m) ->
  (forall a, snd m = Ok a ->
             services_started (pre ++ fst m) = [] ->
             startup_outcome lib w ((pre ++ fst m) ++ fst (k a)) (snd (k a))) ->
  startup_outcome lib w (pre ++ fst (bind m k)) (snd (bind m k)).
Proof.
  intros Hpre Hm Hk.
  assert (Hquiet : services_started (pre ++ fst m) = []).
  { rewrite services_started_app, Hpre, (quiet_services_started _ Hm). reflexivity. }
  unfold bind. destruct (snd m) as [a | e | v] eqn:Hsnd; cbn [fst snd].
  - rewrite app_assoc. apply Hk; [reflexivity | exact Hquiet].
  - exact Hquiet.
  - exact Hquiet.
Qed.

Lemma or_return_of_sum_Ok {A : Type} (format : string) (r : error + A) (a : A) :
  snd (or_return format (of_sum r)) = Ok a -> r = inr a.
Proof. destruct r as [e | a']; simpl; intro H; [discriminate H | injection H as ->; reflexivity]. Qed.

(** The body of [mainImpl] starts the three tasks as its last steps, after
    both settings were read, or starts none. *)
Lemma mainBody_outcome (w : World) :
  startup_outcome lib w (fst (mainBody lib w)) (snd (mainBody lib w)).
Proof.
  change (fst (mainBody lib w)) with ([] ++ fst (mainBody lib w)).
  unfold mainBody.
  apply bind_outcome; [reflexivity | reflexivity | intros _ _ Hq0].
  apply bind_outcome; [exact Hq0 | apply quiet_lift | intros cfg Hcfg Hq1].
  cbv zeta.
  apply bind_outcome;
    [exact Hq1 | destruct (EnableMetrics cfg); reflexivity | intros _ _ Hq2].
  apply bind_outcome;
    [exact Hq2 | apply quiet_or_return, quiet_newRedisClient | intros rc _ Hq3].
  apply bind_outcome;
    [exact Hq3 | apply quiet_or_return, quiet_newAlertQueue | intros aq _ Hq4].
  apply bind_outcome;
    [exact Hq4 | apply quiet_or_return, quiet_newCommandQueue | intros cq _ Hq5].
  apply bind_outcome;
    [exact Hq5 | apply quiet_or_return, quiet_newDatabase | intros db _ Hq6].
  apply bind_outcome; [exact Hq6 | apply quiet_getLocation | intros loc _ Hq7].
  apply bind_outcome;
    [exact Hq7 | apply quiet_or_return, quiet_of_error | intros _ _ Hq8].
  apply bind_outcome;
    [exact Hq8 | apply quiet_or_return, quiet_of_sum | intros mr Hmr Hq9].
  apply bind_outcome;
    [exact Hq9 | apply quiet_or_return, quiet_of_error | intros _ _ Hq10].
  apply bind_outcome;
    [exact Hq10 | apply quiet_or_return, quiet_of_sum | intros ar Har Hq11].
  match goal with
  | |- startup_outcome _ _ (?p ++ _) _ => set (pre := p) in *
  end.
  cbn [bind emit ret fst snd app].
  exists cfg, mr, ar.
  split; [exact Hcfg |].
  split; [exact (or_return_of_sum_Ok _ _ _ Hmr) |].
  split; [exact (or_return_of_sum_Ok _ _ _ Har) |].
  split; [| reflexivity].
  rewrite services_started_app, Hq11. reflexivity.
Qed.

Lemma mainImpl_services (w : World) :
  services_started (fst (mainImpl lib w)) = services_started (fst (mainBody lib w)).
Proof.
  unfold mainImpl. cbv zeta. cbn [fst].
  rewrite services_started_app. simpl. apply app_nil_r.
Qed.

(** X10.  [mainImpl] starts the API server, the manager and the settings
    refresher together or not at all: either it starts none of them, or it
    starts the three in this order as its last steps, hands the refresher
    the fingerprints of the two settings files as read at startup, and
    returns what [errg.Wait()] returns. *)
Theorem services_start_together_or_not_at_all (w : World) :
  services_started (fst (mainImpl lib w)) = []
  \/ started_together lib w (fst (mainImpl lib w)) (snd (mainImpl lib w)).
Proof.
  pose proof (mainBody_outcome w) as H. unfold startup_outcome in H.
  destruct (snd (mainBody lib w)) as [res | e | v] eqn:Hsnd.
  - right. destruct H as (cfg & mr & ar & Hcfg & Hmr & Har & Hst & Hres).
    exists cfg, mr, ar. rewrite mainImpl_services.
    repeat (split; [assumption |]).
    unfold mainImpl. cbv zeta. cbn [snd]. rewrite Hsnd. exact Hres.
  - left. rewrite mainImpl_services. exact H.
  - left. rewrite mainImpl_services. exact H.
Qed.

(** X11.  The first read at startup is the baseline, not a change: when
    [mainImpl] starts the refresher, a cycle that finds the two files as
    they were at startup pushes no update and keeps both fingerprints. *)
Theorem first_cycle_after_startup_pushes_nothing
    (w : World) (cfg : Config) (mh ah : string) (t : Tick ManagerSettings APISettings) :
  New (environ w) = Ok cfg ->
  In (EvGo (RefreshSettings mh ah)) (fst (mainImpl lib w)) ->
  ReadFile (manager_files t) (Clean lib (ManagerSettingsFilename cfg))
  = ReadFile (files w) (Clean lib (ManagerSettingsFilename cfg)) ->
  ReadFile (api_files t) (Clean lib (APISettingsFilename cfg))
  = ReadFile (files w) (Clean lib (APISettingsFilename cfg)) ->
  manager_updates (fst (cycle lib cfg t mh ah)) = []
  /\ api_updates (fst (cycle lib cfg t mh ah)) = []
  /\ snd (cycle lib cfg t mh ah) = (mh, ah).
Proof.
  intros Hcfg Hin Hm Ha.
  apply (services_started_In _ (RefreshSettings mh ah) eq_refl) in Hin.
  rewrite mainImpl_services in Hin.
  pose proof (mainBody_outcome w) as H. unfold startup_outcome in H.
  destruct (snd (mainBody lib w)) as [res | e | v];
    try (rewrite H in Hin; contradiction).
  destruct H as (cfg' & [sm hm] & [sa ha] & Hcfg' & Hmr & Har & Hst & _).
  rewrite Hcfg in Hcfg'. injection Hcfg' as <-.
  rewrite Hst in Hin. simpl in Hin.
  destruct Hin as [Habs | [Habs | [Heq | []]]]; try discriminate Habs.
  injection Heq as <- <-.
  apply readManagerSettings_same_content in Hm. rewrite Hmr in Hm.
  apply readAPISettings_same_content in Ha. rewrite Har in Ha.
  pose proof (cycle_manager_side lib cfg t hm ha) as Hms.
  pose proof (cycle_api_side lib cfg t hm ha) as Has.
  rewrite Hm, String.eqb_refl in Hms. rewrite Ha, String.eqb_refl in Has.
  destruct Hms as [Hmh Hmu], Has as [Hah Hau].
  split; [exact Hmu | split; [exact Hau |]].
  rewrite (surjective_pairing (snd (cycle lib cfg t hm ha))), Hmh, Hah. reflexivity.
Qed.

End StartupOutcome.

Section StartupFailures.

Context {ManagerSettings APISettings : Type}.
Variable lib : Lib ManagerSettings APISettings.

(** Enter the body of [mainImpl] with the configuration [config.New]
    returned, and go through its steps. *)
Ltac main_enter Hcfg :=
  unfold mainBody;
  rewrite (snd_bind_Ok _ _ tt) by reflexivity;
  rewrite Hcfg;
  rewrite (snd_bind_Ok (lift (Ok _)) _ _) by reflexivity;
  cbv beta zeta;
  rewrite snd_bind_metrics.

Ltac main_pass H := rewrite (snd_bind_or_return_Ok _ _ _ _ H); cbv beta zeta.

(** X12.  A time zone name that does not load is a panic, not a returned
    error: once the backend clients are built, [mainImpl] recovers the
    panic of [getLocation], returns the panic error around the location
    error, has started no service, and the process exits with code 1
    whatever the location error wraps. *)
Theorem invalid_location_panics (w : World) (cfg : Config) (err : error) :
  New (environ w) = Ok cfg ->
  backends_built lib w cfg ->
  LoadLocation w (Location cfg) = inl err ->
  snd (mainImpl lib w)
  = Some (fmtError "panic: %v\n%s"
            [VError (wrapError "failed to load location %s: %w" [VString (Location cfg)] err);
             VBytes (Stack w)])
  /\ no_service_started (fst (mainImpl lib w))
  /\ returnCode (main lib w) = 1%Z.
Proof.
  intros Hcfg (rc & aq & cq & db & Hrc & Haq & Hcq & Hdb) Hloc.
  apply mainImpl_of_Panic.
  main_enter Hcfg. main_pass Hrc. main_pass Haq. main_pass Hcq. main_pass Hdb.
  apply snd_bind_Panic. unfold getLocation. rewrite Hloc. reflexivity.
Qed.

(** X13.  The Redis address is required whatever the queue mode: in a
    well-formed environment where [REDIS_ADDR] is unset or empty, [mainImpl]
    returns the error of [newRedisClient] before it looks at the queue or
    database mode, starts no service, and the process exits with code 1. *)
Theorem redis_address_is_required (w : World) :
  ~ malformed_environment (environ w) ->
  GetEnvIfSet (environ w) "REDIS_ADDR" "" = "" ->
  snd (mainImpl lib w)
  = Some (wrapError "failed to create redis client: %w" []
            (errorString "redis address is empty"))
  /\ no_service_started (fst (mainImpl lib w))
  /\ returnCode (main lib w) = 1%Z.
Proof.
  intros Hgood Haddr.
  assert (Hcfg : New (environ w) = Ok (config_table (environ w))).
  { pose proof (New_outcome (environ w)) as Hout.
    destruct (New (environ w)) as [cfg | e | v]; simpl in Hout.
    - destruct Hout as [-> _]. reflexivity.
    - contradiction.
    - exfalso. apply Hgood.
      destruct Hout as (name & err & Hin & Hbad & _).
      unfold malformed_variable in Hbad.
      destruct (is_bool_variable name) eqn:Hkind.
      + right. exists name. split; [| exact Hbad].
        unfold is_bool_variable in Hkind. apply existsb_exists in Hkind.
        destruct Hkind as [x [Hx Heq]]. apply String.eqb_eq in Heq. subst x. exact Hx.
      + left. exists name. split; [| exact Hbad].
        simpl in Hin.
        repeat (destruct Hin as [<- | Hin]; [first [discriminate Hkind | simpl; tauto] |]).
        contradiction. }
  assert (Hfail : backend_failure lib w (config_table (environ w))
                    "failed to create redis client: %w"
                    (errorString "redis address is empty")).
  { apply redis_client_fails. unfold newRedisClient.
    cbn [config_table Redis Addr]. rewrite Haddr. reflexivity. }
  destruct (mainImpl_of_Fail lib w _
              (mainBody_backend_failure lib w _ _ _ Hcfg Hfail)) as (H1 & H2 & H3).
  split; [exact H1 | split; [exact H2 | exact H3]].
Qed.

(** *** The two queues *)

Lemma newSQSClient_Ok (w : World) (cfg : AwsConfig) (queueCfg : SqsQueueConfig) (l : Logger)
    (q : FifoQueue) :
  snd (newSQSClient w cfg queueCfg l) = Ok q ->
  kind_of q = KindSQS /\ queue_name q = QueueName queueCfg.
Proof.
  unfold newSQSClient, bind.
  destruct (snd (createAwsCfg w cfg l)) as [awsCfg | e | v]; cbn [snd fst];
    try discriminate.
  destruct (sqs_Init w (QueueName queueCfg)); cbn [of_error fail ret snd fst];
    try discriminate.
  intro H. injection H as <-. split; reflexivity.
Qed.

Lemma newAlertQueue_Ok (w : World) (rc : RedisOptions) (cl : ChannelLocker) (cfg : Config)
    (l : Logger) (q : FifoQueue) :
  snd (newAlertQueue lib w rc cl cfg l) = Ok q ->
  (ToLower lib (QueueMode cfg) = "sqs"
   /\ kind_of q = KindSQS /\ queue_name q = QueueName (AlertQueue (Aws cfg)))
  \/ (ToLower lib (QueueMode cfg) = "redis" /\ q = RedisFifoQueue rc cl "alerts")
  \/ (ToLower lib (QueueMode cfg) = "in-memory"
      /\ q = InMemoryFifoQueue "alerts" 1000 (5 * Second)).
Proof.
  unfold newAlertQueue. cbv zeta.
  destruct (String.eqb_spec (ToLower lib (QueueMode cfg)) "sqs") as [-> | _].
  { intro H. left. split; [reflexivity | eapply newSQSClient_Ok, H]. }
  destruct (String.eqb_spec (ToLower lib (QueueMode cfg)) "redis") as [-> | _].
  { unfold bind. destruct (redis_Init w "alerts"); cbn [of_error fail ret snd fst];
      [discriminate |].
    intro H. injection H as <-. right. left. split; reflexivity. }
  destruct (String.eqb_spec (ToLower lib (QueueMode cfg)) "in-memory") as [-> | _].
  { intro H. injection H as <-. right. right. split; reflexivity. }
  discriminate.
Qed.

Lemma newCommandQueue_Ok (w : World) (rc : RedisOptions) (cl : ChannelLocker) (cfg : Config)
    (l : Logger) (q : FifoQueue) :
  snd (newCommandQueue lib w rc cl cfg l) = Ok q ->
  (ToLower lib (QueueMode cfg) = "sqs"
   /\ kind_of q = KindSQS /\ queue_name q = QueueName (CommandQueue (Aws cfg)))
  \/ (ToLower lib (QueueMode cfg) = "redis" /\ q = RedisFifoQueue rc cl "commands")
  \/ (ToLower lib (QueueMode cfg) = "in-memory"
      /\ q = InMemoryFifoQueue "commands" 1000 (5 * Second)).
Proof.
  unfold newCommandQueue. cbv zeta.
  destruct (String.eqb_spec (ToLower lib (QueueMode cfg)) "sqs") as [-> | _].
  { intro H. left. split; [reflexivity | eapply newSQSClient_Ok, H]. }
  destruct (String.eqb_spec (ToLower lib (QueueMode cfg)) "redis") as [-> | _].
  { unfold bind. destruct (redis_Init w "commands"); cbn [of_error fail ret snd fst];
      [discriminate |].
    intro H. injection H as <-. right. left. split; reflexivity. }
  destruct (String.eqb_spec (ToLower lib (QueueMode cfg)) "in-memory") as [-> | _].
  { intro H. injection H as <-. right. right. split; reflexivity. }
  destruct (String.eqb (ToLower lib (QueueMode cfg)) ""); discriminate.
Qed.

(** X14.  The alert queue and the command queue of a run are always of the
    same backend: when both are built, they are two SQS queues named by the
    configuration, or the Redis queues "alerts" and "commands" on the same
    client and locker, or the in-memory queues "alerts" and "commands". *)
Theorem queue_backends_agree (w : World) (rc : RedisOptions) (cl : ChannelLocker)
    (cfg : Config) (l : Logger) (aq cq : FifoQueue) :
  snd (newAlertQueue lib w rc cl cfg l) = Ok aq ->
  snd (newCommandQueue lib w rc cl cfg l) = Ok cq ->
  kind_of aq = kind_of cq
  /\ match kind_of aq with
     | KindSQS =>
         queue_name aq = QueueName (AlertQueue (Aws cfg))
         /\ queue_name cq = QueueName (CommandQueue (Aws cfg))
     | KindRedis =>
         aq = RedisFifoQueue rc cl "alerts" /\ cq = RedisFifoQueue rc cl "commands"
     | KindInMemory =>
         aq = InMemoryFifoQueue "alerts" 1000 (5 * Second)
         /\ cq = InMemoryFifoQueue "commands" 1000 (5 * Second)
     end.
Proof.
  intros Ha Hc.
  apply newAlertQueue_Ok in Ha. apply newCommandQueue_Ok in Hc.
  destruct Ha as [(Ma & Ka & Na) | [(Ma & ->) | (Ma & ->)]];
    destruct Hc as [(Mc & Kc & Nc) | [(Mc & ->) | (Mc & ->)]];
    try (rewrite Ma in Mc; discriminate Mc).
  - rewrite Ka, Kc. split; [reflexivity | split; assumption].
  - split; [reflexivity | split; reflexivity].
  - split; [reflexivity | split; reflexivity].
Qed.

(** X15.  A queue mode that lower-cases to the empty string is reported as
    unknown: [newCommandQueue] has a message of its own for it ("queue mode
    is not set"), but [newAlertQueue] has none and runs first, so [mainImpl]
    returns the unknown-mode error of the alert queue. *)
Theorem empty_queue_mode_is_reported_as_unknown (w : World) (cfg : Config) (rc : RedisOptions) :
  New (environ w) = Ok cfg ->
  ToLower lib (QueueMode cfg) = "" ->
  snd (newRedisClient (Redis cfg)) = Ok rc ->
  newCommandQueue lib w rc (RedisChannelLocker rc) cfg (newLogger cfg)
  = fail (errorString "queue mode is not set (QUEUE_MODE=<mode>)")
  /\ newAlertQueue lib w rc (RedisChannelLocker rc) cfg (newLogger cfg)
     = fail (fmtError "unknown queue mode: %s" [VString (QueueMode cfg)])
  /\ snd (mainImpl lib w)
     = Some (wrapError "failed to create alert queue: %w" []
               (fmtError "unknown queue mode: %s" [VString (QueueMode cfg)]))
  /\ returnCode (main lib w) = 1%Z.
Proof.
  intros Hcfg Hmode Hrc.
  assert (Hcq : newCommandQueue lib w rc (RedisChannelLocker rc) cfg (newLogger cfg)
                = fail (errorString "queue mode is not set (QUEUE_MODE=<mode>)")).
  { unfold newCommandQueue. cbv zeta. rewrite Hmode. reflexivity. }
  assert (Haq : newAlertQueue lib w rc (RedisChannelLocker rc) cfg (newLogger cfg)
                = fail (fmtError "unknown queue mode: %s" [VString (QueueMode cfg)])).
  { unfold newAlertQueue. cbv zeta. rewrite Hmode. reflexivity. }
  split; [exact Hcq | split; [exact Haq |]].
  assert (Hfail : backend_failure lib w cfg "failed to create alert queue: %w"
                    (fmtError "unknown queue mode: %s" [VString (QueueMode cfg)])).
  { apply alert_queue_fails with rc; [exact Hrc | rewrite Haq; reflexivity]. }
  destruct (mainImpl_of_Fail lib w _
              (mainBody_backend_failure lib w _ _ _ Hcfg Hfail)) as (H1 & _ & H3).
  split; [exact H1 | exact H3].
Qed.

End StartupFailures.

(** ** Further properties of the fingerprint *)

Lemma hex_digits_of_byte (b : byte) :
  is_lower_hex (hex_digit (N.shiftr (Byte.to_N b) 4)) = true
  /\ is_lower_hex (hex_digit (N.land (Byte.to_N b) 15)) = true.
Proof. destruct b; split; reflexivity. Qed.

Lemma EncodeToString_hex (src : list byte) :
  string_forallb is_lower_hex (EncodeToString src) = true.
Proof.
  induction src as [| b rest IH]; [reflexivity |].
  cbn [EncodeToString string_forallb].
  destruct (hex_digits_of_byte b) as [Hhi Hlo].
  rewrite Hhi, Hlo, IH. reflexivity.
Qed.

(** X16.  A fingerprint is always 64 lower-case hexadecimal digits, so it is
    never the empty string that the readers return beside an error. *)
Theorem fingerprint_is_64_hex_digits (input : list byte) :
  String.length (hash input) = 64
  /\ string_forallb is_lower_hex (hash input) = true
  /\ hash input <> "".
Proof.
  split; [apply hash_length | split].
  - unfold hash. apply EncodeToString_hex.
  - intro H. pose proof (hash_length input) as Hlen. rewrite H in Hlen. discriminate Hlen.
Qed.

(** ** Properties of the Prometheus metrics *)

Section MetricsProperties.

Context {float64 : Type}.
Variable one : float64.















End MetricsProperties.

(** ** The further statements on the sample instances *)

Lemma loop_holds_last_read_fingerprint_witness :
  snd (refreshSettings sample_lib false
         [changed_tick; sample_tick TimeAfter (only_api_file rules_v1) None None false]
         sample_cfg (hash admins_v1) (hash rules_v1))
  = Waiting (hash admins_v2) (hash rules_v1).
Proof.
  rewrite (loop_holds_last_read_fingerprint sample_lib sample_cfg
             [changed_tick; sample_tick TimeAfter (only_api_file rules_v1) None None false]
             (hash admins_v1) (hash rules_v1)).
  - vm_compute. reflexivity.
  - repeat constructor.
Defined.

Lemma steady_file_is_pushed_at_most_once_witness :
  List.length
    (manager_updates
       (fst (refreshSettings sample_lib false [refused_tick; refused_tick; changed_tick]
               sample_cfg (hash admins_v1) (hash rules_v1)))) <= 1.
Proof.
  apply (proj1 (steady_file_is_pushed_at_most_once sample_lib sample_cfg false
                  [refused_tick; refused_tick; changed_tick] (hash admins_v1) (hash rules_v1))
           (inr admins_v2)).
  repeat constructor.
Defined.

Lemma kinds_do_not_interfere_witness :
  api_updates (fst (cycle sample_lib sample_cfg refused_tick (hash admins_v1) (hash rules_v1)))
  = api_updates (fst (cycle sample_lib sample_cfg unchanged_tick (hash admins_v2) (hash rules_v1))).
Proof.
  apply (proj2 (kinds_do_not_interfere sample_lib sample_cfg unchanged_tick refused_tick
                  (hash admins_v2) (hash admins_v1) (hash rules_v1) (hash rules_v1))).
  reflexivity.
Defined.

Lemma New_panics_on_first_malformed_witness :
  panic_of_first_malformed twice_broken_env
    (VSprintf "failed to parse environment variable %s as bool: %v"
       [VString "VERBOSE"; VError (NumError "ParseBool" "yes" (Sentinel ErrSyntax))]).
Proof.
  apply New_panics_on_first_malformed. vm_compute. reflexivity.
Defined.

Lemma int32_settings_wrap_witness :
  parsed_int wide_env "AWS_SQS_ALERT_QUEUE_WAIT_TIME_SECONDS" 20 = 4294967316%Z
  /\ (- 2 ^ 31 <= WaitTimeSeconds (AlertQueue (Aws (config_of wide_env))) < 2 ^ 31)%Z
  /\ ((WaitTimeSeconds (AlertQueue (Aws (config_of wide_env)))
       - parsed_int wide_env "AWS_SQS_ALERT_QUEUE_WAIT_TIME_SECONDS" 20) mod 2 ^ 32 = 0)%Z.
Proof.
  split; [vm_compute; reflexivity |].
  pose proof (int32_settings_wrap wide_env (config_of wide_env) eq_refl) as H.
  apply Forall_cons_iff in H. destruct H as [_ H].
  apply Forall_cons_iff in H. destruct H as [_ H].
  apply Forall_cons_iff in H. destruct H as [(Hrange & Hmod & _) _].
  split; [exact Hrange | exact Hmod].
Defined.


Lemma unset_and_empty_variables_witness :
  GetEnvIfSet empty_mode_env "QUEUE_MODE" "redis" = ""
  /\ GetEnvIntIfSet empty_mode_env "QUEUE_MODE" 7 = Ok 7%Z.
Proof.
  destruct (proj2 (unset_and_empty_variables empty_mode_env "QUEUE_MODE") eq_refl
              "redis" 7%Z true) as (Hs & Hi & _).
  split; [exact Hs | exact Hi].
Defined.

Lemma first_cycle_after_startup_pushes_nothing_witness :
  manager_updates
    (fst (cycle sample_lib sample_cfg unchanged_tick (hash admins_v1) (hash rules_v1))) = []
  /\ api_updates
       (fst (cycle sample_lib sample_cfg unchanged_tick (hash admins_v1) (hash rules_v1))) = []
  /\ snd (cycle sample_lib sample_cfg unchanged_tick (hash admins_v1) (hash rules_v1))
     = (hash admins_v1, hash rules_v1).
Proof.
  apply (first_cycle_after_startup_pushes_nothing sample_lib started_world).
  - reflexivity.
  - vm_compute. do 6 right. left. reflexivity.
  - reflexivity.
  - reflexivity.
Defined.

Lemma invalid_location_panics_witness :
  returnCode (main sample_lib lost_world) = 1%Z.
Proof.
  destruct (invalid_location_panics sample_lib lost_world sample_cfg
              (wrapError "unknown time zone %s: %w" [VString "Europe/Oslo"]
                 (Sentinel Canceled)))
    as (_ & _ & Hcode).
  - reflexivity.
  - do 4 eexists. repeat split; reflexivity.
  - reflexivity.
  - exact Hcode.
Defined.

Lemma redis_address_is_required_witness :
  returnCode (main sample_lib (sample_world [("QUEUE_MODE", "in-memory")] (two_files [] []) None))
  = 1%Z.
Proof.
  destruct (redis_address_is_required sample_lib
              (sample_world [("QUEUE_MODE", "in-memory")] (two_files [] []) None))
    as (_ & _ & Hcode).
  - intros [(name & Hin & Hset & _) | (name & Hin & Hset & _)]; simpl in Hin;
      repeat (destruct Hin as [<- | Hin]; [apply Hset; reflexivity |]); exact Hin.
  - reflexivity.
  - exact Hcode.
Defined.

Lemma queue_backends_agree_witness :
  kind_of (InMemoryFifoQueue "alerts" 1000 (5 * Second))
  = kind_of (InMemoryFifoQueue "commands" 1000 (5 * Second)).
Proof.
  apply (queue_backends_agree sample_lib started_world
           {| opt_Addr := "localhost:6379"; opt_Username := ""; opt_Password := "";
              opt_DB := 0%Z |}
           (RedisChannelLocker {| opt_Addr := "localhost:6379"; opt_Username := "";
                                  opt_Password := ""; opt_DB := 0%Z |})
           sample_cfg (newLogger sample_cfg)
           (InMemoryFifoQueue "alerts" 1000 (5 * Second))
           (InMemoryFifoQueue "commands" 1000 (5 * Second))); reflexivity.
Defined.

Lemma empty_queue_mode_is_reported_as_unknown_witness :
  snd (mainImpl sample_lib (sample_world empty_mode_env (two_files admins_v1 rules_v1) None))
  = Some (wrapError "failed to create alert queue: %w" []
            (fmtError "unknown queue mode: %s" [VString ""])).
Proof.
  destruct (empty_queue_mode_is_reported_as_unknown sample_lib
              (sample_world empty_mode_env (two_files admins_v1 rules_v1) None)
              (config_of empty_mode_env)
              {| opt_Addr := "localhost:6379"; opt_Username := ""; opt_Password := "";
                 opt_DB := 0%Z |})
    as (_ & _ & Hret & _).
  - reflexivity.
  - reflexivity.
  - reflexivity.
  - exact Hret.
Defined.


